(** * Resource Traversal MCP: service detection, extractors, browser
      sessions and the [traverse_resource] handler

    A shallow embedding of [lib/extractors.ts], [lib/browser.ts] and
    [index.ts].

    - JavaScript strings are Rocq strings holding the UTF-8 bytes of the
      text; what JavaScript counts in UTF-16 code units is computed on the
      code units that the bytes encode.
    - The page is a DOM tree, queried with the CSS selectors of the source;
      what the rendering engine computes from a node ([innerText],
      [innerHTML], the resolved [href]) is supplied by the environment.
    - The asynchronous browser calls are programs of a state-and-exception
      monad.  The state holds the live document and the trace of the calls
      made so far; a thrown value is kept as its message.
    - What the browser answers (whether the profile directory exists, which
      call throws and with what message, how the page changes after a call,
      its title, its content, its frames, whether a control is found) is an
      environment, over which the theorems quantify. *)

From Stdlib Require Import String Ascii List Bool Arith ZArith Lia Permutation.
Import ListNotations.
Open Scope string_scope.

(** ** Strings as the source uses them

    A text is held as its UTF-8 bytes.  Comparing, concatenating and
    searching for a well-formed text give the same on the bytes as on the
    UTF-16 code units of JavaScript; [length] and [substring] count code
    units and [trim] removes characters, so these three decode the bytes. *)
Module Str.

(** One line feed, the JavaScript escape \n. *)
Definition nl : string := String (ascii_of_nat 10) EmptyString.

(** [String.prototype.includes]: [sub] occurs somewhere in [s]. *)
Fixpoint includes (s sub : string) : bool :=
  String.prefix sub s ||
  match s with
  | EmptyString => false
  | String _ rest => includes rest sub
  end.

(** JavaScript truthiness of a string: the empty string is falsy. *)
Definition truthy (s : string) : bool :=
  match s with EmptyString => false | _ => true end.

(** [Array.prototype.join]. *)
Definition join (sep : string) (parts : list string) : string :=
  String.concat sep parts.

(** *** Code units

    The code units of a text: one for a character of one, two or three
    bytes, a surrogate pair for a character of four.  A byte that starts no
    well-formed character decodes to U+FFFD. *)
Definition code (c : ascii) : N := N_of_ascii c.

(** The six payload bits of a continuation byte [10xxxxxx]. *)
Definition continuation (c : ascii) : option N :=
  let b := code c in
  if (128 <=? b)%N && (b <? 192)%N then Some (b - 128)%N else None.

(** The payloads of the continuation bytes at the head of [s], at most [n]
    of them. *)
Fixpoint continuations (n : nat) (s : string) : list N :=
  match n, s with
  | S k, String c rest =>
      match continuation c with
      | Some x => x :: continuations k rest
      | None => []
      end
  | _, _ => []
  end.

(** The code units of one code point. *)
Definition utf16 (cp : N) : list N :=
  if (cp <? 65536)%N then [cp]
  else [(55296 + (cp - 65536) / 1024)%N; (56320 + (cp - 65536) mod 1024)%N].

Definition replacement : list N * nat := ([65533%N], 0).

(** The character that starts with the byte [c0] in front of [rest]: its
    code units, and how many bytes of [rest] belong to it. *)
Definition decode (c0 : ascii) (rest : string) : list N * nat :=
  let b := code c0 in
  if (b <? 128)%N then ([b], 0)
  else if (b <? 192)%N then replacement
  else if (b <? 224)%N then
    match continuations 1 rest with
    | [x1] => ([((b - 192) * 64 + x1)%N], 1)
    | _ => replacement
    end
  else if (b <? 240)%N then
    match continuations 2 rest with
    | [x1; x2] => ([(((b - 224) * 64 + x1) * 64 + x2)%N], 2)
    | _ => replacement
    end
  else if (b <? 248)%N then
    match continuations 3 rest with
    | [x1; x2; x3] => (utf16 ((((b - 240) * 64 + x1) * 64 + x2) * 64 + x3)%N, 3)
    | _ => replacement
    end
  else replacement.

Fixpoint units (s : string) : list N :=
  match s with
  | EmptyString => []
  | String c0 r0 =>
      let (first, taken) := decode c0 r0 in
      (first ++
       match taken, r0 with
       | 1, String _ r1 => units r1
       | 2, String _ (String _ r2) => units r2
       | 3, String _ (String _ (String _ r3)) => units r3
       | _, _ => units r0
       end)%list
  end.

(** [s] without its first [k] bytes. *)
Fixpoint skip (k : nat) (s : string) : string :=
  match k, s with
  | S k', String _ rest => skip k' rest
  | _, _ => s
  end.

(** [s.length]. *)
Definition length (s : string) : nat := List.length (units s).

(** [sub] is the start of [l], and [sub] occurs somewhere in [l]. *)
Fixpoint starts (sub l : list N) : bool :=
  match sub, l with
  | [], _ => true
  | x :: sub', y :: l' => (x =? y)%N && starts sub' l'
  | _ :: _, [] => false
  end.

Fixpoint occurs (sub l : list N) : bool :=
  starts sub l ||
  match l with
  | [] => false
  | _ :: l' => occurs sub l'
  end.

(** [r.includes(text.substring(0, n))]: the first [n] code units of [text]
    occur in [r].  (When the cut falls inside a surrogate pair the
    substring ends with a lone surrogate, which is why the test is made on
    code units.) *)
Definition includes_start (r : string) (n : nat) (text : string) : bool :=
  occurs (firstn n (units text)) (units r).

(** *** trim

    The characters that [String.prototype.trim] removes: WhiteSpace and
    LineTerminator of ECMAScript (tab, line feed, vertical tab, form feed,
    carriage return, space, U+00A0, U+1680, U+2000 to U+200A, U+2028,
    U+2029, U+202F, U+205F, U+3000, U+FEFF). *)
Definition is_white (cp : N) : bool :=
  ((9 <=? cp) && (cp <=? 13) || (cp =? 32) || (cp =? 160) || (cp =? 5760)
   || (8192 <=? cp) && (cp <=? 8202) || (cp =? 8232) || (cp =? 8233)
   || (cp =? 8239) || (cp =? 8287) || (cp =? 12288) || (cp =? 65279))%N.

(** [s] is one such character. *)
Definition white (s : string) : bool :=
  match units s with
  | [cp] => is_white cp
  | _ => false
  end.

(** Drops leading white space, a character of one, two or three bytes at a
    time. *)
Fixpoint trim_start (s : string) : string :=
  match s with
  | EmptyString => EmptyString
  | String c0 r0 =>
      if white (String c0 EmptyString) then trim_start r0
      else
        match r0 with
        | EmptyString => s
        | String c1 r1 =>
            if white (String c0 (String c1 EmptyString)) then trim_start r1
            else
              match r1 with
              | EmptyString => s
              | String c2 r2 =>
                  if white (String c0 (String c1 (String c2 EmptyString)))
                  then trim_start r2
                  else s
              end
        end
  end.

(** Drops trailing white space: going back from the end, what is kept so
    far is dropped as soon as it is one white-space character. *)
Fixpoint trim_end (s : string) : string :=
  match s with
  | EmptyString => EmptyString
  | String c rest =>
      let kept := String c (trim_end rest) in
      if white kept then EmptyString else kept
  end.

Definition trim (s : string) : string := trim_end (trim_start s).

(** *** Class lists

    ASCII white space of the DOM standard, at which a [class] attribute is
    split: tab, line feed, form feed, carriage return, space. *)
Definition is_space (c : ascii) : bool :=
  let n := nat_of_ascii c in
  (n =? 9)%nat || (n =? 10)%nat || (n =? 12)%nat || (n =? 13)%nat || (n =? 32)%nat.

Fixpoint words_aux (cur : string) (s : string) : list string :=
  match s with
  | EmptyString => if truthy cur then [cur] else []
  | String c rest =>
      if is_space c
      then (if truthy cur then [cur] else []) ++ words_aux EmptyString rest
      else words_aux (cur ++ String c EmptyString) rest
  end.

Definition words (s : string) : list string := words_aux EmptyString s.

End Str.

(** ** lib/extractors.ts: URL patterns and service detection *)
Module Detect.

(** [ServiceType = keyof typeof SERVICE_PATTERNS]. *)
Inductive ServiceType : Type :=
| gemini | googleDocs | notebookLM | chatgpt | grok | discord | slack | raindrop.

Definition service_eqb (a b : ServiceType) : bool :=
  match a, b with
  | gemini, gemini | googleDocs, googleDocs | notebookLM, notebookLM
  | chatgpt, chatgpt | grok, grok | discord, discord | slack, slack
  | raindrop, raindrop => true
  | _, _ => false
  end.

(** The key of a service in [SERVICE_PATTERNS], as it is printed in the
    heading of a traversal. *)
Definition service_name (s : ServiceType) : string :=
  match s with
  | gemini => "gemini"
  | googleDocs => "googleDocs"
  | notebookLM => "notebookLM"
  | chatgpt => "chatgpt"
  | grok => "grok"
  | discord => "discord"
  | slack => "slack"
  | raindrop => "raindrop"
  end.

(** Every regular expression of the table is a start anchor followed by
    escaped literal characters: [/^literal/]. *)
Inductive pattern : Type :=
| Anchored (literal : string).

(** [RegExp.prototype.test] for such a pattern (no flags, so no state). *)
Definition test (p : pattern) (url : string) : bool :=
  match p with
  | Anchored literal => String.prefix literal url
  end.

(** [SERVICE_PATTERNS], in declaration order, which is the order in which
    [Object.entries] enumerates its string keys. *)
Definition SERVICE_PATTERNS : list (ServiceType * pattern) :=
  [ (gemini,     Anchored "https://gemini.google.com/app/");
    (googleDocs, Anchored "https://docs.google.com/document/");
    (notebookLM, Anchored "https://notebooklm.google.com/");
    (chatgpt,    Anchored "https://chatgpt.com/c/");
    (grok,       Anchored "https://grok.com/c/");
    (discord,    Anchored "https://discord.com/channels/");
    (slack,      Anchored "https://app.slack.com/client/");
    (raindrop,   Anchored "https://app.raindrop.io/my/") ].

(** The loop of [detectService] over an arbitrary table. *)
Fixpoint detect_in (table : list (ServiceType * pattern)) (url : string)
  : option ServiceType :=
  match table with
  | [] => None
  | (service, pat) :: rest =>
      if test pat url then Some service else detect_in rest url
  end.

(** [detectService(url)]; [None] is the source's [null]. *)
Definition detectService (url : string) : option ServiceType :=
  detect_in SERVICE_PATTERNS url.

End Detect.

(** ** The page: a DOM tree and the CSS selectors the source queries it with *)
Module Dom.

#[local] Set Warnings "-register-all".

Inductive node : Type :=
| Text (data : string)
| Elem (tag : string) (attrs : list (string * string)) (children : list node).

(** The child nodes of the [document]; an HTML page has one element there,
    the root [html]. *)
Definition document : Type := list node.

(** An element reached by a query, with its ancestors, the parent first. *)
Record located : Type := Located { self : node; ancestors : list node }.

Inductive simple : Type :=
| Tag (name : string)                  (* main *)
| Class (name : string)                (* .prose *)
| HasAttr (name : string)              (* [data-message-id] *)
| AttrIs (name value : string)         (* [role="main"] *)
| AttrContains (name value : string).  (* [class*="message"] *)

(** A compound selector ([div[class*="overflow-y-auto"]]: every part
    holds) and a selector list (comma separated: one of them holds). *)
Definition compound : Type := list simple.
Definition selector : Type := list compound.

Fixpoint attribute (name : string) (attrs : list (string * string))
  : option string :=
  match attrs with
  | [] => None
  | (k, v) :: rest => if String.eqb k name then Some v else attribute name rest
  end.

Definition matches_simple (n : node) (p : simple) : bool :=
  match n with
  | Text _ => false
  | Elem tag attrs _ =>
      match p with
      | Tag name => String.eqb tag name
      | Class name =>
          match attribute "class" attrs with
          | Some v => existsb (String.eqb name) (Str.words v)
          | None => false
          end
      | HasAttr name =>
          match attribute name attrs with Some _ => true | None => false end
      | AttrIs name value =>
          match attribute name attrs with
          | Some v => String.eqb v value
          | None => false
          end
      | AttrContains name value =>
          match attribute name attrs with
          | Some v => Str.truthy value && Str.includes v value
          | None => false
          end
      end
  end.

Definition matches (sel : selector) (n : node) : bool :=
  existsb (fun c => forallb (matches_simple n) c) sel.

(** The elements of a subtree in document order, the root included. *)
Fixpoint subtree (anc : list node) (n : node) : list located :=
  match n with
  | Text _ => []
  | Elem _ _ children =>
      Located n anc :: flat_map (subtree (n :: anc)) children
  end.

(** The descendants of an element, itself excluded. *)
Definition descendants (e : located) : list located :=
  match self e with
  | Text _ => []
  | Elem _ _ children =>
      flat_map (subtree (self e :: ancestors e)) children
  end.

Definition all_elements (d : document) : list located :=
  flat_map (subtree []) d.

(** [document.querySelectorAll] and [document.querySelector]. *)
Definition querySelectorAll (sel : selector) (d : document) : list located :=
  filter (fun e => matches sel (self e)) (all_elements d).

Definition querySelector (sel : selector) (d : document) : option located :=
  hd_error (querySelectorAll sel d).

(** [element.querySelectorAll] and [element.querySelector]. *)
Definition querySelectorAllIn (sel : selector) (e : located) : list located :=
  filter (fun x => matches sel (self x)) (descendants e).

Definition querySelectorIn (sel : selector) (e : located) : option located :=
  hd_error (querySelectorAllIn sel e).

(** [element.closest]: the element itself or its nearest matching
    ancestor. *)
Fixpoint closest_in (sel : selector) (chain : list node) : option located :=
  match chain with
  | [] => None
  | n :: up => if matches sel n then Some (Located n up) else closest_in sel up
  end.

Definition closest (sel : selector) (e : located) : option located :=
  closest_in sel (self e :: ancestors e).

(** [element.parentElement]. *)
Definition parentElement (e : located) : option located :=
  match ancestors e with
  | [] => None
  | p :: up => Some (Located p up)
  end.

Definition is_element (n : node) : bool :=
  match n with Elem _ _ _ => true | Text _ => false end.

Definition has_tag (names : list string) (n : node) : bool :=
  match n with
  | Elem tag _ _ => existsb (String.eqb tag) names
  | Text _ => false
  end.

(** [document.body]: the first [body] or [frameset] child of the root
    element, [None] (the source's [null]) when there is none. *)
Definition body (d : document) : option located :=
  match find is_element d with
  | Some (Elem tag attrs children as root) =>
      match find (has_tag ["body"; "frameset"]) children with
      | Some b => Some (Located b [root])
      | None => None
      end
  | _ => None
  end.

(** What is left of a subtree once every element matching [sel] called
    [remove()]. *)
Fixpoint prune (sel : selector) (n : node) : list node :=
  match n with
  | Text _ => [n]
  | Elem tag attrs children =>
      if matches sel n then []
      else [Elem tag attrs (flat_map (prune sel) children)]
  end.

(** [document.querySelectorAll(sel).forEach(el => el.remove())]. *)
Definition removeAll (sel : selector) (d : document) : document :=
  flat_map (prune sel) d.

(** [clone.querySelectorAll(sel).forEach(el => el.remove())] on a deep
    clone of [n]: only descendants of the clone are candidates. *)
Definition cloneWithout (sel : selector) (n : node) : node :=
  match n with
  | Text _ => n
  | Elem tag attrs children => Elem tag attrs (flat_map (prune sel) children)
  end.

End Dom.

(** ** The Playwright calls of the source, as programs over a page state *)
Module Run.

(** The scripts handed to [page.evaluate], one per call site. *)
Inductive script : Type :=
| ScrollToTop (candidates : list Dom.selector)
    (* [scrollTop = 0] on the first candidate present, else on [window] *)
| ReadFragments (service : Detect.ServiceType)
| ReadMainText (service : Detect.ServiceType)
| ReadGeneric
| ReadBodyText.

(** Playwright selectors of [page.$] and [frame.$]. *)
Inductive locator : Type :=
| HasText (tag text : string)   (* a:has-text(...) *)
| Css (sel : Dom.selector).

(** One browser call (or console line) made by the program. *)
Inductive event : Type :=
| Launch (headless : bool)            (* chromium.launchPersistentContext *)
| NewPage                             (* context.newPage() *)
| AddInitScript                       (* page.addInitScript *)
| Goto (url : string) (timeout : Z)   (* page.goto, domcontentloaded *)
| WaitForTimeout (ms : Z)             (* page.waitForTimeout *)
| WaitForSelector (sel : Dom.selector) (timeout : Z)
| Content                             (* page.content() *)
| Query (frame : option nat) (alternatives : list locator)
                                      (* page.$ or, in frame i, frame.$ *)
| Click                               (* handle.click() *)
| Title                               (* page.title() *)
| Evaluate (s : script)               (* page.evaluate *)
| Close                               (* context.close() *)
| Console (line : string).            (* console.log, console.error *)

(** The page as the program sees it, and what it did so far (the most
    recent call first). *)
Record State : Type := MkState { doc : Dom.document; trace : list event }.

(** A call returns or throws; a thrown value is kept as the text that
    [error instanceof Error ? error.message : String(error)] gives. *)
Inductive result (A : Type) : Type :=
| Ok (value : A)
| Throw (message : string).
Arguments Ok {A} value.
Arguments Throw {A} message.

Definition Prog (A : Type) : Type := State -> result A * State.

(** Everything the program does not decide itself. *)
Record Env : Type := MkEnv {
  innerText : Dom.node -> string;        (* the rendered text of a node *)
  innerHTML : Dom.node -> string;
  href : Dom.node -> string;             (* the resolved [href] of a link *)
  profile_exists : State -> bool;        (* existsSync(PROFILE_DIR) *)
  throws : event -> State -> option string; (* the call fails with ... *)
  react : event -> State -> Dom.document;   (* the page after the call *)
  first_page : State -> bool;            (* context.pages()[0] is defined *)
  page_content : State -> string;        (* what page.content() returns *)
  page_title : State -> string;          (* what page.title() returns *)
  frames : State -> nat;                 (* page.frames().length *)
  found : option nat -> list locator -> State -> bool
                                         (* $ returns a handle, not null *)
}.

Definition ret {A} (a : A) : Prog A := fun s => (Ok a, s).

Definition throw {A} (message : string) : Prog A := fun s => (Throw message, s).

Definition bind {A B} (m : Prog A) (k : A -> Prog B) : Prog B :=
  fun s =>
    match m s with
    | (Ok a, s1) => k a s1
    | (Throw e, s1) => (Throw e, s1)
    end.

(** [try { m } catch (e) { h e }]. *)
Definition try_catch {A} (m : Prog A) (h : string -> Prog A) : Prog A :=
  fun s =>
    match m s with
    | (Ok a, s1) => (Ok a, s1)
    | (Throw e, s1) => h e s1
    end.

(** [try { m } finally { f }]: [f] runs on both exits; when [f] throws,
    its exception replaces the outcome of [m]. *)
Definition try_finally {A} (m : Prog A) (f : Prog unit) : Prog A :=
  fun s =>
    match m s with
    | (r, s1) =>
        match f s1 with
        | (Ok _, s2) => (r, s2)
        | (Throw e, s2) => (Throw e, s2)
        end
    end.

(** [promise.catch(() => { })]. *)
Definition ignore_errors (m : Prog unit) : Prog unit :=
  try_catch m (fun _ => ret tt).

(** [for (let i = 0; i < n; i++) { body }], for a body that does not read
    [i]. *)
Fixpoint for_times (n : nat) (body : Prog unit) : Prog unit :=
  match n with
  | O => ret tt
  | S k => bind body (fun _ => for_times k body)
  end.

Definition get {A} (f : State -> A) : Prog A := fun s => (Ok (f s), s).

Definition console (line : string) : Prog unit :=
  fun s => (Ok tt, MkState (doc s) (Console line :: trace s)).

Section Calls.
Variable env : Env.

(** One awaited browser call: it is recorded, then it throws or the
    page moves on. *)
Definition call (ev : event) : Prog unit :=
  fun s =>
    match throws env ev s with
    | Some message => (Throw message, MkState (doc s) (ev :: trace s))
    | None => (Ok tt, MkState (react env ev s) (ev :: trace s))
    end.

Definition hasAuthSession : Prog bool := get (profile_exists env).

Definition waitForTimeout (ms : Z) : Prog unit := call (WaitForTimeout ms).

Definition waitForSelector (sel : Dom.selector) (timeout : Z) : Prog unit :=
  call (WaitForSelector sel timeout).

(** [page.evaluate(f)]: [f] reads the document, may change it, may
    throw. *)
Definition evaluate {A} (label : script)
  (f : Dom.document -> result A * Dom.document) : Prog A :=
  bind (call (Evaluate label))
    (fun _ s => match f (doc s) with
                | (r, d) => (r, MkState d (trace s))
                end).

Definition content : Prog string :=
  bind (call Content) (fun _ => get (page_content env)).

Definition title : Prog string :=
  bind (call Title) (fun _ => get (page_title env)).

(** [page.$(sel)] (frame [None]) or [frame.$(sel)]: is there a handle. *)
Definition query (frame : option nat) (alternatives : list locator)
  : Prog bool :=
  bind (call (Query frame alternatives))
    (fun _ => get (found env frame alternatives)).

Definition click : Prog unit := call Click.

End Calls.

End Run.

Declare Scope prog_scope.
Delimit Scope prog_scope with prog.
Notation "x <- m ;; k" := (Run.bind m (fun x => k))
  (at level 61, m at next level, right associativity) : prog_scope.
Notation "m ;; k" := (Run.bind m (fun _ => k))
  (at level 61, right associativity) : prog_scope.

(** ** lib/extractors.ts: the extractors *)
Module Extractors.
Import Detect Dom Run.
#[local] Open Scope prog_scope.

(** What the browser reports when a script reads [innerText] of [null]. *)
Definition null_innerText : string :=
  "page.evaluate: TypeError: Cannot read properties of null (reading 'innerText')".

(** [a || b] on two possibly-null elements. *)
Definition or_else {A} (a b : option A) : option A :=
  match a with Some x => Some x | None => b end.

Definition is_some {A} (a : option A) : bool :=
  match a with Some _ => true | None => false end.

Definition separator : string := Str.nl ++ Str.nl ++ "---" ++ Str.nl ++ Str.nl.

Section WithEnv.
Variable env : Env.

Definition text_of (e : located) : string := innerText env (self e).

(** [e?.innerText.includes(word)], false when [e] is null. *)
Definition mentions (e : option located) (word : string) : bool :=
  match e with
  | Some x => Str.includes (text_of x) word
  | None => false
  end.

(** The scroll loops: [n] rounds of one [scrollTop = 0] script and one
    fixed delay. *)
Definition scrollWalk (n : nat) (candidates : list selector) (pause : Z)
  : Prog unit :=
  for_times n
    (evaluate env (ScrollToTop candidates) (fun d => (Ok tt, d)) ;;
     waitForTimeout env pause).

(** *** extractGeneric *)
Definition genericScript (d : document) : result string * document :=
  let d1 := removeAll [[Tag "script"]; [Tag "style"]; [Tag "noscript"];
                       [Tag "nav"]; [Tag "header"]; [Tag "footer"]] d in
  match or_else (querySelector [[Tag "main"]; [Tag "article"];
                                [AttrIs "role" "main"]] d1) (body d1) with
  | Some main => (Ok (text_of main), d1)
  | None => (Throw null_innerText, d1)
  end.

Definition extractGeneric : Prog string := evaluate env ReadGeneric genericScript.

(** The inline fallback of extractGeminiChat and extractGrok:
    [(document.querySelector('main') || document.body).innerText || '']. *)
Definition mainTextScript (d : document) : result string * document :=
  match or_else (querySelector [[Tag "main"]] d) (body d) with
  | Some main => (Ok (text_of main), d)
  | None => (Throw null_innerText, d)
  end.

(** *** extractChatGPT *)
Definition chatgptTurn (turn : located) : list string :=
  let isUser := is_some (querySelectorIn [[AttrIs "data-testid" "user-message"]] turn) in
  match querySelectorIn [[Class "markdown"]; [Class "prose"];
                         [HasAttr "data-message-author-role"]] turn with
  | Some contentEl =>
      let author := if isUser then "**User:**" else "**ChatGPT:**" in
      let text := Str.trim (text_of contentEl) in
      if Str.truthy text then [author ++ Str.nl ++ text] else []
  | None => []
  end.

Definition chatgptScript (d : document) : result (list string) * document :=
  (Ok (flat_map chatgptTurn
         (querySelectorAll [[AttrContains "data-testid" "conversation-turn"]] d)), d).

Definition readChatGPT : Prog (list string) :=
  ignore_errors
    (waitForSelector env [[AttrContains "data-testid" "conversation-turn"]] 15000%Z) ;;
  console "📜 Traversal in progress: Loading full ChatGPT history..." ;;
  scrollWalk 10 [[[Class "react-scroll-to-bottom--css-pgsnv-1n7m0yu"]];
                 [[Tag "div"; AttrContains "class" "overflow-y-auto"]]] 1000%Z ;;
  evaluate env (ReadFragments chatgpt) chatgptScript.

Definition extractChatGPT : Prog string :=
  messages <- readChatGPT ;;
  if (length messages =? 0)%nat then extractGeneric
  else ret (Str.join separator messages).

(** *** extractGrok *)
Definition grokStep (results : list string) (el : located) : list string :=
  let text := Str.trim (text_of el) in
  if Str.truthy text && (5 <? Str.length text)%nat then
    let container := closest [[AttrContains "class" "message"]] el in
    let isUser := mentions container "You" || mentions (parentElement el) "You" in
    let author := if isUser then "**User:**" else "**Grok:**" in
    if negb (existsb (fun r => Str.includes_start r 50 text) results)
    then results ++ [author ++ Str.nl ++ text]
    else results
  else results.

Definition grokScript (d : document) : result (list string) * document :=
  (Ok (fold_left grokStep
         (querySelectorAll [[Class "prose"]; [AttrContains "class" "message"];
                            [AttrIs "data-testid" "message-container"]] d) []), d).

Definition readGrok : Prog (list string) :=
  waitForTimeout env 10000%Z ;;
  console "📜 Traversal in progress: Loading full Grok history..." ;;
  scrollWalk 15 [[[Tag "div"; AttrContains "class" "overflow-y-auto"]];
                 [[Tag "main"]]] 1000%Z ;;
  evaluate env (ReadFragments grok) grokScript.

Definition extractGrok : Prog string :=
  messages <- readGrok ;;
  if (length messages =? 0)%nat
  then evaluate env (ReadMainText grok) mainTextScript
  else ret (Str.join separator messages).

(** *** extractSlack *)
Definition slackStep (results : list string) (el : located) : list string :=
  let authorEl := querySelectorIn [[Class "c-message__sender_button"];
                                   [AttrIs "data-qa" "message_sender_name"];
                                   [Class "c-message__sender"]] el in
  let bodyEl := querySelectorIn [[Class "c-message_kit__blocks"];
                                 [Class "c-message__body"];
                                 [Class "c-message__content-body"]] el in
  let timeEl := querySelectorIn [[Class "c-timestamp__label"];
                                 [Class "c-timestamp"]] el in
  match authorEl, bodyEl with
  | Some a, Some b =>
      let author := Str.trim (text_of a) in
      let content := Str.trim (text_of b) in
      let time := match timeEl with
                  | Some t => Str.trim (text_of t)
                  | None => ""
                  end in
      if Str.truthy content
         && negb (existsb (fun m => Str.includes_start m 50 content) results)
      then results ++ ["**" ++ author ++ "** [" ++ time ++ "]: " ++ content]
      else results
  | _, _ => results
  end.

Definition slackScript (d : document) : result (list string) * document :=
  (Ok (fold_left slackStep
         (querySelectorAll [[Class "c-message_kit__message"];
                            [Class "c-message--light"];
                            [AttrIs "role" "listitem"]] d) []), d).

Definition readSlack : Prog (list string) :=
  ignore_errors
    (waitForSelector env [[Class "c-message_kit__message"];
                          [AttrIs "role" "listitem"]] 15000%Z) ;;
  console "📜 Loading Slack history..." ;;
  scrollWalk 15 [[[Class "c-scrollbar__hider"]];
                 [[Class "c-virtual_list__scroll_container"]]] 800%Z ;;
  evaluate env (ReadFragments slack) slackScript.

Definition extractSlack : Prog string :=
  messages <- readSlack ;;
  if (length messages =? 0)%nat then extractGeneric
  else ret (Str.join (Str.nl ++ Str.nl) messages).

(** *** extractDiscord *)
Definition discordMessage (el : located) : list string :=
  match closest [[AttrContains "class" "message-"]] el with
  | None => []
  | Some container =>
      let author := match querySelectorIn [[AttrContains "class" "username-"]] container with
                    | Some a => text_of a
                    | None => "Unknown"
                    end in
      let content := text_of el in
      if Str.truthy content then ["**" ++ author ++ "**: " ++ content] else []
  end.

Definition discordScript (d : document) : result (list string) * document :=
  (Ok (flat_map discordMessage
         (querySelectorAll [[AttrContains "class" "messageContent-"]] d)), d).

Definition readDiscord : Prog (list string) :=
  ignore_errors (waitForSelector env [[AttrIs "role" "list"]] 15000%Z) ;;
  evaluate env (ReadFragments discord) discordScript.

Definition extractDiscord : Prog string :=
  messages <- readDiscord ;;
  if (length messages =? 0)%nat then extractGeneric
  else ret (Str.join (Str.nl ++ Str.nl) messages).

(** *** extractGeminiChat *)
Definition geminiMessage (el : located) : list string :=
  let text := Str.trim (text_of el) in
  if Str.truthy text then
    let isUser := is_some (closest [[AttrIs "data-speaker" "user"]] el) in
    let prefix := if isUser then "**User:**" else "**Gemini:**" in
    [prefix ++ Str.nl ++ text]
  else [].

Definition geminiScript (d : document) : result (list string) * document :=
  (Ok (flat_map geminiMessage (querySelectorAll [[HasAttr "data-message-id"]] d)), d).

Definition readGeminiChat : Prog (list string) :=
  ignore_errors (waitForSelector env [[HasAttr "data-message-id"]] 10000%Z) ;;
  evaluate env (ReadFragments gemini) geminiScript.

Definition extractGeminiChat : Prog string :=
  messages <- readGeminiChat ;;
  if (length messages =? 0)%nat
  then evaluate env (ReadMainText gemini) mainTextScript
  else ret (Str.join separator messages).

(** *** extractGoogleDoc *)
Definition googleDocScript (d : document) : result string * document :=
  match querySelector [[Class "kix-appview-editor"]] d with
  | Some editor =>
      (Ok (innerText env
             (cloneWithout [[Tag "script"]; [Tag "style"]; [Class "kix-cursor"];
                            [Class "kix-selection-overlay"]] (self editor))), d)
  | None =>
      let lines := querySelectorAll [[Class "kix-lineview"]] d in
      if (0 <? length lines)%nat
      then (Ok (Str.join Str.nl (map text_of lines)), d)
      else (Ok "", d)
  end.

Definition readGoogleDoc : Prog string :=
  ignore_errors (waitForSelector env [[Class "kix-appview-editor"]] 15000%Z) ;;
  waitForTimeout env 3000%Z ;;
  evaluate env (ReadFragments googleDocs) googleDocScript.

Definition extractGoogleDoc : Prog string :=
  content <- readGoogleDoc ;;
  if negb (Str.truthy content) || (Str.length (Str.trim content) <? 50)%nat
  then extractGeneric
  else ret content.

(** *** extractNotebookLM *)
Definition notebookTurn (turn : located) : list string :=
  let text := Str.trim (text_of turn) in
  if Str.truthy text then
    let isUser := Str.includes (innerHTML env (self turn)) "You"
                  || is_some (closest [[AttrContains "class" "user"]] turn) in
    let author := if isUser then "**User:**" else "**NotebookLM:**" in
    [author ++ Str.nl ++ text]
  else [].

Definition notebookScript (d : document) : result (list string) * document :=
  (Ok (flat_map notebookTurn
         (querySelectorAll [[Class "chat-turn"]; [AttrContains "class" "message"];
                            [Class "source-card"]] d)), d).

(** The inline fallback of extractNotebookLM: the text of a clone of
    [main] (or the body) without its navigation and buttons. *)
Definition notebookMainScript (d : document) : result string * document :=
  match or_else (querySelector [[Tag "main"]] d) (body d) with
  | Some main =>
      (Ok (innerText env
             (cloneWithout [[Tag "nav"]; [Tag "header"]; [Tag "button"];
                            [AttrIs "role" "navigation"]] (self main))), d)
  | None => (Throw "page.evaluate: TypeError: Cannot read properties of null (reading 'cloneNode')", d)
  end.

Definition readNotebookLM : Prog (list string) :=
  console "⏳ Waiting for NotebookLM to load..." ;;
  ignore_errors
    (waitForSelector env [[Tag "main"]; [AttrIs "role" "main"];
                          [Class "source-card"]] 20000%Z) ;;
  waitForTimeout env 8000%Z ;;
  evaluate env (ReadFragments notebookLM) notebookScript.

Definition extractNotebookLM : Prog string :=
  messages <- readNotebookLM ;;
  if (length messages =? 0)%nat
  then evaluate env (ReadMainText notebookLM) notebookMainScript
  else ret (Str.join separator messages).

(** *** extractRaindrop *)
Definition raindropItem (item : located) : list string :=
  let titleEl := querySelectorIn [[Class "title"]; [AttrContains "class" "title-"]] item in
  let linkEl := querySelectorIn [[Tag "a"]] item in
  let title := match titleEl with
               | Some t => text_of t
               | None => "Untitled"
               end in
  let url := match linkEl with
             | Some l => href env (self l)
             | None => "No URL"
             end in
  if Str.truthy title && Str.truthy url
  then ["- [" ++ title ++ "](" ++ url ++ ")"]
  else [].

Definition raindropScript (d : document) : result (list string) * document :=
  (Ok (flat_map raindropItem (querySelectorAll [[Class "bookmark"]] d)), d).

Definition readRaindrop : Prog (list string) :=
  ignore_errors (waitForSelector env [[Class "bookmark"]] 15000%Z) ;;
  evaluate env (ReadFragments raindrop) raindropScript.

Definition extractRaindrop : Prog string :=
  bookmarks <- readRaindrop ;;
  if (length bookmarks =? 0)%nat then extractGeneric
  else ret (Str.join Str.nl bookmarks).

End WithEnv.

(** *** getExtractor

    A reference to one of the nine extractor functions, and the call of
    such a reference on a page. *)
Inductive Extractor : Type :=
| GeminiChat | GoogleDoc | NotebookLM | ChatGPT | Grok | Discord | Slack
| Raindrop | Generic.

Definition getExtractor (url : string) : Extractor :=
  match detectService url with
  | Some gemini => GeminiChat
  | Some googleDocs => GoogleDoc
  | Some notebookLM => NotebookLM
  | Some chatgpt => ChatGPT
  | Some grok => Grok
  | Some discord => Discord
  | Some slack => Slack
  | Some raindrop => Raindrop
  | None => Generic
  end.

Definition invoke (env : Env) (f : Extractor) : Prog string :=
  match f with
  | GeminiChat => extractGeminiChat env
  | GoogleDoc => extractGoogleDoc env
  | NotebookLM => extractNotebookLM env
  | ChatGPT => extractChatGPT env
  | Grok => extractGrok env
  | Discord => extractDiscord env
  | Slack => extractSlack env
  | Raindrop => extractRaindrop env
  | Generic => extractGeneric env
  end.

End Extractors.

(** ** lib/browser.ts: the two fetch functions *)
Module Browser.
Import Dom Run.
#[local] Open Scope prog_scope.

(** [{ content: string; title: string }]. *)
Record Fetched : Type := MkFetched { title : string; content : string }.

Definition no_session_error : string :=
  "No authenticated session found. Run auth setup first: bun run auth".

Definition browser_link : list locator :=
  [ HasText "a" "open this link in your browser";
    HasText "a" "use Slack in your browser";
    Css [[Class "p-download_app__use_browser"]] ].

Definition accept_button : list locator :=
  [ HasText "button" "ACCEPT ALL COOKIES";
    HasText "button" "Agree and proceed" ].

(** The two tests on the text of [page.content()]. *)
Definition shows_app_redirect (pageContent : string) : bool :=
  Str.includes pageContent "open this link in your browser"
  || Str.includes pageContent "use Slack in your browser".

Definition shows_consent_wall (pageContent : string) : bool :=
  Str.includes pageContent "ACCEPT ALL COOKIES"
  || Str.includes pageContent "Cookie Consent Manager".

Section WithEnv.
Variable env : Env.

(** [for (const frame of page.frames())]: frames [i], [i+1], ... until
    one has the button; the click and the delay are followed by
    [break]. *)
Fixpoint acceptInFrames (i remaining : nat) : Prog unit :=
  match remaining with
  | O => ret tt
  | S k =>
      button <- query env (Some i) accept_button ;;
      if button
      then click env ;; waitForTimeout env 5000%Z
      else acceptInFrames (S i) k
  end.

(** The app-redirect screen: click the link that continues in the
    browser, if there is one; a failure is logged and dropped. *)
Definition bypassAppRedirect (pageContent : string) : Prog unit :=
  if shows_app_redirect pageContent
  then
    console "🔗 Slack redirect detected. Forcing browser mode..." ;;
    try_catch
      (browserLink <- query env None browser_link ;;
       if browserLink
       then click env ;; waitForTimeout env 5000%Z
       else ret tt)
      (fun _ => console "⚠️ Failed to click Slack browser link...")
  else ret tt.

(** The cookie wall: click the first accept button found in a frame; a
    failure is logged and dropped. *)
Definition bypassConsentWall (pageContent : string) : Prog unit :=
  if shows_consent_wall pageContent
  then
    console "🛡️  Consent wall detected. Bypassing..." ;;
    try_catch
      (n <- get (frames env) ;; acceptInFrames 0 n)
      (fun _ => console "⚠️ Failed to handle consent wall...")
  else ret tt.

(** The block headed "Handle Consent Walls & Slack Redirects", which
    fetchAuthenticated and fetchWithExtractor both contain, word for
    word: the page content is read once and tested for the two barriers. *)
Definition handleBarriers : Prog unit :=
  pageContent <- Run.content env ;;
  bypassAppRedirect pageContent ;;
  bypassConsentWall pageContent.

(** [context.pages()[0] || await context.newPage()], then the init
    script that hides [navigator.webdriver]. *)
Definition openPage : Prog unit :=
  first <- get (first_page env) ;;
  (if first then ret tt else call env NewPage) ;;
  call env AddInitScript.

(** The script of fetchAuthenticated: drop scripts and styles, then
    [document.body?.innerText || '']. *)
Definition bodyTextScript (d : document) : result string * document :=
  let d1 := removeAll [[Tag "script"]; [Tag "style"]; [Tag "noscript"]] d in
  match body d1 with
  | Some b => (Ok (innerText env (self b)), d1)
  | None => (Ok "", d1)
  end.

Definition fetchAuthenticated (url : string) (headless : bool) : Prog Fetched :=
  session <- hasAuthSession env ;;
  if negb session then throw no_session_error
  else
    call env (Launch headless) ;;
    try_finally
      (openPage ;;
       call env (Goto url 30000%Z) ;;
       waitForTimeout env 2000%Z ;;
       handleBarriers ;;
       pageTitle <- Run.title env ;;
       text <- evaluate env ReadBodyText bodyTextScript ;;
       ret (MkFetched pageTitle text))
      (call env Close).

Definition fetchWithExtractor (url : string) (extractor : Prog string)
  (headless : bool) : Prog Fetched :=
  session <- hasAuthSession env ;;
  if negb session then throw no_session_error
  else
    call env (Launch headless) ;;
    try_finally
      (openPage ;;
       call env (Goto url 30000%Z) ;;
       waitForTimeout env 5000%Z ;;
       handleBarriers ;;
       pageTitle <- Run.title env ;;
       console ("🌐 (Extractor) Loaded: " ++ url) ;;
       text <- extractor ;;
       ret (MkFetched pageTitle text))
      (call env Close).

End WithEnv.

End Browser.

(** ** index.ts: the tool handler *)
Module Server.
Import Detect Run Extractors Browser.
#[local] Open Scope prog_scope.

(** [request.params]: the tool name and its arguments, either of which may
    be missing. *)
Record Request : Type := MkRequest {
  name : string;
  url : option string;
  raw : option bool
}.

(** [{ content: [{ type: 'text', text }], isError }]; a missing [isError]
    is [false]. *)
Record ToolResult : Type := MkToolResult { text : string; isError : bool }.

Definition lines (ls : list string) : string := Str.join Str.nl ls.

Definition url_required : string := "Error: URL is required".

Definition no_session_text : string :=
  lines [ "❌ No authenticated session found."; "";
          "To set up authentication, run:"; "```";
          "cd Projects/resource-traversal-mcp && bun run auth"; "```"; "";
          "This will open a browser for you to log in to Google." ].

Definition reauth_text (url : string) : string :=
  lines [ "🔐 **Session Expired or Auth Required**"; "";
          "The AI hit a login wall at: " ++ url; "";
          "**Action Required:**";
          "Run the Universal Auth Key to refresh your session:";
          "```bash";
          "cd Projects/resource-traversal-mcp && bun run auth " ++ url;
          "```" ].

Definition auth_found_text : string :=
  lines [ "✅ Authenticated session found."; "";
          "You can use `traverse_resource` to fetch content from authenticated URLs." ].

Definition auth_missing_text : string :=
  lines [ "❌ No authenticated session found."; "";
          "To set up authentication, run:"; "```";
          "cd Projects/resource-traversal-mcp && bun run auth"; "```" ].

Definition generic_error_text (errorMessage : string) : string :=
  "❌ Error: " ++ errorMessage.

(** The test of the inner [catch]: the message talks of a login wall. *)
Definition auth_wall (errorMsg : string) : bool :=
  Str.includes errorMsg "Session expired"
  || Str.includes errorMsg "Sign in"
  || Str.includes errorMsg "login".

Definition serviceLabel (service : option ServiceType) : string :=
  match service with
  | Some s => " (" ++ service_name s ++ ")"
  | None => ""
  end.

Definition format_output (service : option ServiceType) (url : string)
  (result : Fetched) : string :=
  lines [ "# " ++ title result ++ serviceLabel service; "";
          "**Source:** " ++ url; "";
          "---"; "";
          content result ].

(** [!url] for a possibly missing argument. *)
Definition missing (url : option string) : bool :=
  match url with
  | Some u => negb (Str.truthy u)
  | None => true
  end.

Definition raw_requested (raw : option bool) : bool :=
  match raw with Some b => b | None => false end.

Section WithEnv.
Variable env : Env.

(** The inner [try]: which fetch runs. *)
Definition fetch (url : string) (raw : option bool)
  (service : option ServiceType) : Prog Fetched :=
  if raw_requested raw || negb (is_some service)
  then fetchAuthenticated env url true
  else fetchWithExtractor env url (invoke env (getExtractor url)) true.

(** The case 'traverse_resource'.  The inner [catch] either returns the
    re-authentication answer ([inr]) or throws the error again. *)
Definition traverse_resource (args_url : option string) (args_raw : option bool)
  : Prog ToolResult :=
  if missing args_url then ret (MkToolResult url_required true)
  else
    let url := match args_url with Some u => u | None => "" end in
    session <- hasAuthSession env ;;
    if negb session then ret (MkToolResult no_session_text true)
    else
      let service := detectService url in
      outcome <-
        try_catch
          (result <- fetch url args_raw service ;; ret (inl result))
          (fun errorMsg =>
             if auth_wall errorMsg
             then ret (inr (MkToolResult (reauth_text url) true))
             else throw errorMsg) ;;
      match outcome with
      | inr answer => ret answer
      | inl result => ret (MkToolResult (format_output service url result) false)
      end.

Definition check_auth : Prog ToolResult :=
  hasAuth <- hasAuthSession env ;;
  if hasAuth then ret (MkToolResult auth_found_text false)
  else ret (MkToolResult auth_missing_text false).

(** The handler of [CallToolRequestSchema], with its outer [catch]. *)
Definition callTool (request : Request) : Prog ToolResult :=
  try_catch
    (if String.eqb (name request) "traverse_resource"
     then traverse_resource (url request) (raw request)
     else if String.eqb (name request) "check_auth"
     then check_auth
     else ret (MkToolResult ("Unknown tool: " ++ name request) true))
    (fun errorMessage => ret (MkToolResult (generic_error_text errorMessage) true)).

End WithEnv.

End Server.

(** ** What a run adds to the trace *)
Module Trace.
Import Run.

Definition count (p : event -> bool) (l : list event) : nat :=
  length (filter p l).

(** Running [m] from [s] adds the calls [new], the most recent first. *)
Definition adds {A} (m : Prog A) (s : State) (new : list event) : Prop :=
  trace (snd (m s)) = (new ++ trace s)%list.

(** [counts p n m]: each run of [m] only adds calls to the trace, at most
    [n] of the added calls satisfy [p], and exactly [n] of them when [m]
    returns instead of throwing. *)
Definition counts (p : event -> bool) (n : nat) {A} (m : Prog A) : Prop :=
  forall s, exists new,
    adds m s new /\ count p new <= n /\
    (forall a, fst (m s) = Ok a -> count p new = n).

(** A browser in which no call fails and the page only changes when a
    script of the program changes it. *)
Definition still (env : Env) : Prop :=
  (forall ev s, throws env ev s = None)
  /\ (forall ev s, react env ev s = doc s).

Definition is_close (e : event) : bool :=
  match e with Close => true | _ => false end.

Definition is_launch (e : event) : bool :=
  match e with Launch _ => true | _ => false end.

(** The scroll script of a history walk. *)
Definition is_scroll (e : event) : bool :=
  match e with Evaluate (ScrollToTop _) => true | _ => false end.

(** The calls of the barrier block: looking for a control, clicking it,
    the delay after a click, and the console lines. *)
Definition is_close_or_launch (e : event) : bool := is_close e || is_launch e.

Definition is_barrier_step (e : event) : bool :=
  match e with
  | Query _ _ | Click | WaitForTimeout _ | Console _ => true
  | _ => false
  end.



(** Among the barrier steps [between] (the most recent first), the lookup
    [lookup] is followed at once by the click and by the delay of 5000 ms. *)
Definition clicked_after (lookup : event) (between : list event) : Prop :=
  exists later earlier,
    between = (later ++ [WaitForTimeout 5000; Click; lookup] ++ earlier)%list.

(** The link that continues in the browser is on the page: the lookup
    returns a handle, and neither the lookup nor a click fails. *)
Definition link_present (env : Env) : Prop :=
  (forall st, throws env (Query None Browser.browser_link) st = None)
  /\ (forall st, found env None Browser.browser_link st = true)
  /\ (forall st, throws env Click st = None).

(** The page has more than [k] frames and frame [k] is the first one with
    an accept button; neither the lookups up to frame [k] nor a click
    fails. *)
Definition button_in_frame (env : Env) (k : nat) : Prop :=
  (forall st, k < frames env st)
  /\ (forall j st, j <= k ->
        throws env (Query (Some j) Browser.accept_button) st = None)
  /\ (forall j st, j < k -> found env (Some j) Browser.accept_button st = false)
  /\ (forall st, found env (Some k) Browser.accept_button st = true)
  /\ (forall st, throws env Click st = None).

(** The calls of a fetch that returned, from [s] to [s']: [settle] is its
    settle delay, [shown] the state in which the page content was read,
    [between] the barrier steps and [after] what the fetch called once the
    title was read. *)
Definition fetch_shape (env : Env) (url : string) (settle : Z) (s s' : State)
  (after : list event) : Prop :=
  exists before shown between,
    trace shown = ([Content; WaitForTimeout settle; Goto url 30000]
                   ++ before ++ trace s)%list
    /\ trace s' = (after ++ [Title] ++ between ++ trace shown)%list
    /\ forallb is_barrier_step between = true
    /\ (Browser.shows_app_redirect (page_content env shown) = true ->
        In (Query None Browser.browser_link) between)
    /\ (Browser.shows_consent_wall (page_content env shown) = true ->
        (forall st, 0 < frames env st) ->
        In (Query (Some 0) Browser.accept_button) between)
    /\ (Browser.shows_app_redirect (page_content env shown) = true ->
        link_present env ->
        clicked_after (Query None Browser.browser_link) between)
    /\ (Browser.shows_consent_wall (page_content env shown) = true ->
        forall k, button_in_frame env k ->
        clicked_after (Query (Some k) Browser.accept_button) between).

End Trace.

(** ** Concrete pages and browsers *)
Module Examples.
Import Dom Run.

#[local] Set Warnings "-register-all".

(** A rendering without layout: the text nodes of the subtree, in order. *)
Fixpoint textContent (n : node) : string :=
  match n with
  | Text data => data
  | Elem _ _ children => String.concat "" (map textContent children)
  end.

Definition hrefAttribute (n : node) : string :=
  match n with
  | Elem _ attrs _ =>
      match attribute "href" attrs with Some v => v | None => "" end
  | Text _ => ""
  end.

(** A browser in which no call fails and the page never changes by itself;
    there is a profile, one frame, and no barrier. *)
Definition quiet : Env :=
  {| innerText := textContent;
     innerHTML := textContent;
     href := hrefAttribute;
     profile_exists := fun _ => true;
     throws := fun _ _ => None;
     react := fun _ s => doc s;
     first_page := fun _ => true;
     page_content := fun _ => "<html></html>";
     page_title := fun _ => "Example";
     frames := fun _ => 1;
     found := fun _ _ _ => false |}.


(** A page behind a cookie wall whose accept button sits in the first
    frame. *)
Definition cookie_wall : Env :=
  {| innerText := textContent;
     innerHTML := textContent;
     href := hrefAttribute;
     profile_exists := fun _ => true;
     throws := fun _ _ => None;
     react := fun _ s => doc s;
     first_page := fun _ => true;
     page_content := fun _ => "<button>ACCEPT ALL COOKIES</button>";
     page_title := fun _ => "Example";
     frames := fun _ => 1;
     found := fun frame _ _ => match frame with Some _ => true | None => false end |}.

(** A browser whose navigation fails with the given message. *)
Definition failing_goto (message : string) : Env :=
  {| innerText := textContent;
     innerHTML := textContent;
     href := hrefAttribute;
     profile_exists := fun _ => true;
     throws := fun ev _ => match ev with Goto _ _ => Some message | _ => None end;
     react := fun _ s => doc s;
     first_page := fun _ => true;
     page_content := fun _ => "<html></html>";
     page_title := fun _ => "Example";
     frames := fun _ => 1;
     found := fun _ _ _ => false |}.

(** [<html><body><article>A</article><p>B</p></body></html>] *)
Definition article_page : document :=
  [ Elem "html" []
      [ Elem "body" []
          [ Elem "article" [] [Text "A"];
            Elem "p" [] [Text "B"] ] ] ].

(** [<html><body><main><nav>Menu</nav><p>Hello</p></main></body></html>] *)
Definition nav_page : document :=
  [ Elem "html" []
      [ Elem "body" []
          [ Elem "main" []
              [ Elem "nav" [] [Text "Menu"];
                Elem "p" [] [Text "Hello"] ] ] ] ].

(** A channel with one message:
    [<html><body><ol role=list><li class=message-1f>
       <span class=username-2a>ann</span>
       <div class=messageContent-3b>hi</div></li></ol></body></html>] *)
Definition discord_page : document :=
  [ Elem "html" []
      [ Elem "body" []
          [ Elem "ol" [("role", "list")]
              [ Elem "li" [("class", "message-1f")]
                  [ Elem "span" [("class", "username-2a")] [Text "ann"];
                    Elem "div" [("class", "messageContent-3b")] [Text "hi"] ] ] ] ] ].

Definition fresh (d : document) : State := MkState d [].

End Examples.

(** ** Weighing the calls of a run *)
Module Cost.
Import Run Trace.

(** The total weight of the calls in a piece of trace. *)
Fixpoint weight (w : event -> Z) (l : list event) : Z :=
  match l with
  | [] => 0%Z
  | e :: rest => (w e + weight w rest)%Z
  end.

(** [spends w lo hi m]: each run of [m] only adds calls to the trace, of
    total weight at most [hi], and at least [lo] when [m] returns instead
    of throwing. *)
Definition spends (w : event -> Z) (lo hi : Z) {A} (m : Prog A) : Prop :=
  forall s, exists new,
    adds m s new /\ (weight w new <= hi)%Z /\
    (forall a, fst (m s) = Ok a -> (lo <= weight w new)%Z).

(** One for the calls that satisfy [p], zero for the others. *)
Definition one (p : event -> bool) (e : event) : Z :=
  if p e then 1%Z else 0%Z.

(** The time a call sleeps: the milliseconds of [page.waitForTimeout], which
    returns at once for a negative argument. *)
Definition delay_ms (e : event) : Z :=
  match e with
  | WaitForTimeout ms => Z.max 0 ms
  | _ => 0%Z
  end.

Definition is_goto (e : event) : bool :=
  match e with Goto _ _ => true | _ => false end.

Definition is_click (e : event) : bool :=
  match e with Click => true | _ => false end.

(** The scripts of the extractors of lib/extractors.ts (the scroll scripts
    of the history walks, the fragment readers, the inline fallbacks and
    the script of extractGeneric), and the script of fetchAuthenticated. *)
Definition is_extractor_script (e : event) : bool :=
  match e with
  | Evaluate (ScrollToTop _) | Evaluate (ReadFragments _)
  | Evaluate (ReadMainText _) | Evaluate ReadGeneric => true
  | _ => false
  end.

Definition is_body_script (e : event) : bool :=
  match e with Evaluate ReadBodyText => true | _ => false end.

(** The sum of the [waitForTimeout] arguments met on a run of each extractor
    that returns: the initial delays (Google Docs 3000, NotebookLM 8000,
    Grok 10000) and the rounds of the history walks (ChatGPT 10 x 1000,
    Grok 15 x 1000, Slack 15 x 800). *)
Definition fixed_delay (f : Extractors.Extractor) : Z :=
  match f with
  | Extractors.GoogleDoc => 3000
  | Extractors.NotebookLM => 8000
  | Extractors.ChatGPT => 10000
  | Extractors.Grok => 25000
  | Extractors.Slack => 12000
  | Extractors.GeminiChat | Extractors.Discord | Extractors.Raindrop
  | Extractors.Generic => 0
  end%Z.

(** The selectors whose elements extractGeneric and fetchAuthenticated
    remove from the live page. *)
Definition generic_noise : Dom.selector :=
  [[Dom.Tag "script"]; [Dom.Tag "style"]; [Dom.Tag "noscript"];
   [Dom.Tag "nav"]; [Dom.Tag "header"]; [Dom.Tag "footer"]].

Definition body_noise : Dom.selector :=
  [[Dom.Tag "script"]; [Dom.Tag "style"]; [Dom.Tag "noscript"]].

End Cost.

(** ** More browsers and pages *)
Module Scenarios.
Import Dom Run.

Definition is_selector_wait (e : event) : bool :=
  match e with WaitForSelector _ _ => true | _ => false end.

(** A browser in which only [page.waitForSelector] may fail (it times out
    when the element is not there), and the page only changes when a script
    of the program changes it. *)
Definition tolerant (env : Env) : Prop :=
  (forall ev s, is_selector_wait ev = false -> throws env ev s = None)
  /\ (forall ev s, react env ev s = doc s).

(** A step that returns and leaves the document as it was. *)
Definition keeps (m : Prog unit) : Prop :=
  forall s, exists t, m s = (Ok tt, MkState (doc s) t).

(** The browser of [Examples.quiet] with other failures and another page
    content. *)
Definition browser (failure : event -> State -> option string)
  (pageContent : string) (frameCount : nat)
  (control : option nat -> list locator -> State -> bool) : Env :=
  {| innerText := Examples.textContent;
     innerHTML := Examples.textContent;
     href := Examples.hrefAttribute;
     profile_exists := fun _ => true;
     throws := failure;
     react := fun _ s => doc s;
     first_page := fun _ => true;
     page_content := fun _ => pageContent;
     page_title := fun _ => "Example";
     frames := fun _ => frameCount;
     found := control |}.

(** Chrome is not installed: the launch fails. *)
Definition no_chrome : Env :=
  browser (fun ev _ =>
             match ev with
             | Launch _ => Some "browserType.launchPersistentContext: Chromium distribution 'chrome' is not found"
             | _ => None
             end)
    "<html></html>" 1 (fun _ _ _ => false).

(** A cookie wall in two frames that are detached when they are searched. *)
Definition detached_frames : Env :=
  browser (fun ev _ =>
             match ev with
             | Query _ _ => Some "frame.$: Frame was detached"
             | _ => None
             end)
    "Cookie Consent Manager" 2 (fun _ _ _ => true).

(** Every wait for a selector times out. *)
Definition selector_timeouts : Env :=
  browser (fun ev _ =>
             match ev with
             | WaitForSelector _ _ => Some "page.waitForSelector: Timeout 15000ms exceeded."
             | _ => None
             end)
    "<html></html>" 1 (fun _ _ _ => false).

(** A Grok conversation in which the same answer was captured twice:
    [<html><body><main><div class=prose>Hello there</div>
       <div class=prose>Hello there</div></main></body></html>] *)
Definition repeated_page : document :=
  [ Elem "html" []
      [ Elem "body" []
          [ Elem "main" []
              [ Elem "div" [("class", "prose")] [Text "Hello there"];
                Elem "div" [("class", "prose")] [Text "Hello there"] ] ] ] ].

(** The screen that offers the desktop app, with the link that continues
    in the browser on the page. *)
Definition app_redirect : Env :=
  browser (fun _ _ => None) "<a>use Slack in your browser</a>" 1
    (fun frame _ _ => match frame with None => true | Some _ => false end).

(** U+00A0, the no-break space, and U+1F310, a character outside the
    basic plane. *)
Definition nbsp : string :=
  String (ascii_of_nat 194) (String (ascii_of_nat 160) EmptyString).

Definition globe : string :=
  String (ascii_of_nat 240) (String (ascii_of_nat 159)
    (String (ascii_of_nat 140) (String (ascii_of_nat 144) EmptyString))).

(** A document whose editor holds a no-break space followed by 49 letters:
    [<html><body><div class=kix-appview-editor>&nbsp;aaa...a</div></body></html>] *)
Definition padded_doc_page : document :=
  [ Elem "html" []
      [ Elem "body" []
          [ Elem "div" [("class", "kix-appview-editor")]
              [ Text (nbsp ++ "aaaaaaaaaaaaaaaaaaaaaaaaaaaaaaaaaaaaaaaaaaaaaaaaa") ] ] ] ].

End Scenarios.

(** * Properties *)

(** ** Service detection *)
Section DetectFacts.
Import Detect.

Lemma prefix_comparable (a b u : string) :
  String.prefix a u = true -> String.prefix b u = true ->
  String.prefix a b = true \/ String.prefix b a = true.
Proof.
  revert b u; induction a as [|x a IH]; intros b u Ha Hb.
  - left; destruct b; reflexivity.
  - destruct b as [|y b]; [right; reflexivity|].
    destruct u as [|z u]; [discriminate|].
    simpl in Ha, Hb |- *.
    destruct (Ascii.ascii_dec x z) as [->|]; [|discriminate].
    destruct (Ascii.ascii_dec y z) as [->|]; [|discriminate].
    destruct (Ascii.ascii_dec z z) as [_|n]; [|now elim n].
    eauto.
Qed.

(** Two entries of the table that match the same URL are one entry. *)
Lemma table_exclusive (url : string) (e1 e2 : ServiceType * pattern) :
  In e1 SERVICE_PATTERNS -> In e2 SERVICE_PATTERNS ->
  test (snd e1) url = true -> test (snd e2) url = true -> e1 = e2.
Proof.
  intros H1 H2 T1 T2.
  destruct e1 as [s1 [l1]], e2 as [s2 [l2]]; simpl in T1, T2.
  destruct (prefix_comparable _ _ _ T1 T2) as [C|C]; revert C;
    simpl in H1, H2;
    repeat (destruct H1 as [H1|H1]; [inversion H1; subst; clear H1|]);
    try contradiction;
    repeat (destruct H2 as [H2|H2]; [inversion H2; subst; clear H2|]);
    try contradiction;
    intros C; try reflexivity; vm_compute in C; discriminate.
Qed.

Lemma detect_in_first (table before after : list (ServiceType * pattern))
  (s : ServiceType) (pat : pattern) (url : string) :
  table = (before ++ (s, pat) :: after)%list ->
  Forall (fun e => test (snd e) url = false) before ->
  test pat url = true ->
  detect_in table url = Some s.
Proof.
  intros -> Hb Hp; induction Hb as [|[s0 p0] before H0 Hb IH]; simpl.
  - now rewrite Hp.
  - simpl in H0; now rewrite H0.
Qed.

Lemma detect_in_some (table : list (ServiceType * pattern)) (url : string)
  (s : ServiceType) :
  detect_in table url = Some s ->
  exists pat, In (s, pat) table /\ test pat url = true.
Proof.
  induction table as [|[s0 p0] table IH]; simpl; [discriminate|].
  destruct (test p0 url) eqn:E.
  - intros [= <-]; eauto.
  - intros H; destruct (IH H) as (pat & Hin & Ht); eauto.
Qed.

Lemma detect_in_none (table : list (ServiceType * pattern)) (url : string) :
  detect_in table url = None <->
  (forall s pat, In (s, pat) table -> test pat url = false).
Proof.
  induction table as [|[s0 p0] table IH]; simpl.
  - split; [intros _ ? ? []|reflexivity].
  - destruct (test p0 url) eqn:E; split.
    + discriminate.
    + intros H; rewrite (H s0 p0) in E; [discriminate|now left].
    + intros H s pat [[= <- <-]|Hin]; [exact E|].
      now apply (proj1 IH H s pat).
    + intros H; apply IH; intros s pat Hin; apply (H s pat); now right.
Qed.

Lemma detectService_of_entry (url : string) (s : ServiceType) (pat : pattern) :
  In (s, pat) SERVICE_PATTERNS -> test pat url = true ->
  detectService url = Some s.
Proof.
  intros Hin Ht; unfold detectService.
  destruct (detect_in SERVICE_PATTERNS url) as [s'|] eqn:E.
  - destruct (detect_in_some _ _ _ E) as (pat' & Hin' & Ht').
    now injection (table_exclusive url (s, pat) (s', pat') Hin Hin' Ht Ht') as -> _.
  - rewrite (proj1 (detect_in_none _ _) E s pat Hin) in Ht; discriminate.
Qed.

End DetectFacts.

(** C4.  A URL that matches a registered pattern is classified as that
    pattern's service; over any table the loop returns the service of the
    first matching entry in the table's order; and a URL that matches no
    registered pattern gives [None], the source's [null]. *)
Theorem detectService_first_match (url : string) :
  (forall s pat, In (s, pat) Detect.SERVICE_PATTERNS -> Detect.test pat url = true ->
                 Detect.detectService url = Some s)
  /\ (forall table before s pat after,
        table = (before ++ (s, pat) :: after)%list ->
        Forall (fun e => Detect.test (snd e) url = false) before ->
        Detect.test pat url = true ->
        Detect.detect_in table url = Some s)
  /\ ((forall s pat, In (s, pat) Detect.SERVICE_PATTERNS -> Detect.test pat url = false) ->
      Detect.detectService url = None).
Proof.
  split; [|split].
  - intros s pat; apply detectService_of_entry.
  - intros table before s pat after; apply detect_in_first.
  - intros H; now apply detect_in_none.
Qed.

Lemma detectService_first_match_witness :
  Detect.detectService "https://chatgpt.com/c/42" = Some Detect.chatgpt
  /\ Detect.detect_in
       [ (Detect.grok, Detect.Anchored "https://grok.com/c/");
         (Detect.slack, Detect.Anchored "https://");
         (Detect.discord, Detect.Anchored "https://discord.com/") ]
       "https://discord.com/channels/1" = Some Detect.slack
  /\ Detect.detectService "https://example.com/page" = None.
Proof.
  split; [|split].
  - apply (proj1 (detectService_first_match "https://chatgpt.com/c/42")
             Detect.chatgpt (Detect.Anchored "https://chatgpt.com/c/")).
    + simpl; auto.
    + reflexivity.
  - apply (proj1 (proj2 (detectService_first_match "https://discord.com/channels/1"))
             _ [(Detect.grok, Detect.Anchored "https://grok.com/c/")]
             Detect.slack (Detect.Anchored "https://")
             [(Detect.discord, Detect.Anchored "https://discord.com/")]).
    + reflexivity.
    + constructor; [reflexivity|constructor].
    + reflexivity.
  - apply (proj2 (proj2 (detectService_first_match "https://example.com/page"))).
    intros s pat Hin; simpl in Hin.
    repeat (destruct Hin as [Hin|Hin]; [inversion Hin; subst; reflexivity|]).
    contradiction.
Defined.

(** C10.  No URL matches two entries of SERVICE_PATTERNS, so detection gives
    the same answer whatever the order in which the table is enumerated. *)
Theorem patterns_pairwise_disjoint (url : string) :
  (forall e1 e2, In e1 Detect.SERVICE_PATTERNS -> In e2 Detect.SERVICE_PATTERNS ->
                 Detect.test (snd e1) url = true -> Detect.test (snd e2) url = true ->
                 e1 = e2)
  /\ (forall table, Permutation Detect.SERVICE_PATTERNS table ->
                    Detect.detect_in table url = Detect.detectService url).
Proof.
  split.
  - intros e1 e2; apply table_exclusive.
  - intros table Hp.
    destruct (Detect.detect_in table url) as [s|] eqn:E.
    + destruct (detect_in_some _ _ _ E) as (pat & Hin & Ht).
      symmetry; apply (detectService_of_entry url s pat); [|exact Ht].
      now apply (Permutation_in _ (Permutation_sym Hp)).
    + symmetry; apply detect_in_none; intros s pat Hin.
      apply (proj1 (detect_in_none _ _) E s pat).
      now apply (Permutation_in _ Hp).
Qed.

Lemma patterns_pairwise_disjoint_witness :
  Detect.detect_in (rev Detect.SERVICE_PATTERNS) "https://grok.com/c/7"
  = Detect.detectService "https://grok.com/c/7".
Proof.
  apply (proj2 (patterns_pairwise_disjoint "https://grok.com/c/7")).
  apply Permutation_rev.
Defined.

(** ** Extractor selection *)

(** C7.  getExtractor always returns a reference that can be called: a URL
    under one of the eight registered prefixes gets that service's
    extractor, a URL that no pattern matches gets the generic one, and
    calling the returned reference on any page yields a result. *)
Theorem getExtractor_dispatch (url : string) :
  (String.prefix "https://gemini.google.com/app/" url = true ->
   Extractors.getExtractor url = Extractors.GeminiChat)
  /\ (String.prefix "https://docs.google.com/document/" url = true ->
      Extractors.getExtractor url = Extractors.GoogleDoc)
  /\ (String.prefix "https://notebooklm.google.com/" url = true ->
      Extractors.getExtractor url = Extractors.NotebookLM)
  /\ (String.prefix "https://chatgpt.com/c/" url = true ->
      Extractors.getExtractor url = Extractors.ChatGPT)
  /\ (String.prefix "https://grok.com/c/" url = true ->
      Extractors.getExtractor url = Extractors.Grok)
  /\ (String.prefix "https://discord.com/channels/" url = true ->
      Extractors.getExtractor url = Extractors.Discord)
  /\ (String.prefix "https://app.slack.com/client/" url = true ->
      Extractors.getExtractor url = Extractors.Slack)
  /\ (String.prefix "https://app.raindrop.io/my/" url = true ->
      Extractors.getExtractor url = Extractors.Raindrop)
  /\ (Detect.detectService url = None ->
      Extractors.getExtractor url = Extractors.Generic)
  /\ (forall env s, exists r s',
        Extractors.invoke env (Extractors.getExtractor url) s = (r, s')).
Proof.
  assert (K : forall s lit, In (s, Detect.Anchored lit) Detect.SERVICE_PATTERNS ->
                            String.prefix lit url = true ->
                            Detect.detectService url = Some s).
  { intros s lit Hin Hp; now apply (detectService_of_entry url s (Detect.Anchored lit)). }
  unfold Extractors.getExtractor.
  repeat split;
    try (intros H; eapply K in H;
         [|simpl; repeat ((left; reflexivity) || right)];
         rewrite H; reflexivity).
  - intros ->; reflexivity.
  - intros env s.
    destruct (Extractors.invoke env _ s) as [r s']; eauto.
Qed.

Lemma getExtractor_dispatch_witness :
  Extractors.getExtractor "https://gemini.google.com/app/abc123" = Extractors.GeminiChat
  /\ Extractors.getExtractor "https://app.slack.com/client/T1/C2" = Extractors.Slack
  /\ Extractors.getExtractor "https://example.com/page" = Extractors.Generic.
Proof.
  split; [|split].
  - apply (proj1 (getExtractor_dispatch "https://gemini.google.com/app/abc123")).
    reflexivity.
  - apply (getExtractor_dispatch "https://app.slack.com/client/T1/C2").
    reflexivity.
  - apply (getExtractor_dispatch "https://example.com/page").
    reflexivity.
Defined.

(** ** Counting browser calls in the trace *)
Section TraceLogic.
Import Run Trace.

Lemma count_app p l1 l2 : count p (l1 ++ l2) = count p l1 + count p l2.
Proof. unfold count; now rewrite filter_app, length_app. Qed.

Lemma count_zero_forallb p l :
  count p l = 0 -> forallb (fun e => negb (p e)) l = true.
Proof.
  unfold count; induction l as [|e l IH]; simpl; [reflexivity|].
  destruct (p e); simpl; [discriminate|exact IH].
Qed.

Variable p : event -> bool.

Lemma counts_ret {A} (a : A) : counts p 0 (ret a).
Proof. intros s; exists []; repeat split; auto. Qed.

Lemma counts_throw {A} (e : string) : counts p 0 (@throw A e).
Proof. intros s; exists []; repeat split; auto. Qed.

Lemma counts_get {A} (f : State -> A) : counts p 0 (get f).
Proof. intros s; exists []; repeat split; auto. Qed.

Lemma counts_console (line : string) :
  p (Console line) = false -> counts p 0 (console line).
Proof.
  intros H s; exists [Console line]; unfold adds, count; simpl.
  rewrite H; repeat split; auto.
Qed.

Lemma counts_call env (ev : event) :
  counts p (if p ev then 1 else 0) (call env ev).
Proof.
  intros s; exists [ev]; unfold adds, call, count; simpl.
  destruct (throws env ev s), (p ev); simpl; repeat split; auto.
Qed.

Lemma counts_call_0 env (ev : event) : p ev = false -> counts p 0 (call env ev).
Proof. intros H; generalize (counts_call env ev); now rewrite H. Qed.

Lemma counts_call_1 env (ev : event) : p ev = true -> counts p 1 (call env ev).
Proof. intros H; generalize (counts_call env ev); now rewrite H. Qed.

Lemma counts_bind {A B} (m : Prog A) (k : A -> Prog B) n1 n2 :
  counts p n1 m -> (forall a, counts p n2 (k a)) ->
  counts p (n1 + n2) (bind m k).
Proof.
  intros Hm Hk s; destruct (Hm s) as (new1 & A1 & L1 & E1).
  unfold adds, bind in *; destruct (m s) as [[a|e] s1]; simpl in *.
  - destruct (Hk a s1) as (new2 & A2 & L2 & E2).
    exists (new2 ++ new1)%list; rewrite count_app, (E1 a eq_refl).
    unfold adds in A2; rewrite A2, A1, app_assoc.
    repeat split; [lia|].
    intros b Hb; rewrite (E2 b Hb); lia.
  - exists new1; repeat split; [exact A1|lia|discriminate].
Qed.

Lemma counts_try_catch {A} (m : Prog A) (h : string -> Prog A) :
  counts p 0 m -> (forall e, counts p 0 (h e)) -> counts p 0 (try_catch m h).
Proof.
  intros Hm Hh s; destruct (Hm s) as (new1 & A1 & L1 & E1).
  unfold adds, try_catch in *; destruct (m s) as [[a|e] s1]; simpl in *.
  - exists new1; repeat split; [exact A1|lia|intros; lia].
  - destruct (Hh e s1) as (new2 & A2 & L2 & E2).
    exists (new2 ++ new1)%list; rewrite count_app.
    unfold adds in A2; rewrite A2, A1, app_assoc.
    repeat split; [lia|intros; lia].
Qed.

Lemma counts_try_finally {A} (m : Prog A) (f : Prog unit) :
  counts p 0 m -> counts p 0 f -> counts p 0 (try_finally m f).
Proof.
  intros Hm Hf s; destruct (Hm s) as (new1 & A1 & L1 & E1).
  unfold adds, try_finally in *; destruct (m s) as [r s1]; simpl in *.
  destruct (Hf s1) as (new2 & A2 & L2 & E2).
  exists (new2 ++ new1)%list; rewrite count_app.
  unfold adds in A2.
  destruct (f s1) as [[u|e] s2]; simpl in *;
    rewrite A2, A1, app_assoc; repeat split; try lia; intros; lia.
Qed.

Lemma counts_ignore_errors (m : Prog unit) :
  counts p 0 m -> counts p 0 (ignore_errors m).
Proof. intros H; apply counts_try_catch; [exact H|intros; apply counts_ret]. Qed.

Lemma counts_for_times (k n : nat) (body : Prog unit) :
  counts p n body -> counts p (k * n) (for_times k body).
Proof.
  intros H; induction k as [|k IH]; simpl.
  - apply counts_ret.
  - apply counts_bind; [exact H|intros _; exact IH].
Qed.

Lemma counts_evaluate {A} env (label : script)
  (f : Dom.document -> result A * Dom.document) :
  counts p (if p (Evaluate label) then 1 else 0) (evaluate env label f).
Proof.
  intros s; exists [Evaluate label]; unfold adds, evaluate, bind, call, count; simpl.
  destruct (throws env (Evaluate label) s); simpl.
  - destruct (p (Evaluate label)); simpl; repeat split; auto; discriminate.
  - destruct (f _) as [r d]; simpl.
    destruct (p (Evaluate label)); simpl; repeat split; auto.
Qed.

Lemma counts_evaluate_0 {A} env (label : script)
  (f : Dom.document -> result A * Dom.document) :
  p (Evaluate label) = false -> counts p 0 (evaluate env label f).
Proof. intros H; generalize (counts_evaluate env label f); now rewrite H. Qed.

Lemma counts_n {A} (m : Prog A) (n n' : nat) :
  n = n' -> counts p n m -> counts p n' m.
Proof. now intros ->. Qed.

End TraceLogic.

(** Programs built from the calls above are handled rule by rule. *)
Ltac counts_rule :=
  lazymatch goal with
  | |- Trace.counts _ _ (Run.bind _ _) =>
      eapply (counts_n _ _ (0 + 0)); [reflexivity|];
      apply counts_bind; [|intros]
  | |- Trace.counts _ _ (Run.ret _) => apply counts_ret
  | |- Trace.counts _ _ (Run.throw _) => apply counts_throw
  | |- Trace.counts _ _ (Run.get _) => apply counts_get
  | |- Trace.counts _ _ (Run.console _) => apply counts_console; reflexivity
  | |- Trace.counts _ _ (Run.call _ _) => apply counts_call_0; reflexivity
  | |- Trace.counts _ _ (Run.evaluate _ _ _) => apply counts_evaluate_0; reflexivity
  | |- Trace.counts _ _ (Run.try_catch _ _) => apply counts_try_catch; [|intros]
  | |- Trace.counts _ _ (Run.try_finally _ _) => apply counts_try_finally
  | |- Trace.counts _ _ (Run.ignore_errors _) => apply counts_ignore_errors
  | |- Trace.counts _ _ (Run.for_times _ _) =>
      eapply (counts_n _ _ (_ * 0)); [apply Nat.mul_0_r|];
      apply counts_for_times
  | |- Trace.counts _ _ (if ?b then _ else _) => destruct b
  | |- Trace.counts _ _ (match ?x with Some _ => _ | None => _ end) => destruct x
  end.

Ltac counts_zero :=
  repeat first
    [ counts_rule
    | progress unfold Run.waitForTimeout, Run.waitForSelector, Run.content,
        Run.title, Run.query, Run.click, Run.hasAuthSession ].

(** ** Runs that return *)
Section Returns.
Import Run Trace.
Variable env : Env.

Lemma bind_Ok {A B} (m : Prog A) (k : A -> Prog B) s b s' :
  bind m k s = (Ok b, s') ->
  exists a s1, m s = (Ok a, s1) /\ k a s1 = (Ok b, s').
Proof.
  unfold bind; destruct (m s) as [[a|e] s1]; [eauto|discriminate].
Qed.

Lemma bind_assoc_at {A B C} (m : Prog A) (k : A -> Prog B) (h : B -> Prog C) s :
  bind (bind m k) h s = bind m (fun a => bind (k a) h) s.
Proof. unfold bind; destruct (m s) as [[a|e] s1]; reflexivity. Qed.

Lemma call_Ok ev s u s' :
  call env ev s = (Ok u, s') -> trace s' = ev :: trace s.
Proof.
  unfold call; destruct (throws env ev s); [discriminate|].
  now intros [= _ <-].
Qed.

Lemma evaluate_Ok {A} label (f : Dom.document -> result A * Dom.document) s a s' :
  evaluate env label f s = (Ok a, s') -> trace s' = Evaluate label :: trace s.
Proof.
  intros H; apply bind_Ok in H; destruct H as (u & s1 & H1 & H).
  apply call_Ok in H1; destruct (f (doc s1)) as [r d].
  now injection H as _ <-.
Qed.

Lemma ignore_call ev s :
  exists s1, ignore_errors (call env ev) s = (Ok tt, s1)
             /\ trace s1 = ev :: trace s.
Proof.
  unfold ignore_errors, try_catch, call, ret.
  destruct (throws env ev s); eexists; split; reflexivity.
Qed.

Lemma console_Ok line s u s' :
  console line s = (Ok u, s') -> trace s' = Console line :: trace s.
Proof. now intros [= _ <-]. Qed.

Lemma rounds_snoc {A} (x : list A) n :
  (concat (repeat x n) ++ x = x ++ concat (repeat x n))%list.
Proof.
  induction n as [|n IH]; simpl; [now rewrite app_nil_r|].
  now rewrite <- app_assoc, IH.
Qed.

(** The calls of [n] completed rounds of a history walk. *)
Lemma scrollWalk_Ok n candidates pause s u s' :
  Extractors.scrollWalk env n candidates pause s = (Ok u, s') ->
  trace s' =
    (concat (repeat [WaitForTimeout pause; Evaluate (ScrollToTop candidates)] n)
     ++ trace s)%list.
Proof.
  unfold Extractors.scrollWalk; revert s.
  induction n as [|n IH]; intros s H.
  - unfold for_times, ret in H; now injection H as _ <-.
  - cbn [for_times] in H.
    apply bind_Ok in H; destruct H as (u1 & s1 & H1 & H).
    apply bind_Ok in H1; destruct H1 as (u2 & s2 & H2 & H1).
    apply evaluate_Ok in H2; apply call_Ok in H1.
    rewrite (IH _ H), H1, H2.
    change (WaitForTimeout pause :: Evaluate (ScrollToTop candidates) :: trace s)
      with ([WaitForTimeout pause; Evaluate (ScrollToTop candidates)] ++ trace s)%list.
    rewrite app_assoc, rounds_snoc; reflexivity.
Qed.

Lemma scrollWalk_counts n candidates pause :
  counts is_scroll n (Extractors.scrollWalk env n candidates pause).
Proof.
  unfold Extractors.scrollWalk.
  eapply counts_n; [apply Nat.mul_1_r|].
  apply counts_for_times.
  apply (counts_bind _ _ _ 1 0); [apply counts_evaluate|intros; counts_zero].
Qed.

End Returns.

(** ** The history walks *)
Section Walks.
Import Run Trace Extractors.
Variable env : Env.

Lemma extractGeneric_counts p :
  p (Evaluate ReadGeneric) = false -> counts p 0 (extractGeneric env).
Proof. intros H; unfold extractGeneric; now apply counts_evaluate_0. Qed.

Lemma readChatGPT_scrolls : counts is_scroll 10 (readChatGPT env).
Proof.
  unfold readChatGPT.
  apply (counts_bind _ _ _ 0 10); [counts_zero|intros].
  apply (counts_bind _ _ _ 0 10); [counts_zero|intros].
  apply (counts_bind _ _ _ 10 0); [apply scrollWalk_counts|intros; counts_zero].
Qed.

Lemma readGrok_scrolls : counts is_scroll 15 (readGrok env).
Proof.
  unfold readGrok.
  apply (counts_bind _ _ _ 0 15); [counts_zero|intros].
  apply (counts_bind _ _ _ 0 15); [counts_zero|intros].
  apply (counts_bind _ _ _ 15 0); [apply scrollWalk_counts|intros; counts_zero].
Qed.

Lemma readSlack_scrolls : counts is_scroll 15 (readSlack env).
Proof.
  unfold readSlack.
  apply (counts_bind _ _ _ 0 15); [counts_zero|intros].
  apply (counts_bind _ _ _ 0 15); [counts_zero|intros].
  apply (counts_bind _ _ _ 15 0); [apply scrollWalk_counts|intros; counts_zero].
Qed.

(** What a completed read stage of a walking extractor has called: the
    calls before the walk, the rounds of the walk, the read script. *)
Lemma read_after_walk (before : Prog unit) n candidates pause label
  (f : Dom.document -> result (list string) * Dom.document) s messages s' :
  counts is_scroll 0 before ->
  bind before (fun _ =>
    bind (scrollWalk env n candidates pause) (fun _ => evaluate env label f)) s
  = (Ok messages, s') ->
  exists pre,
    trace s' =
      (Evaluate label
       :: concat (repeat [WaitForTimeout pause; Evaluate (ScrollToTop candidates)] n)
       ++ pre ++ trace s)%list
    /\ count is_scroll pre = 0.
Proof.
  intros Hb H; apply bind_Ok in H; destruct H as (u & s1 & H1 & H).
  apply bind_Ok in H; destruct H as (u2 & s2 & H2 & H).
  destruct (Hb s) as (pre & Hadds & Hle & _); unfold adds in Hadds.
  rewrite H1 in Hadds; simpl in Hadds.
  exists pre; split; [|lia].
  now rewrite (evaluate_Ok _ _ _ _ _ _ H), (scrollWalk_Ok _ _ _ _ _ _ _ H2), Hadds.
Qed.

End Walks.

(** C9, as the code has it.  The ChatGPT, Grok and Slack extractors walk
    the history with a loop of 10, 15 and 15 rounds, each round one
    scroll-to-top script followed by a fixed delay (1000, 1000 and 800 ms):
    whatever the page and the browser do, a run makes at most that many
    scroll calls, and exactly that many, interleaved with the delays, when
    it returns.  The Discord extractor makes no scroll call at all. *)
Theorem history_walk_fixed_rounds (env : Run.Env) :
  Trace.counts Trace.is_scroll 10 (Extractors.extractChatGPT env)
  /\ Trace.counts Trace.is_scroll 15 (Extractors.extractGrok env)
  /\ Trace.counts Trace.is_scroll 15 (Extractors.extractSlack env)
  /\ Trace.counts Trace.is_scroll 0 (Extractors.extractDiscord env)
  /\ (forall s messages s',
        Extractors.readChatGPT env s = (Run.Ok messages, s') ->
        exists candidates pre,
          Run.trace s' =
            (Run.Evaluate (Run.ReadFragments Detect.chatgpt)
             :: concat (repeat [Run.WaitForTimeout 1000;
                                Run.Evaluate (Run.ScrollToTop candidates)] 10)
             ++ pre ++ Run.trace s)%list
          /\ Trace.count Trace.is_scroll pre = 0)
  /\ (forall s messages s',
        Extractors.readGrok env s = (Run.Ok messages, s') ->
        exists candidates pre,
          Run.trace s' =
            (Run.Evaluate (Run.ReadFragments Detect.grok)
             :: concat (repeat [Run.WaitForTimeout 1000;
                                Run.Evaluate (Run.ScrollToTop candidates)] 15)
             ++ pre ++ Run.trace s)%list
          /\ Trace.count Trace.is_scroll pre = 0)
  /\ (forall s messages s',
        Extractors.readSlack env s = (Run.Ok messages, s') ->
        exists candidates pre,
          Run.trace s' =
            (Run.Evaluate (Run.ReadFragments Detect.slack)
             :: concat (repeat [Run.WaitForTimeout 800;
                                Run.Evaluate (Run.ScrollToTop candidates)] 15)
             ++ pre ++ Run.trace s)%list
          /\ Trace.count Trace.is_scroll pre = 0).
Proof.
  repeat split.
  - unfold Extractors.extractChatGPT.
    apply (counts_bind _ _ _ 10 0); [apply readChatGPT_scrolls|intros].
    destruct (_ =? _)%nat; [now apply extractGeneric_counts|apply counts_ret].
  - unfold Extractors.extractGrok.
    apply (counts_bind _ _ _ 15 0); [apply readGrok_scrolls|intros].
    destruct (_ =? _)%nat; [now apply counts_evaluate_0|apply counts_ret].
  - unfold Extractors.extractSlack.
    apply (counts_bind _ _ _ 15 0); [apply readSlack_scrolls|intros].
    destruct (_ =? _)%nat; [now apply extractGeneric_counts|apply counts_ret].
  - unfold Extractors.extractDiscord, Extractors.readDiscord, Extractors.extractGeneric.
    counts_zero.
  - intros s messages s' H; eexists.
    unfold Extractors.readChatGPT in H.
    eapply (read_after_walk env
              (Run.bind (Run.ignore_errors _) (fun _ => Run.console _))).
    2: { rewrite bind_assoc_at; exact H. }
    counts_zero.
  - intros s messages s' H; eexists.
    unfold Extractors.readGrok in H.
    eapply (read_after_walk env
              (Run.bind (Run.waitForTimeout env _) (fun _ => Run.console _))).
    2: { rewrite bind_assoc_at; exact H. }
    counts_zero.
  - intros s messages s' H; eexists.
    unfold Extractors.readSlack in H.
    eapply (read_after_walk env
              (Run.bind (Run.ignore_errors _) (fun _ => Run.console _))).
    2: { rewrite bind_assoc_at; exact H. }
    counts_zero.
Qed.

Lemma history_walk_fixed_rounds_witness :
  exists candidates pre,
    Run.trace (snd (Extractors.readSlack Examples.quiet
                      (Examples.fresh Examples.article_page))) =
      (Run.Evaluate (Run.ReadFragments Detect.slack)
       :: concat (repeat [Run.WaitForTimeout 800;
                          Run.Evaluate (Run.ScrollToTop candidates)] 15)
       ++ pre ++ Run.trace (Examples.fresh Examples.article_page))%list
    /\ Trace.count Trace.is_scroll pre = 0.
Proof.
  apply (proj2 (proj2 (proj2 (proj2 (proj2 (proj2
           (history_walk_fixed_rounds Examples.quiet))))))
           (Examples.fresh Examples.article_page) []).
  vm_compute; reflexivity.
Defined.

(** The Discord extractor, run on a channel page, returns the message it
    finds and has made two calls, neither of them a scroll. *)
Lemma discord_makes_no_history_walk :
  Extractors.extractDiscord Examples.quiet (Examples.fresh Examples.discord_page)
  = (Run.Ok "**ann**: hi",
     Run.MkState Examples.discord_page
       [ Run.Evaluate (Run.ReadFragments Detect.discord);
         Run.WaitForSelector [[Dom.AttrIs "role" "list"]] 15000 ])
  /\ Trace.count Trace.is_scroll
       (Run.trace (snd (Extractors.extractDiscord Examples.quiet
                          (Examples.fresh Examples.discord_page)))) = 0.
Proof. split; vm_compute; reflexivity. Qed.

(** ** The browser context of a fetch *)
Section Lifecycle.
Import Run Trace Extractors Browser.
Variable env : Env.

Ltac unfold_extractors :=
  unfold invoke, extractGeminiChat, extractGoogleDoc, extractNotebookLM,
    extractChatGPT, extractGrok, extractDiscord, extractSlack, extractRaindrop,
    extractGeneric, readGeminiChat, readGoogleDoc, readNotebookLM, readChatGPT,
    readGrok, readDiscord, readSlack, readRaindrop, scrollWalk.

(** No extractor launches or closes a browser context. *)
Lemma invoke_keeps_context (f : Extractor) :
  counts is_close_or_launch 0 (invoke env f).
Proof. destruct f; unfold_extractors; counts_zero. Qed.

Lemma acceptInFrames_counts p i n :
  p Click = false -> (forall ms, p (WaitForTimeout ms) = false) ->
  (forall fr alt, p (Query fr alt) = false) ->
  counts p 0 (acceptInFrames env i n).
Proof.
  intros Hc Hw Hq; revert i; induction n as [|n IH]; intros i; simpl.
  - apply counts_ret.
  - apply (counts_bind _ _ _ 0 0).
    + unfold query; apply (counts_bind _ _ _ 0 0);
        [apply counts_call_0, Hq|intros; apply counts_get].
    + intros [|]; [|apply IH].
      apply (counts_bind _ _ _ 0 0);
        [apply counts_call_0, Hc|intros; apply counts_call_0, Hw].
Qed.

Lemma bypassAppRedirect_counts p pageContent :
  p Click = false -> (forall ms, p (WaitForTimeout ms) = false) ->
  (forall fr alt, p (Query fr alt) = false) ->
  (forall line, p (Console line) = false) ->
  counts p 0 (bypassAppRedirect env pageContent).
Proof.
  intros Hc Hw Hq Hl; unfold bypassAppRedirect.
  destruct (shows_app_redirect _); [|apply counts_ret].
  apply (counts_bind _ _ _ 0 0); [apply counts_console, Hl|intros].
  apply counts_try_catch; [|intros; apply counts_console, Hl].
  apply (counts_bind _ _ _ 0 0).
  - unfold query; apply (counts_bind _ _ _ 0 0);
      [apply counts_call_0, Hq|intros; apply counts_get].
  - intros [|]; [|apply counts_ret].
    apply (counts_bind _ _ _ 0 0);
      [apply counts_call_0, Hc|intros; apply counts_call_0, Hw].
Qed.

Lemma bypassConsentWall_counts p pageContent :
  p Click = false -> (forall ms, p (WaitForTimeout ms) = false) ->
  (forall fr alt, p (Query fr alt) = false) ->
  (forall line, p (Console line) = false) ->
  counts p 0 (bypassConsentWall env pageContent).
Proof.
  intros Hc Hw Hq Hl; unfold bypassConsentWall.
  destruct (shows_consent_wall _); [|apply counts_ret].
  apply (counts_bind _ _ _ 0 0); [apply counts_console, Hl|intros].
  apply counts_try_catch; [|intros; apply counts_console, Hl].
  apply (counts_bind _ _ _ 0 0); [apply counts_get|intros].
  now apply acceptInFrames_counts.
Qed.

Lemma handleBarriers_counts p :
  p Content = false ->
  p Click = false -> (forall ms, p (WaitForTimeout ms) = false) ->
  (forall fr alt, p (Query fr alt) = false) ->
  (forall line, p (Console line) = false) ->
  counts p 0 (handleBarriers env).
Proof.
  intros Hk Hc Hw Hq Hl; unfold handleBarriers, Run.content.
  apply (counts_bind _ _ _ 0 0).
  { apply (counts_bind _ _ _ 0 0);
      [apply counts_call_0, Hk|intros; apply counts_get]. }
  intros pageContent.
  apply (counts_bind _ _ _ 0 0);
    [now apply bypassAppRedirect_counts|intros; now apply bypassConsentWall_counts].
Qed.

Lemma openPage_counts p :
  p NewPage = false -> p AddInitScript = false -> counts p 0 (openPage env).
Proof.
  intros H1 H2; unfold openPage.
  apply (counts_bind _ _ _ 0 0); [apply counts_get|intros [|]].
  - apply (counts_bind _ _ _ 0 0); [apply counts_ret|intros; now apply counts_call_0].
  - apply (counts_bind _ _ _ 0 0); intros; now apply counts_call_0.
Qed.

Lemma finally_call_trace {A} (body : Prog A) (ev : event) s :
  trace (snd (try_finally body (call env ev) s)) = ev :: trace (snd (body s)).
Proof.
  unfold try_finally, call; destruct (body s) as [r s1]; simpl.
  destruct (throws env ev s1); reflexivity.
Qed.

Lemma count_or_zero (l : list event) :
  count is_close_or_launch l <= 0 ->
  count is_close l = 0 /\ count is_launch l = 0.
Proof.
  unfold count; induction l as [|e l IH]; simpl; [auto|].
  unfold is_close_or_launch at 1.
  destruct (is_close e), (is_launch e); simpl; intros H; try lia; apply IH; lia.
Qed.

(** A fetch body wrapped in [try ... finally close], started right after a
    launch that succeeded: one launch and one close in all, the close
    last. *)
Lemma launched_then_closed {A} (body : Prog A) (headless : bool) s :
  throws env (Launch headless) s = None ->
  counts is_close_or_launch 0 body ->
  exists new,
    adds (bind (call env (Launch headless))
            (fun _ => try_finally body (call env Close))) s new
    /\ count is_close new = 1 /\ count is_launch new = 1
    /\ hd_error new = Some Close.
Proof.
  intros Hl Hb; unfold adds, bind, call at 1; rewrite Hl.
  set (s1 := MkState (react env (Launch headless) s) (Launch headless :: trace s)).
  destruct (Hb s1) as (mid & Hadds & Hle & _).
  destruct (count_or_zero mid Hle) as [Hz1 Hz2].
  exists ([Close] ++ mid ++ [Launch headless])%list.
  unfold adds in Hadds; rewrite finally_call_trace, Hadds; subst s1; simpl.
  rewrite <- app_assoc; repeat split; try reflexivity.
  - change (Close :: mid ++ [Launch headless])%list
      with ([Close] ++ mid ++ [Launch headless])%list.
    rewrite !count_app, Hz1; reflexivity.
  - change (Close :: mid ++ [Launch headless])%list
      with ([Close] ++ mid ++ [Launch headless])%list.
    rewrite !count_app, Hz2; reflexivity.
Qed.

End Lifecycle.

(** C2.  A fetch that finds the profile and whose launch succeeds makes,
    whatever happens afterwards (navigation failure, extractor exception,
    any other failing call, or a normal return), exactly one launch and
    exactly one [context.close()], and the close is its last call. *)
Theorem context_closed_exactly_once (env : Run.Env) (url : string)
  (headless : bool) (f : Extractors.Extractor) (s : Run.State) :
  Run.profile_exists env s = true ->
  Run.throws env (Run.Launch headless) s = None ->
  (exists new,
     Trace.adds (Browser.fetchAuthenticated env url headless) s new
     /\ Trace.count Trace.is_close new = 1
     /\ Trace.count Trace.is_launch new = 1
     /\ hd_error new = Some Run.Close)
  /\ (exists new,
        Trace.adds (Browser.fetchWithExtractor env url (Extractors.invoke env f) headless) s new
        /\ Trace.count Trace.is_close new = 1
        /\ Trace.count Trace.is_launch new = 1
        /\ hd_error new = Some Run.Close).
Proof.
  intros Hp Hl; split.
  - destruct (launched_then_closed env
                (Run.bind (Browser.openPage env) (fun _ =>
                 Run.bind (Run.call env (Run.Goto url 30000)) (fun _ =>
                 Run.bind (Run.waitForTimeout env 2000) (fun _ =>
                 Run.bind (Browser.handleBarriers env) (fun _ =>
                 Run.bind (Run.title env) (fun pageTitle =>
                 Run.bind (Run.evaluate env Run.ReadBodyText (Browser.bodyTextScript env))
                   (fun text => Run.ret (Browser.MkFetched pageTitle text))))))))
                headless s Hl) as (new & H).
    + apply (counts_bind _ _ _ 0 0); [now apply openPage_counts|intros].
      apply (counts_bind _ _ _ 0 0); [now apply counts_call_0|intros].
      apply (counts_bind _ _ _ 0 0); [now apply counts_call_0|intros].
      apply (counts_bind _ _ _ 0 0); [now apply handleBarriers_counts|intros].
      counts_zero.
    + exists new; revert H.
      unfold Trace.adds, Browser.fetchAuthenticated, Run.hasAuthSession, Run.get.
      unfold Run.bind at 8; rewrite Hp; exact (fun H => H).
  - destruct (launched_then_closed env
                (Run.bind (Browser.openPage env) (fun _ =>
                 Run.bind (Run.call env (Run.Goto url 30000)) (fun _ =>
                 Run.bind (Run.waitForTimeout env 5000) (fun _ =>
                 Run.bind (Browser.handleBarriers env) (fun _ =>
                 Run.bind (Run.title env) (fun pageTitle =>
                 Run.bind (Run.console ("🌐 (Extractor) Loaded: " ++ url)) (fun _ =>
                 Run.bind (Extractors.invoke env f)
                   (fun text => Run.ret (Browser.MkFetched pageTitle text)))))))))
                headless s Hl) as (new & H).
    + apply (counts_bind _ _ _ 0 0); [now apply openPage_counts|intros].
      apply (counts_bind _ _ _ 0 0); [now apply counts_call_0|intros].
      apply (counts_bind _ _ _ 0 0); [now apply counts_call_0|intros].
      apply (counts_bind _ _ _ 0 0); [now apply handleBarriers_counts|intros].
      apply (counts_bind _ _ _ 0 0); [counts_zero|intros].
      apply (counts_bind _ _ _ 0 0); [counts_zero|intros].
      apply (counts_bind _ _ _ 0 0); [apply invoke_keeps_context|intros].
      apply counts_ret.
    + exists new; revert H.
      unfold Trace.adds, Browser.fetchWithExtractor, Run.hasAuthSession, Run.get.
      unfold Run.bind at 9; rewrite Hp; exact (fun H => H).
Qed.

Lemma context_closed_exactly_once_witness :
  (exists new,
     Trace.adds (Browser.fetchAuthenticated
                   (Examples.failing_goto "page.goto: net::ERR_NAME_NOT_RESOLVED")
                   "https://example.invalid/" true)
       (Examples.fresh Examples.article_page) new
     /\ Trace.count Trace.is_close new = 1
     /\ Trace.count Trace.is_launch new = 1
     /\ hd_error new = Some Run.Close)
  /\ (exists new,
        Trace.adds (Browser.fetchWithExtractor
                      (Examples.failing_goto "page.goto: net::ERR_NAME_NOT_RESOLVED")
                      "https://example.invalid/"
                      (Extractors.invoke
                         (Examples.failing_goto "page.goto: net::ERR_NAME_NOT_RESOLVED")
                         Extractors.Discord) true)
          (Examples.fresh Examples.article_page) new
        /\ Trace.count Trace.is_close new = 1
        /\ Trace.count Trace.is_launch new = 1
        /\ hd_error new = Some Run.Close).
Proof.
  apply (context_closed_exactly_once
           (Examples.failing_goto "page.goto: net::ERR_NAME_NOT_RESOLVED")
           "https://example.invalid/" true Extractors.Discord
           (Examples.fresh Examples.article_page)); reflexivity.
Defined.

(** ** Strings of the answers *)
Section AnswerTexts.

Lemma prefix_app (u b : string) : String.prefix u (u ++ b) = true.
Proof.
  induction u as [|c u IH]; simpl; [now destruct b|].
  destruct (Ascii.ascii_dec c c) as [_|n]; [exact IH|now elim n].
Qed.

Lemma includes_here (u b : string) : Str.includes (u ++ b) u = true.
Proof.
  assert (U : forall s, Str.includes s u
                        = String.prefix u s
                          || match s with
                             | EmptyString => false
                             | String _ rest => Str.includes rest u
                             end) by (intros s; now destruct s).
  now rewrite U, prefix_app.
Qed.

Lemma includes_app_r (a s u : string) :
  Str.includes s u = true -> Str.includes (a ++ s) u = true.
Proof.
  intros H; induction a as [|c a IH]; simpl; [exact H|].
  rewrite IH; apply orb_true_r.
Qed.

Lemma append_assoc (a b c : string) : (a ++ b) ++ c = a ++ b ++ c.
Proof. induction a as [|x a IH]; simpl; [reflexivity|now rewrite IH]. Qed.

Lemma reauth_text_mentions (url : string) :
  Str.includes (Server.reauth_text url) url = true.
Proof.
  unfold Server.reauth_text, Server.lines, Str.join; cbn [String.concat].
  do 2 apply includes_app_r.
  change ("" ++ ?x) with x.
  apply includes_app_r.
  rewrite append_assoc; apply includes_app_r, includes_here.
Qed.

End AnswerTexts.

(** ** The traverse_resource handler *)
Section Handler.
Import Run Detect Browser Server.
Variable env : Env.

(** The handler, once the URL is there and the session exists, as a
    function of what the fetch did. *)
Lemma traverse_resource_run (url : string) (raw : option bool) s :
  missing (Some url) = false -> profile_exists env s = true ->
  traverse_resource env (Some url) raw s =
    match fetch env url raw (detectService url) s with
    | (Ok result, s1) =>
        (Ok (MkToolResult (format_output (detectService url) url result) false), s1)
    | (Throw errorMsg, s1) =>
        if auth_wall errorMsg
        then (Ok (MkToolResult (reauth_text url) true), s1)
        else (Throw errorMsg, s1)
    end.
Proof.
  intros Hu Hp; unfold traverse_resource; rewrite Hu.
  unfold bind at 1, hasAuthSession, get; rewrite Hp; simpl.
  unfold try_catch, bind.
  destruct (fetch env url raw (detectService url) s) as [[result|errorMsg] s1]; simpl.
  - reflexivity.
  - destruct (auth_wall errorMsg); reflexivity.
Qed.

Lemma callTool_traverse (u : option string) (raw : option bool) s :
  callTool env (MkRequest "traverse_resource" u raw) s =
    match traverse_resource env u raw s with
    | (Ok answer, s1) => (Ok answer, s1)
    | (Throw errorMessage, s1) =>
        (Ok (MkToolResult (generic_error_text errorMessage) true), s1)
    end.
Proof. reflexivity. Qed.

(** A call that answers without [isError] went through a fetch that
    returned. *)
Lemma traverse_resource_success (u : option string) (raw : option bool) s answer s' :
  traverse_resource env u raw s = (Ok answer, s') -> isError answer = false ->
  exists url result,
    u = Some url
    /\ fetch env url raw (detectService url) s = (Ok result, s')
    /\ answer = MkToolResult (format_output (detectService url) url result) false.
Proof.
  intros H He; destruct (missing u) eqn:Hu.
  - unfold traverse_resource in H; rewrite Hu in H.
    injection H as <- _; discriminate.
  - destruct u as [url|]; [|discriminate].
    destruct (profile_exists env s) eqn:Hp.
    + rewrite (traverse_resource_run url raw s Hu Hp) in H.
      destruct (fetch env url raw (detectService url) s)
        as [[result|errorMsg] s1] eqn:F.
      * injection H as <- <-; exists url, result; auto.
      * destruct (auth_wall errorMsg); [|discriminate].
        injection H as <- _; discriminate.
    + unfold traverse_resource in H; rewrite Hu in H.
      unfold bind, hasAuthSession, get in H; rewrite Hp in H; simpl in H.
      injection H as <- _; discriminate.
Qed.

End Handler.



(** A request without a URL (none, or the empty string) never reaches the
    session check: the guard [if (!url)] answers it first, whatever the
    browser and whether or not there is a profile directory. *)
Lemma url_checked_before_session (env : Run.Env) (u : option string)
  (raw : option bool) (s : Run.State) :
  Server.missing u = true ->
  Server.callTool env (Server.MkRequest "traverse_resource" u raw) s
  = (Run.Ok (Server.MkToolResult "Error: URL is required" true), s).
Proof.
  intros Hu; rewrite callTool_traverse.
  unfold Server.traverse_resource; now rewrite Hu.
Qed.

(** C6.  When the fetch of a traverse_resource call throws, a message that
    contains "Session expired", "Sign in" or "login" is answered, as an
    error, with the re-authentication instruction: the heading "Session
    Expired or Auth Required", the line that names the attempted URL as the
    place of the login wall, and the command to run, [bun run auth] with
    that URL.  Any other message is thrown again by the inner handler and
    comes out of the outer one as the generic error text. *)
Theorem fetch_failure_classified (env : Run.Env) (url : string)
  (raw : option bool) (s s1 : Run.State) (errorMsg : string) :
  Server.missing (Some url) = false ->
  Run.profile_exists env s = true ->
  Server.fetch env url raw (Detect.detectService url) s = (Run.Throw errorMsg, s1) ->
  (Str.includes errorMsg "Session expired" = true
   \/ Str.includes errorMsg "Sign in" = true
   \/ Str.includes errorMsg "login" = true ->
   exists answer,
     Server.callTool env (Server.MkRequest "traverse_resource" (Some url) raw) s
     = (Run.Ok answer, s1)
     /\ Server.isError answer = true
     /\ Server.text answer =
          "🔐 **Session Expired or Auth Required**" ++ Str.nl ++ Str.nl
          ++ "The AI hit a login wall at: " ++ url ++ Str.nl ++ Str.nl
          ++ "**Action Required:**" ++ Str.nl
          ++ "Run the Universal Auth Key to refresh your session:" ++ Str.nl
          ++ "```bash" ++ Str.nl
          ++ "cd Projects/resource-traversal-mcp && bun run auth " ++ url ++ Str.nl
          ++ "```"
     /\ Str.includes (Server.text answer) url = true
     /\ Str.includes (Server.text answer) ("bun run auth " ++ url) = true)
  /\ (Str.includes errorMsg "Session expired" = false ->
      Str.includes errorMsg "Sign in" = false ->
      Str.includes errorMsg "login" = false ->
      Server.traverse_resource env (Some url) raw s = (Run.Throw errorMsg, s1)
      /\ Server.callTool env (Server.MkRequest "traverse_resource" (Some url) raw) s
         = (Run.Ok (Server.MkToolResult ("❌ Error: " ++ errorMsg) true), s1)).
Proof.
  intros Hu Hp Hf; split.
  - intros Hw.
    assert (W : Server.auth_wall errorMsg = true).
    { unfold Server.auth_wall; destruct Hw as [->|[->| ->]];
        rewrite ?orb_true_r; reflexivity. }
    exists (Server.MkToolResult (Server.reauth_text url) true).
    split; [|split; [reflexivity|]].
    { now rewrite callTool_traverse, (traverse_resource_run env url raw s Hu Hp), Hf, W. }
    cbn [Server.text]; split; [|split; [apply reauth_text_mentions|]].
    + unfold Server.reauth_text, Server.lines, Str.join; cbn [String.concat].
      rewrite !append_assoc; reflexivity.
    + unfold Server.reauth_text, Server.lines, Str.join; cbn [String.concat].
      rewrite !append_assoc.
      repeat match goal with
             | |- Str.includes
                    ("cd Projects/resource-traversal-mcp && bun run auth " ++ _) _
                  = true => fail 1
             | |- Str.includes (_ ++ _) _ = true => apply includes_app_r
             end.
      change ("cd Projects/resource-traversal-mcp && bun run auth " ++ ?x)
        with ("cd Projects/resource-traversal-mcp && " ++ "bun run auth " ++ x).
      apply includes_app_r.
      rewrite <- append_assoc; apply includes_here.
  - intros H1 H2 H3.
    assert (W : Server.auth_wall errorMsg = false).
    { unfold Server.auth_wall; now rewrite H1, H2, H3. }
    rewrite callTool_traverse, (traverse_resource_run env url raw s Hu Hp), Hf, W.
    split; reflexivity.
Qed.

Lemma fetch_failure_classified_witness :
  (exists answer,
     Server.callTool (Examples.failing_goto "Sign in to continue")
       (Server.MkRequest "traverse_resource" (Some "https://chatgpt.com/c/42") None)
       (Examples.fresh Examples.article_page)
     = (Run.Ok answer,
        Run.MkState Examples.article_page
          [ Run.Close; Run.Goto "https://chatgpt.com/c/42" 30000;
            Run.AddInitScript; Run.Launch true ])
     /\ Server.isError answer = true
     /\ Server.text answer =
          "🔐 **Session Expired or Auth Required**" ++ Str.nl ++ Str.nl
          ++ "The AI hit a login wall at: " ++ "https://chatgpt.com/c/42"
          ++ Str.nl ++ Str.nl
          ++ "**Action Required:**" ++ Str.nl
          ++ "Run the Universal Auth Key to refresh your session:" ++ Str.nl
          ++ "```bash" ++ Str.nl
          ++ "cd Projects/resource-traversal-mcp && bun run auth "
          ++ "https://chatgpt.com/c/42" ++ Str.nl
          ++ "```"
     /\ Str.includes (Server.text answer) "https://chatgpt.com/c/42" = true
     /\ Str.includes (Server.text answer)
          ("bun run auth " ++ "https://chatgpt.com/c/42") = true)
  /\ Server.callTool (Examples.failing_goto "page.goto: Timeout 30000ms exceeded.")
       (Server.MkRequest "traverse_resource" (Some "https://example.com/page") (Some true))
       (Examples.fresh Examples.article_page)
     = (Run.Ok (Server.MkToolResult "❌ Error: page.goto: Timeout 30000ms exceeded." true),
        Run.MkState Examples.article_page
          [ Run.Close; Run.Goto "https://example.com/page" 30000;
            Run.AddInitScript; Run.Launch true ]).
Proof.
  split.
  - apply (proj1 (fetch_failure_classified (Examples.failing_goto "Sign in to continue")
                    "https://chatgpt.com/c/42" None
                    (Examples.fresh Examples.article_page) _ "Sign in to continue"
                    eq_refl eq_refl eq_refl)).
    right; left; reflexivity.
  - apply (proj2 (fetch_failure_classified
                    (Examples.failing_goto "page.goto: Timeout 30000ms exceeded.")
                    "https://example.com/page" (Some true)
                    (Examples.fresh Examples.article_page) _
                    "page.goto: Timeout 30000ms exceeded."
                    eq_refl eq_refl eq_refl)); reflexivity.
Defined.

(** C8.  The text of every traverse_resource answer without [isError] is:
    the line "# " followed by the page title and, when a service was
    detected, its name in parentheses after a space (nothing after the
    title when none was detected); an empty line; the line "**Source:** "
    followed by the requested URL; an empty line; the separator "---"; an
    empty line; the extracted content. *)
Theorem success_output_format (env : Run.Env) (u : option string)
  (raw : option bool) (s s' : Run.State) (answer : Server.ToolResult) :
  Server.traverse_resource env u raw s = (Run.Ok answer, s') ->
  Server.isError answer = false ->
  exists url result,
    u = Some url
    /\ Server.fetch env url raw (Detect.detectService url) s = (Run.Ok result, s')
    /\ (forall service, Detect.detectService url = Some service ->
          Server.text answer =
            "# " ++ Browser.title result ++ " (" ++ Detect.service_name service ++ ")"
            ++ Str.nl ++ Str.nl ++ "**Source:** " ++ url
            ++ Str.nl ++ Str.nl ++ "---" ++ Str.nl ++ Str.nl
            ++ Browser.content result)
    /\ (Detect.detectService url = None ->
          Server.text answer =
            "# " ++ Browser.title result
            ++ Str.nl ++ Str.nl ++ "**Source:** " ++ url
            ++ Str.nl ++ Str.nl ++ "---" ++ Str.nl ++ Str.nl
            ++ Browser.content result).
Proof.
  intros H He.
  destruct (traverse_resource_success env u raw s answer s' H He)
    as (url & result & -> & Hf & ->).
  exists url, result; repeat split; [exact Hf| |].
  - intros service ->; simpl.
    unfold Server.format_output, Server.lines, Str.join; cbn [String.concat Server.serviceLabel].
    rewrite !append_assoc; reflexivity.
  - intros ->; simpl.
    unfold Server.format_output, Server.lines, Str.join; cbn [String.concat Server.serviceLabel].
    rewrite !append_assoc; reflexivity.
Qed.

Lemma success_output_format_witness :
  exists url result,
    Some "https://gemini.google.com/app/abc123" = Some url
    /\ Server.fetch Examples.quiet url None (Detect.detectService url)
         (Examples.fresh Examples.article_page)
       = (Run.Ok result,
          snd (Server.traverse_resource Examples.quiet
                 (Some "https://gemini.google.com/app/abc123") None
                 (Examples.fresh Examples.article_page)))
    /\ (forall service, Detect.detectService url = Some service ->
          Server.text
            (Server.MkToolResult
               (Server.lines
                  [ "# Example (gemini)"; "";
                    "**Source:** https://gemini.google.com/app/abc123"; "";
                    "---"; ""; "AB" ]) false) =
            "# " ++ Browser.title result ++ " (" ++ Detect.service_name service ++ ")"
            ++ Str.nl ++ Str.nl ++ "**Source:** " ++ url
            ++ Str.nl ++ Str.nl ++ "---" ++ Str.nl ++ Str.nl
            ++ Browser.content result)
    /\ (Detect.detectService url = None ->
          Server.text
            (Server.MkToolResult
               (Server.lines
                  [ "# Example (gemini)"; "";
                    "**Source:** https://gemini.google.com/app/abc123"; "";
                    "---"; ""; "AB" ]) false) =
            "# " ++ Browser.title result
            ++ Str.nl ++ Str.nl ++ "**Source:** " ++ url
            ++ Str.nl ++ Str.nl ++ "---" ++ Str.nl ++ Str.nl
            ++ Browser.content result).
Proof.
  apply (success_output_format Examples.quiet
           (Some "https://gemini.google.com/app/abc123") None
           (Examples.fresh Examples.article_page)).
  - vm_compute; reflexivity.
  - reflexivity.
Defined.

(** The scenario of a URL that no pattern matches: the handler takes the
    raw fetch (the text of the body) and the heading is the title alone. *)
Example unknown_service_heading :
  fst (Server.callTool Examples.quiet
         (Server.MkRequest "traverse_resource" (Some "https://example.com/page") None)
         (Examples.fresh Examples.article_page))
  = Run.Ok (Server.MkToolResult
              (Server.lines [ "# Example"; EmptyString;
                              "**Source:** https://example.com/page";
                              EmptyString; "---"; EmptyString; "AB" ]) false).
Proof. vm_compute; reflexivity. Qed.

(** ** Fetches that return *)
Section FetchReturns.
Import Run Trace Extractors Browser.
Variable env : Env.

Lemma counts_run p n {A} (m : Prog A) s r s1 :
  counts p n m -> m s = (r, s1) ->
  exists new, trace s1 = (new ++ trace s)%list /\ count p new <= n.
Proof.
  intros Hc Hm; destruct (Hc s) as (new & Hadds & Hle & _).
  unfold adds in Hadds; rewrite Hm in Hadds; eauto.
Qed.

Lemma only_barrier_steps (l : list event) :
  count (fun e => negb (is_barrier_step e)) l <= 0 ->
  forallb is_barrier_step l = true.
Proof.
  unfold count; induction l as [|e l IH]; simpl; [reflexivity|].
  destruct (is_barrier_step e); simpl; [exact IH|lia].
Qed.

Lemma try_finally_Ok {A} (m : Prog A) (f : Prog unit) s a s' :
  try_finally m f s = (Ok a, s') ->
  exists s1 u, m s = (Ok a, s1) /\ f s1 = (Ok u, s').
Proof.
  unfold try_finally; destruct (m s) as [r s1].
  destruct (f s1) as [[u|e] s2] eqn:F; [|discriminate].
  intros [= -> ->]; eauto.
Qed.

Lemma content_Ok s pageContent s' :
  Run.content env s = (Ok pageContent, s') -> trace s' = Content :: trace s.
Proof.
  intros H; apply bind_Ok in H; destruct H as (u & s1 & H1 & H).
  apply (call_Ok env) in H1; now injection H as _ <-.
Qed.

Lemma title_Ok s pageTitle s' :
  Run.title env s = (Ok pageTitle, s') -> trace s' = Title :: trace s.
Proof.
  intros H; apply bind_Ok in H; destruct H as (u & s1 & H1 & H).
  apply (call_Ok env) in H1; now injection H as _ <-.
Qed.

Lemma call_records ev s : trace (snd (call env ev s)) = ev :: trace s.
Proof. unfold call; destruct (throws env ev s); reflexivity. Qed.

Lemma query_records frame alternatives s :
  trace (snd (query env frame alternatives s)) = Query frame alternatives :: trace s.
Proof.
  unfold query, bind, get; generalize (call_records (Query frame alternatives) s).
  destruct (call env (Query frame alternatives) s) as [[u|e] s1]; simpl; auto.
Qed.

(** What follows a first step only adds to what the first step called. *)
Lemma bind_extends p {A B} (m : Prog A) (k : A -> Prog B) s :
  (forall a, counts p 0 (k a)) ->
  exists new, trace (snd (bind m k s)) = (new ++ trace (snd (m s)))%list.
Proof.
  intros Hk; unfold bind; destruct (m s) as [[a|e] s1]; simpl.
  - destruct (Hk a s1) as (new & Hadds & _); exists new; exact Hadds.
  - exists []; reflexivity.
Qed.

Lemma try_catch_extends p {A} (m : Prog A) (h : string -> Prog A) s :
  (forall e, counts p 0 (h e)) ->
  exists new, trace (snd (try_catch m h s)) = (new ++ trace (snd (m s)))%list.
Proof.
  intros Hh; unfold try_catch; destruct (m s) as [[a|e] s1]; simpl.
  - exists []; reflexivity.
  - destruct (Hh e s1) as (new & Hadds & _); exists new; exact Hadds.
Qed.

(** On an app-redirect screen the link that continues in the browser is
    looked up. *)
Lemma bypassAppRedirect_looks_up pageContent s :
  shows_app_redirect pageContent = true ->
  exists new,
    trace (snd (bypassAppRedirect env pageContent s)) = (new ++ trace s)%list
    /\ In (Query None browser_link) new.
Proof.
  intros Hr; unfold bypassAppRedirect; rewrite Hr.
  unfold bind at 1, console.
  match goal with
  | |- context [try_catch ?m ?h ?s1] =>
      destruct (try_catch_extends (fun _ => false) m h s1) as (n1 & H1);
        [intros; now apply counts_console|]
  end.
  match type of H1 with
  | context [snd (bind ?q ?k ?s1)] =>
      destruct (bind_extends (fun _ => false) q k s1) as (n2 & H2);
        [intros [|]; counts_zero|]
  end.
  rewrite H2, query_records in H1; simpl in H1.
  exists (n1 ++ n2 ++ [Query None browser_link;
                       Console "🔗 Slack redirect detected. Forcing browser mode..."])%list.
  split.
  - rewrite H1, <- !app_assoc; reflexivity.
  - rewrite !in_app_iff; right; right; now left.
Qed.

Lemma acceptInFrames_first i n s :
  exists new,
    trace (snd (acceptInFrames env i (S n) s))
    = (new ++ Query (Some i) accept_button :: trace s)%list.
Proof.
  cbn [acceptInFrames].
  match goal with
  | |- context [snd (bind ?q ?k s)] =>
      destruct (bind_extends (fun _ => false) q k s) as (new & H);
        [intros [|]; [counts_zero|now apply acceptInFrames_counts]|]
  end.
  rewrite query_records in H; eauto.
Qed.

(** Behind a cookie wall the accept button is looked up in the first
    frame. *)
Lemma bypassConsentWall_looks_up pageContent s :
  shows_consent_wall pageContent = true ->
  (forall st, 0 < frames env st) ->
  exists new,
    trace (snd (bypassConsentWall env pageContent s)) = (new ++ trace s)%list
    /\ In (Query (Some 0) accept_button) new.
Proof.
  intros Hw Hf; unfold bypassConsentWall; rewrite Hw.
  unfold bind at 1, console.
  match goal with
  | |- context [try_catch ?m ?h ?s1] =>
      destruct (try_catch_extends (fun _ => false) m h s1) as (n1 & H1);
        [intros; now apply counts_console|];
      specialize (Hf s1);
      change (snd (m s1)) with (snd (acceptInFrames env 0 (frames env s1) s1)) in H1;
      destruct (frames env s1) as [|n]; [lia|];
      destruct (acceptInFrames_first 0 n s1) as (n2 & H2)
  end.
  rewrite H2 in H1; simpl in H1.
  exists (n1 ++ n2 ++ [Query (Some 0) accept_button;
                       Console "🛡️  Consent wall detected. Bypassing..."])%list.
  split.
  - rewrite H1, <- !app_assoc; reflexivity.
  - rewrite !in_app_iff; right; right; now left.
Qed.

(** On an app-redirect screen with the link on the page, the lookup is
    followed by the click and the delay. *)
Lemma bypassAppRedirect_clicks pageContent s :
  shows_app_redirect pageContent = true -> link_present env ->
  exists later earlier,
    trace (snd (bypassAppRedirect env pageContent s))
    = (later ++ [WaitForTimeout 5000; Click; Query None browser_link]
       ++ earlier ++ trace s)%list.
Proof.
  intros Hr (Hq & Hf & Hc); unfold bypassAppRedirect; rewrite Hr.
  unfold bind at 1, console.
  unfold try_catch, query, click, waitForTimeout, bind, call, get.
  rewrite Hq, Hf, Hc; cbn [doc trace].
  match goal with
  | |- context [throws env (WaitForTimeout 5000) ?st] =>
      destruct (throws env (WaitForTimeout 5000) st)
  end; cbn [snd trace].
  - exists [Console "⚠️ Failed to click Slack browser link..."],
           [Console "🔗 Slack redirect detected. Forcing browser mode..."].
    reflexivity.
  - exists [], [Console "🔗 Slack redirect detected. Forcing browser mode..."].
    reflexivity.
Qed.

(** With the first accept button in frame [k], the search from a frame up
    to [k] ends with the lookup in frame [k], the click and the delay. *)
Lemma acceptInFrames_clicks k n :
  button_in_frame env k ->
  forall i s, i <= k -> k < i + n ->
  exists earlier,
    trace (snd (acceptInFrames env i n s))
    = ([WaitForTimeout 5000; Click; Query (Some k) accept_button]
       ++ earlier ++ trace s)%list.
Proof.
  intros (Hfr & Hq & Hno & Hyes & Hc).
  induction n as [|n IH]; intros i s Hi Hk; [lia|].
  cbn [acceptInFrames]; unfold query, bind at 1 2, call, get.
  rewrite (Hq i) by lia.
  destruct (Nat.eq_dec i k) as [->|Hne].
  - rewrite Hyes; unfold click, waitForTimeout, bind, call; rewrite Hc.
    cbn [doc trace].
    match goal with
    | |- context [throws env (WaitForTimeout 5000) ?st] =>
        destruct (throws env (WaitForTimeout 5000) st)
    end; exists []; reflexivity.
  - rewrite (Hno i) by lia.
    match goal with
    | |- context [acceptInFrames env (S i) n ?st] =>
        destruct (IH (S i) st) as (earlier & E); [lia|lia|]
    end.
    rewrite E; exists (earlier ++ [Query (Some i) accept_button])%list.
    cbn [trace]; rewrite <- !app_assoc; reflexivity.
Qed.

(** Behind a cookie wall with the first accept button in frame [k], the
    lookup in frame [k] is followed by the click and the delay. *)
Lemma bypassConsentWall_clicks pageContent k s :
  shows_consent_wall pageContent = true -> button_in_frame env k ->
  exists later earlier,
    trace (snd (bypassConsentWall env pageContent s))
    = (later ++ [WaitForTimeout 5000; Click; Query (Some k) accept_button]
       ++ earlier ++ trace s)%list.
Proof.
  intros Hw Hb; unfold bypassConsentWall; rewrite Hw.
  unfold bind at 1, console.
  set (s1 := MkState (doc s) (Console "🛡️  Consent wall detected. Bypassing..." :: trace s)).
  unfold try_catch.
  change (bind (get (frames env)) (fun n => acceptInFrames env 0 n) s1)
    with (acceptInFrames env 0 (frames env s1) s1).
  destruct (acceptInFrames_clicks k (frames env s1) Hb 0 s1) as (earlier & E);
    [lia|apply Hb|].
  destruct (acceptInFrames env 0 (frames env s1) s1) as [[u|e] s2];
    cbn [snd] in E |- *.
  - exists [], (earlier ++ [Console "🛡️  Consent wall detected. Bypassing..."])%list.
    rewrite E; cbn [trace s1 app]; rewrite <- !app_assoc; reflexivity.
  - exists [Console "⚠️ Failed to handle consent wall..."],
           (earlier ++ [Console "🛡️  Consent wall detected. Bypassing..."])%list.
    cbn [console snd trace]; rewrite E; cbn [trace s1 app].
    rewrite <- !app_assoc; reflexivity.
Qed.

(** A completed barrier block read the page content, then made barrier
    steps only, among them the lookups that the content calls for and the
    clicks on the controls that are there. *)
Lemma handleBarriers_Ok s u s' :
  handleBarriers env s = (Ok u, s') ->
  exists shown between,
    trace shown = Content :: trace s
    /\ trace s' = (between ++ trace shown)%list
    /\ forallb is_barrier_step between = true
    /\ (shows_app_redirect (page_content env shown) = true ->
        In (Query None browser_link) between)
    /\ (shows_consent_wall (page_content env shown) = true ->
        (forall st, 0 < frames env st) ->
        In (Query (Some 0) accept_button) between)
    /\ (shows_app_redirect (page_content env shown) = true ->
        link_present env ->
        clicked_after (Query None browser_link) between)
    /\ (shows_consent_wall (page_content env shown) = true ->
        forall k, button_in_frame env k ->
        clicked_after (Query (Some k) accept_button) between).
Proof.
  unfold handleBarriers; intros H.
  apply bind_Ok in H; destruct H as (pageContent & shown & H1 & H).
  assert (Hpc : pageContent = page_content env shown).
  { apply bind_Ok in H1; destruct H1 as (u1 & s1 & _ & H1); now injection H1 as <- <-. }
  apply content_Ok in H1; subst pageContent.
  set (pageContent := page_content env shown) in *.
  assert (Hc : counts (fun e => negb (is_barrier_step e)) 0
                 (bind (bypassAppRedirect env pageContent)
                    (fun _ => bypassConsentWall env pageContent))).
  { apply (counts_bind _ _ _ 0 0);
      [now apply bypassAppRedirect_counts
      |intros; now apply bypassConsentWall_counts]. }
  destruct (counts_run _ _ _ _ _ _ Hc H) as (between & Ht & Hle).
  assert (Hs2 : exists u2 s2 n1 n2,
             bypassAppRedirect env pageContent shown = (Ok u2, s2)
             /\ trace s2 = (n1 ++ trace shown)%list
             /\ trace (snd (bypassConsentWall env pageContent s2)) = trace s'
             /\ between = (n2 ++ n1)%list
             /\ trace s' = (n2 ++ trace s2)%list).
  { pose proof H as H'.
    apply bind_Ok in H'; destruct H' as (u2 & s2 & H2 & H').
    destruct (counts_run (fun _ => false) 0 _ _ _ _
                (bypassAppRedirect_counts env _ pageContent eq_refl
                   (fun _ => eq_refl) (fun _ _ => eq_refl) (fun _ => eq_refl)) H2)
      as (n1 & T1 & _).
    destruct (counts_run (fun _ => false) 0 _ _ _ _
                (bypassConsentWall_counts env _ pageContent eq_refl
                   (fun _ => eq_refl) (fun _ _ => eq_refl) (fun _ => eq_refl)) H')
      as (n2 & T2 & _).
    exists u2, s2, n1, n2; repeat split; [exact H2|exact T1|now rewrite H'| |exact T2].
    rewrite T2, T1, app_assoc in Ht; now apply app_inv_tail in Ht. }
  destruct Hs2 as (u2 & s2 & n1 & n2 & H2 & T1 & Hsnd & Hb & T2).
  exists shown, between.
  split; [exact H1|]; split; [exact Ht|]; split; [now apply only_barrier_steps|].
  split; [|split; [|split]].
  - intros Hr.
    destruct (bypassAppRedirect_looks_up pageContent shown Hr) as (m1 & M1 & I1).
    rewrite H2 in M1; cbn [snd] in M1.
    rewrite M1 in T1; apply app_inv_tail in T1; subst m1.
    rewrite Hb, in_app_iff; now right.
  - intros Hw Hf.
    destruct (bypassConsentWall_looks_up pageContent s2 Hw Hf) as (m2 & M2 & I2).
    rewrite Hsnd, T2 in M2; apply app_inv_tail in M2; subst m2.
    rewrite Hb, in_app_iff; now left.
  - intros Hr Hl.
    destruct (bypassAppRedirect_clicks pageContent shown Hr Hl) as (later & earlier & M1).
    rewrite H2 in M1; cbn [snd] in M1.
    rewrite T1, !app_assoc in M1; apply app_inv_tail in M1.
    exists (n2 ++ later)%list, earlier.
    rewrite Hb, M1, <- !app_assoc; reflexivity.
  - intros Hw k Hk.
    destruct (bypassConsentWall_clicks pageContent k s2 Hw Hk) as (later & earlier & M2).
    rewrite Hsnd, T2, !app_assoc in M2; apply app_inv_tail in M2.
    exists later, (earlier ++ n1)%list.
    rewrite Hb, M2, <- !app_assoc; reflexivity.
Qed.

(** The calls of a fetch up to the title, when they all returned. *)
Lemma navigation_Ok (url : string) (settle : Z) {A} (rest : string -> Prog A) s a s' :
  bind (openPage env) (fun _ =>
    bind (call env (Goto url 30000)) (fun _ =>
      bind (waitForTimeout env settle) (fun _ =>
        bind (handleBarriers env) (fun _ =>
          bind (Run.title env) rest)))) s = (Ok a, s') ->
  exists before shown between pageTitle s1,
    trace shown = ([Content; WaitForTimeout settle; Goto url 30000]
                   ++ before ++ trace s)%list
    /\ trace s1 = ([Title] ++ between ++ trace shown)%list
    /\ forallb is_barrier_step between = true
    /\ (shows_app_redirect (page_content env shown) = true ->
        In (Query None browser_link) between)
    /\ (shows_consent_wall (page_content env shown) = true ->
        (forall st, 0 < frames env st) ->
        In (Query (Some 0) accept_button) between)
    /\ (shows_app_redirect (page_content env shown) = true ->
        link_present env ->
        clicked_after (Query None browser_link) between)
    /\ (shows_consent_wall (page_content env shown) = true ->
        forall k, button_in_frame env k ->
        clicked_after (Query (Some k) accept_button) between)
    /\ rest pageTitle s1 = (Ok a, s').
Proof.
  intros H.
  apply bind_Ok in H; destruct H as (u1 & s1 & H1 & H).
  apply bind_Ok in H; destruct H as (u2 & s2 & H2 & H).
  apply bind_Ok in H; destruct H as (u3 & s3 & H3 & H).
  apply bind_Ok in H; destruct H as (u4 & s4 & H4 & H).
  apply bind_Ok in H; destruct H as (pageTitle & s5 & H5 & H).
  destruct (counts_run (fun _ => false) 0 _ _ _ _
              (openPage_counts env _ eq_refl eq_refl) H1) as (before & Hb & _).
  apply (call_Ok env) in H2; apply (call_Ok env) in H3.
  apply handleBarriers_Ok in H4.
  destruct H4 as (shown & between & Hc & H4 & Hs & Hr & Hw & Hrc & Hwc).
  apply title_Ok in H5.
  exists before, shown, between, pageTitle, s5.
  repeat split; [|now rewrite H5, H4|exact Hs|exact Hr|exact Hw|exact Hrc|exact Hwc|exact H].
  rewrite Hc, H3, H2, Hb; reflexivity.
Qed.

Lemma launch_Ok {A} (url : string) (headless : bool) (body : Prog A) s a s' :
  bind (hasAuthSession env) (fun session =>
    if negb session then throw no_session_error
    else bind (call env (Launch headless))
           (fun _ => try_finally body (call env Close))) s = (Ok a, s') ->
  exists s1 s2,
    trace s1 = Launch headless :: trace s
    /\ body s1 = (Ok a, s2)
    /\ trace s' = Close :: trace s2.
Proof.
  intros H; apply bind_Ok in H; destruct H as (session & s0 & H0 & H).
  injection H0 as <- <-.
  destruct (profile_exists env s); [|discriminate]; simpl in H.
  apply bind_Ok in H; destruct H as (u & s1 & H1 & H).
  apply (call_Ok env) in H1.
  apply try_finally_Ok in H; destruct H as (s2 & u2 & H2 & H3).
  apply (call_Ok env) in H3; eauto.
Qed.

Lemma fetchAuthenticated_Ok (url : string) (headless : bool) s result s' :
  fetchAuthenticated env url headless s = (Ok result, s') ->
  fetch_shape env url 2000 s s' [Close; Evaluate ReadBodyText].
Proof.
  intros H; apply (launch_Ok url) in H; destruct H as (s1 & s2 & H1 & H & H3).
  apply navigation_Ok in H.
  destruct H as (before & shown & between & pageTitle & s3 & Hc & Ht & Hs & Hr & Hw
                 & Hrc & Hwc & H).
  apply bind_Ok in H; destruct H as (text & s4 & H4 & H).
  apply (evaluate_Ok env) in H4; injection H as _ <-.
  exists (before ++ [Launch headless])%list, shown, between.
  split; [|split; [now rewrite H3, H4, Ht|]];
    [|split; [exact Hs|]; split; [exact Hr|]; split; [exact Hw|];
      split; [exact Hrc|exact Hwc]].
  rewrite Hc, H1; simpl; rewrite <- app_assoc; reflexivity.
Qed.

Lemma fetchWithExtractor_Ok (url : string) (f : Extractor) (headless : bool)
  s result s' :
  fetchWithExtractor env url (invoke env f) headless s = (Ok result, s') ->
  exists after, fetch_shape env url 5000 s s' after.
Proof.
  intros H; apply (launch_Ok url) in H; destruct H as (s1 & s2 & H1 & H & H3).
  apply navigation_Ok in H.
  destruct H as (before & shown & between & pageTitle & s3 & Hc & Ht & Hs & Hr & Hw
                 & Hrc & Hwc & H).
  apply bind_Ok in H; destruct H as (u & s4 & H4 & H).
  apply console_Ok in H4.
  apply bind_Ok in H; destruct H as (text & s5 & H5 & H).
  injection H as _ <-.
  destruct (counts_run _ _ _ _ _ _ (invoke_keeps_context env f) H5) as (post & Hp & _).
  exists (Close :: post ++ [Console ("🌐 (Extractor) Loaded: " ++ url)])%list,
         (before ++ [Launch headless])%list, shown, between.
  split; [|split];
    [| |split; [exact Hs|]; split; [exact Hr|]; split; [exact Hw|];
        split; [exact Hrc|exact Hwc]].
  - rewrite Hc, H1; simpl; rewrite <- app_assoc; reflexivity.
  - rewrite H3, Hp, H4, Ht; simpl; rewrite <- app_assoc; reflexivity.
Qed.

End FetchReturns.

(** C3, as the code has it.  Barrier handling runs on both paths.  In every
    traverse_resource call that returns content, raw or not and whatever
    the service, the calls made are: navigation, the settle delay (2000 ms
    on the raw path, 5000 ms with an extractor), the read of the page
    content, barrier steps only (control lookups, a click, the delay after
    it, console lines), and then the title and the extraction; on the raw
    path the extraction is the body-text script, followed by the close.
    When the content read shows the app-redirect screen, the link that
    continues in the browser is looked up and, when it is there, clicked,
    with the delay of 5000 ms after the click.  When the content shows the
    cookie wall, the accept button is looked up frame by frame from the
    first frame, and the first one found is clicked, again with the
    delay. *)
Theorem barriers_handled_on_both_paths (env : Run.Env) (u : option string)
  (raw : option bool) (s s' : Run.State) (answer : Server.ToolResult) :
  Server.traverse_resource env u raw s = (Run.Ok answer, s') ->
  Server.isError answer = false ->
  exists url settle before shown between after,
    u = Some url
    /\ Run.trace shown =
         ([Run.Content; Run.WaitForTimeout settle; Run.Goto url 30000]
          ++ before ++ Run.trace s)%list
    /\ Run.trace s' = (after ++ [Run.Title] ++ between ++ Run.trace shown)%list
    /\ forallb Trace.is_barrier_step between = true
    /\ (Browser.shows_app_redirect (Run.page_content env shown) = true ->
        In (Run.Query None Browser.browser_link) between)
    /\ (Browser.shows_consent_wall (Run.page_content env shown) = true ->
        (forall st, 0 < Run.frames env st) ->
        In (Run.Query (Some 0) Browser.accept_button) between)
    /\ (Browser.shows_app_redirect (Run.page_content env shown) = true ->
        Trace.link_present env ->
        exists later earlier,
          between =
            (later
             ++ [Run.WaitForTimeout 5000; Run.Click;
                 Run.Query None Browser.browser_link]
             ++ earlier)%list)
    /\ (Browser.shows_consent_wall (Run.page_content env shown) = true ->
        forall k, Trace.button_in_frame env k ->
        exists later earlier,
          between =
            (later
             ++ [Run.WaitForTimeout 5000; Run.Click;
                 Run.Query (Some k) Browser.accept_button]
             ++ earlier)%list)
    /\ (Server.raw_requested raw
        || negb (Extractors.is_some (Detect.detectService url)) = true ->
        settle = 2000%Z /\ after = [Run.Close; Run.Evaluate Run.ReadBodyText])
    /\ (Server.raw_requested raw
        || negb (Extractors.is_some (Detect.detectService url)) = false ->
        settle = 5000%Z).
Proof.
  intros H He.
  destruct (traverse_resource_success env u raw s answer s' H He)
    as (url & result & -> & Hf & _).
  unfold Server.fetch in Hf.
  destruct (Server.raw_requested raw
            || negb (Extractors.is_some (Detect.detectService url))) eqn:E.
  - apply fetchAuthenticated_Ok in Hf.
    destruct Hf as (before & shown & between & Hc & Ht & Hs & Hr & Hw & Hrc & Hwc).
    exists url, 2000%Z, before, shown, between, [Run.Close; Run.Evaluate Run.ReadBodyText].
    split; [reflexivity|]; split; [exact Hc|]; split; [exact Ht|].
    split; [exact Hs|]; split; [exact Hr|]; split; [exact Hw|].
    split; [exact Hrc|]; split; [exact Hwc|].
    split; [intros _; split; reflexivity|intros E'; rewrite E in E'; discriminate].
  - apply fetchWithExtractor_Ok in Hf.
    destruct Hf as (after & before & shown & between & Hc & Ht & Hs & Hr & Hw
                    & Hrc & Hwc).
    exists url, 5000%Z, before, shown, between, after.
    split; [reflexivity|]; split; [exact Hc|]; split; [exact Ht|].
    split; [exact Hs|]; split; [exact Hr|]; split; [exact Hw|].
    split; [exact Hrc|]; split; [exact Hwc|].
    split; [intros E'; rewrite E in E'; discriminate|reflexivity].
Qed.

Lemma barriers_handled_on_both_paths_witness :
  exists url settle before shown between after,
    Some "https://example.com/page" = Some url
    /\ Run.trace shown =
         ([Run.Content; Run.WaitForTimeout settle; Run.Goto url 30000]
          ++ before ++ Run.trace (Examples.fresh Examples.article_page))%list
    /\ Run.trace
         (snd (Server.traverse_resource Examples.cookie_wall
                 (Some "https://example.com/page") (Some true)
                 (Examples.fresh Examples.article_page))) =
         (after ++ [Run.Title] ++ between ++ Run.trace shown)%list
    /\ forallb Trace.is_barrier_step between = true
    /\ (Browser.shows_app_redirect (Run.page_content Examples.cookie_wall shown) = true ->
        In (Run.Query None Browser.browser_link) between)
    /\ (Browser.shows_consent_wall (Run.page_content Examples.cookie_wall shown) = true ->
        (forall st, 0 < Run.frames Examples.cookie_wall st) ->
        In (Run.Query (Some 0) Browser.accept_button) between)
    /\ (Browser.shows_app_redirect (Run.page_content Examples.cookie_wall shown) = true ->
        Trace.link_present Examples.cookie_wall ->
        exists later earlier,
          between =
            (later
             ++ [Run.WaitForTimeout 5000; Run.Click;
                 Run.Query None Browser.browser_link]
             ++ earlier)%list)
    /\ (Browser.shows_consent_wall (Run.page_content Examples.cookie_wall shown) = true ->
        forall k, Trace.button_in_frame Examples.cookie_wall k ->
        exists later earlier,
          between =
            (later
             ++ [Run.WaitForTimeout 5000; Run.Click;
                 Run.Query (Some k) Browser.accept_button]
             ++ earlier)%list)
    /\ (Server.raw_requested (Some true)
        || negb (Extractors.is_some (Detect.detectService url)) = true ->
        settle = 2000%Z /\ after = [Run.Close; Run.Evaluate Run.ReadBodyText])
    /\ (Server.raw_requested (Some true)
        || negb (Extractors.is_some (Detect.detectService url)) = false ->
        settle = 5000%Z).
Proof.
  apply (barriers_handled_on_both_paths Examples.cookie_wall
           (Some "https://example.com/page") (Some true)
           (Examples.fresh Examples.article_page) _
           (Server.MkToolResult
              (Server.lines [ "# Example"; EmptyString;
                              "**Source:** https://example.com/page";
                              EmptyString; "---"; EmptyString; "AB" ]) false)).
  - vm_compute; reflexivity.
  - reflexivity.
Defined.

(** A raw traversal of a page behind a cookie wall: between the navigation
    and the extraction the accept button is looked up in the first frame
    and clicked. *)
Lemma raw_traversal_handles_barrier :
  Run.trace
    (snd (Server.callTool Examples.cookie_wall
            (Server.MkRequest "traverse_resource" (Some "https://example.com/page")
               (Some true))
            (Examples.fresh Examples.article_page)))
  = [ Run.Close; Run.Evaluate Run.ReadBodyText; Run.Title;
      Run.WaitForTimeout 5000; Run.Click;
      Run.Query (Some 0) Browser.accept_button;
      Run.Console "🛡️  Consent wall detected. Bypassing...";
      Run.Content; Run.WaitForTimeout 2000;
      Run.Goto "https://example.com/page" 30000;
      Run.AddInitScript; Run.Launch true ]
  /\ Server.raw_requested (Some true) = true
  /\ Detect.detectService "https://example.com/page" = None.
Proof. repeat split; vm_compute; reflexivity. Qed.

(** The browsers of the examples meet the conditions under which a control
    is clicked: the accept button of [Examples.cookie_wall] sits in the
    first frame, the link of [Scenarios.app_redirect] is on the page. *)
Example controls_of_the_examples :
  Trace.button_in_frame Examples.cookie_wall 0
  /\ Trace.link_present Scenarios.app_redirect.
Proof.
  repeat split; intros; try reflexivity; simpl; lia.
Qed.

(** A raw traversal of the app-redirect screen: the link is looked up and
    clicked before the title is read. *)
Example raw_traversal_follows_the_link :
  Run.trace
    (snd (Server.callTool Scenarios.app_redirect
            (Server.MkRequest "traverse_resource"
               (Some "https://app.slack.com/client/T1/C2") (Some true))
            (Examples.fresh Examples.article_page)))
  = [ Run.Close; Run.Evaluate Run.ReadBodyText; Run.Title;
      Run.WaitForTimeout 5000; Run.Click;
      Run.Query None Browser.browser_link;
      Run.Console "🔗 Slack redirect detected. Forcing browser mode...";
      Run.Content; Run.WaitForTimeout 2000;
      Run.Goto "https://app.slack.com/client/T1/C2" 30000;
      Run.AddInitScript; Run.Launch true ].
Proof. vm_compute; reflexivity. Qed.

(** ** The fallback of an empty extraction *)
Section StillPage.
Import Run Trace Extractors.
Variable env : Env.
Hypothesis Hstill : still env.

Lemma still_call ev s :
  call env ev s = (Ok tt, MkState (doc s) (ev :: trace s)).
Proof.
  destruct Hstill as [Ht Hr]; unfold call; now rewrite Ht, Hr.
Qed.

Lemma still_ignore_call ev s :
  ignore_errors (call env ev) s = (Ok tt, MkState (doc s) (ev :: trace s)).
Proof. unfold ignore_errors, try_catch; now rewrite still_call. Qed.

Lemma still_evaluate {A} label (f : Dom.document -> result A * Dom.document) s :
  evaluate env label f s
  = (fst (f (doc s)), MkState (snd (f (doc s))) (Evaluate label :: trace s)).
Proof.
  unfold evaluate, bind; rewrite still_call; simpl.
  now destruct (f (doc s)).
Qed.

Lemma still_scrollWalk n candidates pause s :
  exists t, scrollWalk env n candidates pause s = (Ok tt, MkState (doc s) t).
Proof.
  unfold scrollWalk; revert s; induction n as [|n IH]; intros s; simpl.
  - exists (trace s); now destruct s.
  - unfold bind at 1 2; rewrite still_evaluate; simpl.
    unfold waitForTimeout; rewrite still_call; simpl.
    destruct (IH (MkState (doc s)
                    (WaitForTimeout pause :: Evaluate (ScrollToTop candidates) :: trace s)))
      as (t & Ht).
    exists t; exact Ht.
Qed.

(** On a still page the generic extractor returns what its script computes
    from the document, whatever was called before. *)
Lemma still_generic d t :
  fst (extractGeneric env (MkState d t)) = fst (genericScript env d).
Proof. unfold extractGeneric; now rewrite still_evaluate. Qed.

Lemma still_readChatGPT d t :
  exists t', readChatGPT env (MkState d t) = (fst (chatgptScript env d), MkState d t').
Proof.
  unfold readChatGPT, waitForSelector, bind at 1; rewrite still_ignore_call.
  unfold bind at 1; simpl.
  match goal with
  | |- context [bind (scrollWalk env ?n ?c ?p) _ ?s] =>
      destruct (still_scrollWalk n c p s) as (t1 & H1)
  end.
  unfold bind at 1; rewrite H1, still_evaluate; simpl; eauto.
Qed.

Lemma still_readSlack d t :
  exists t', readSlack env (MkState d t) = (fst (slackScript env d), MkState d t').
Proof.
  unfold readSlack, waitForSelector, bind at 1; rewrite still_ignore_call.
  unfold bind at 1; simpl.
  match goal with
  | |- context [bind (scrollWalk env ?n ?c ?p) _ ?s] =>
      destruct (still_scrollWalk n c p s) as (t1 & H1)
  end.
  unfold bind at 1; rewrite H1, still_evaluate; simpl; eauto.
Qed.

Lemma still_readDiscord d t :
  exists t', readDiscord env (MkState d t) = (fst (discordScript env d), MkState d t').
Proof.
  unfold readDiscord, waitForSelector, bind at 1; rewrite still_ignore_call.
  rewrite still_evaluate; simpl; eauto.
Qed.

Lemma still_readRaindrop d t :
  exists t', readRaindrop env (MkState d t) = (fst (raindropScript env d), MkState d t').
Proof.
  unfold readRaindrop, waitForSelector, bind at 1; rewrite still_ignore_call.
  rewrite still_evaluate; simpl; eauto.
Qed.

Lemma googleDocScript_keeps d : snd (googleDocScript env d) = d.
Proof.
  unfold googleDocScript; destruct (Dom.querySelector _ d); [reflexivity|].
  now destruct (0 <? _)%nat.
Qed.

Lemma still_readGoogleDoc d t :
  exists t', readGoogleDoc env (MkState d t) = (fst (googleDocScript env d), MkState d t').
Proof.
  unfold readGoogleDoc, waitForSelector, waitForTimeout, bind at 1.
  rewrite still_ignore_call.
  unfold bind at 1; rewrite still_call, still_evaluate; simpl.
  rewrite googleDocScript_keeps; eauto.
Qed.

End StillPage.

(** C1, as the code has it.  When the read stage of the ChatGPT, Slack,
    Discord or Raindrop extractor returns no fragment, or that of the
    Google Docs extractor an empty text, the extractor is the generic
    extractor run on the page as the read stage left it; on a page that
    stays as it is, with a browser whose calls do not fail, the extractor
    then returns what the generic extractor returns on that same page.
    The Gemini, Grok and NotebookLM extractors instead run their own script
    after an empty read: the text of [main], or of the body, read without
    the generic extractor's removals and landmarks (NotebookLM: of a clone
    stripped of navigation, header and buttons). *)
Theorem empty_extraction_fallback (env : Run.Env) (s s1 : Run.State) :
  (Extractors.readChatGPT env s = (Run.Ok [], s1) ->
   Extractors.extractChatGPT env s = Extractors.extractGeneric env s1)
  /\ (Extractors.readSlack env s = (Run.Ok [], s1) ->
      Extractors.extractSlack env s = Extractors.extractGeneric env s1)
  /\ (Extractors.readDiscord env s = (Run.Ok [], s1) ->
      Extractors.extractDiscord env s = Extractors.extractGeneric env s1)
  /\ (Extractors.readRaindrop env s = (Run.Ok [], s1) ->
      Extractors.extractRaindrop env s = Extractors.extractGeneric env s1)
  /\ (Extractors.readGoogleDoc env s = (Run.Ok EmptyString, s1) ->
      Extractors.extractGoogleDoc env s = Extractors.extractGeneric env s1)
  /\ (Extractors.readGeminiChat env s = (Run.Ok [], s1) ->
      Extractors.extractGeminiChat env s
      = Run.evaluate env (Run.ReadMainText Detect.gemini)
          (Extractors.mainTextScript env) s1)
  /\ (Extractors.readGrok env s = (Run.Ok [], s1) ->
      Extractors.extractGrok env s
      = Run.evaluate env (Run.ReadMainText Detect.grok)
          (Extractors.mainTextScript env) s1)
  /\ (Extractors.readNotebookLM env s = (Run.Ok [], s1) ->
      Extractors.extractNotebookLM env s
      = Run.evaluate env (Run.ReadMainText Detect.notebookLM)
          (Extractors.notebookMainScript env) s1)
  /\ (Trace.still env ->
      forall d t,
        (fst (Extractors.chatgptScript env d) = Run.Ok [] ->
         fst (Extractors.extractChatGPT env (Run.MkState d t))
         = fst (Extractors.extractGeneric env (Run.MkState d t)))
        /\ (fst (Extractors.slackScript env d) = Run.Ok [] ->
            fst (Extractors.extractSlack env (Run.MkState d t))
            = fst (Extractors.extractGeneric env (Run.MkState d t)))
        /\ (fst (Extractors.discordScript env d) = Run.Ok [] ->
            fst (Extractors.extractDiscord env (Run.MkState d t))
            = fst (Extractors.extractGeneric env (Run.MkState d t)))
        /\ (fst (Extractors.raindropScript env d) = Run.Ok [] ->
            fst (Extractors.extractRaindrop env (Run.MkState d t))
            = fst (Extractors.extractGeneric env (Run.MkState d t)))
        /\ (fst (Extractors.googleDocScript env d) = Run.Ok EmptyString ->
            fst (Extractors.extractGoogleDoc env (Run.MkState d t))
            = fst (Extractors.extractGeneric env (Run.MkState d t)))).
Proof.
  unfold Extractors.extractChatGPT, Extractors.extractSlack,
    Extractors.extractDiscord, Extractors.extractRaindrop,
    Extractors.extractGoogleDoc, Extractors.extractGeminiChat,
    Extractors.extractGrok, Extractors.extractNotebookLM.
  do 8 (split; [intros H; unfold Run.bind at 1; rewrite H; reflexivity|]).
  intros Hs d t; repeat split; intros H.
  - destruct (still_readChatGPT env Hs d t) as (t' & R).
    unfold Run.bind; rewrite R, H; simpl.
    now rewrite !still_generic.
  - destruct (still_readSlack env Hs d t) as (t' & R).
    unfold Run.bind; rewrite R, H; simpl.
    now rewrite !still_generic.
  - destruct (still_readDiscord env Hs d t) as (t' & R).
    unfold Run.bind; rewrite R, H; simpl.
    now rewrite !still_generic.
  - destruct (still_readRaindrop env Hs d t) as (t' & R).
    unfold Run.bind; rewrite R, H; simpl.
    now rewrite !still_generic.
  - destruct (still_readGoogleDoc env Hs d t) as (t' & R).
    unfold Run.bind; rewrite R, H; simpl.
    now rewrite !still_generic.
Qed.

Lemma empty_extraction_fallback_witness :
  Extractors.extractDiscord Examples.quiet (Examples.fresh Examples.article_page)
  = Extractors.extractGeneric Examples.quiet
      (Run.MkState Examples.article_page
         [ Run.Evaluate (Run.ReadFragments Detect.discord);
           Run.WaitForSelector [[Dom.AttrIs "role" "list"]] 15000 ])
  /\ fst (Extractors.extractChatGPT Examples.quiet
            (Run.MkState Examples.article_page []))
     = fst (Extractors.extractGeneric Examples.quiet
              (Run.MkState Examples.article_page [])).
Proof.
  split.
  - apply (proj1 (proj2 (proj2 (empty_extraction_fallback Examples.quiet
                                  (Examples.fresh Examples.article_page) _)))).
    vm_compute; reflexivity.
  - destruct (empty_extraction_fallback Examples.quiet
                (Examples.fresh Examples.article_page)
                (Examples.fresh Examples.article_page))
      as (_ & _ & _ & _ & _ & _ & _ & _ & H).
    apply (H (conj (fun _ _ => eq_refl) (fun _ _ => eq_refl)) Examples.article_page []).
    vm_compute; reflexivity.
Defined.

(** On a page with an [article] beside other text and no fragment for
    Gemini, the Gemini extractor returns the text of the whole body, the
    generic extractor that of the article; on a page whose [main] holds a
    [nav], Gemini keeps the navigation text that the generic extractor
    removes. *)
Lemma gemini_fallback_is_not_generic :
  Extractors.readGeminiChat Examples.quiet (Examples.fresh Examples.article_page)
  = (Run.Ok [],
     Run.MkState Examples.article_page
       [ Run.Evaluate (Run.ReadFragments Detect.gemini);
         Run.WaitForSelector [[Dom.HasAttr "data-message-id"]] 10000 ])
  /\ fst (Extractors.extractGeminiChat Examples.quiet
            (Examples.fresh Examples.article_page)) = Run.Ok "AB"
  /\ fst (Extractors.extractGeneric Examples.quiet
            (Run.MkState Examples.article_page
               [ Run.Evaluate (Run.ReadFragments Detect.gemini);
                 Run.WaitForSelector [[Dom.HasAttr "data-message-id"]] 10000 ]))
     = Run.Ok "A"
  /\ fst (Extractors.extractGeneric Examples.quiet
            (Examples.fresh Examples.article_page)) = Run.Ok "A"
  /\ fst (Extractors.extractGeminiChat Examples.quiet
            (Examples.fresh Examples.nav_page)) = Run.Ok "MenuHello"
  /\ fst (Extractors.extractGeneric Examples.quiet
            (Examples.fresh Examples.nav_page)) = Run.Ok "Hello"
  /\ fst (Extractors.extractGeminiChat Examples.quiet
            (Examples.fresh Examples.article_page))
     <> fst (Extractors.extractGeneric Examples.quiet
               (Examples.fresh Examples.article_page)).
Proof.
  repeat split; try (vm_compute; reflexivity).
  vm_compute; discriminate.
Qed.

(** ** Weighing runs *)
Section CostLogic.
Import Run Trace Cost.
Variable w : event -> Z.
Hypothesis w_nonneg : forall e, (0 <= w e)%Z.

Lemma weight_app l1 l2 : weight w (l1 ++ l2) = (weight w l1 + weight w l2)%Z.
Proof. induction l1 as [|e l1 IH]; simpl; [reflexivity|rewrite IH; lia]. Qed.

Lemma weight_nonneg l : (0 <= weight w l)%Z.
Proof.
  induction l as [|e l IH]; simpl; [lia|].
  generalize (w_nonneg e); lia.
Qed.

Lemma spends_weaken {A} (m : Prog A) lo hi lo' hi' :
  spends w lo hi m -> (lo' <= lo)%Z -> (hi <= hi')%Z -> spends w lo' hi' m.
Proof.
  intros H Hlo Hhi s; destruct (H s) as (new & Ha & Hle & Hge).
  exists new; repeat split; [exact Ha|lia|].
  intros a Hok; specialize (Hge a Hok); lia.
Qed.

Lemma spends_ret {A} (a : A) : spends w 0 0 (ret a).
Proof. intros s; exists []; repeat split; simpl; intros; lia. Qed.

Lemma spends_throw {A} (e : string) : spends w 0 0 (@throw A e).
Proof. intros s; exists []; repeat split; simpl; intros; lia. Qed.

Lemma spends_get {A} (f : State -> A) : spends w 0 0 (get f).
Proof. intros s; exists []; repeat split; simpl; intros; lia. Qed.

Lemma spends_console (line : string) :
  spends w (w (Console line)) (w (Console line)) (console line).
Proof. intros s; exists [Console line]; repeat split; simpl; intros; lia. Qed.

Lemma spends_call env (ev : event) : spends w (w ev) (w ev) (call env ev).
Proof.
  intros s; exists [ev]; unfold adds, call.
  destruct (throws env ev s); repeat split; simpl; intros; lia.
Qed.

Lemma spends_bind {A B} (m : Prog A) (k : A -> Prog B) lo1 hi1 lo2 hi2 :
  spends w lo1 hi1 m -> (forall a, spends w lo2 hi2 (k a)) -> (0 <= hi2)%Z ->
  spends w (lo1 + lo2) (hi1 + hi2) (bind m k).
Proof.
  intros Hm Hk Hhi s; destruct (Hm s) as (new1 & A1 & L1 & G1).
  unfold adds, bind in *; destruct (m s) as [[a|e] s1]; simpl in *.
  - destruct (Hk a s1) as (new2 & A2 & L2 & G2); unfold adds in A2.
    exists (new2 ++ new1)%list; rewrite weight_app, A2, A1, app_assoc.
    specialize (G1 a eq_refl); repeat split; [lia|].
    intros b Hb; specialize (G2 b Hb); lia.
  - exists new1; repeat split; [exact A1|lia|discriminate].
Qed.

Lemma spends_try_catch {A} (m : Prog A) (h : string -> Prog A) lo lo1 hi1 lo2 hi2 :
  spends w lo1 hi1 m -> (forall e, spends w lo2 hi2 (h e)) ->
  (lo <= lo1)%Z -> (lo <= lo2)%Z -> (0 <= hi2)%Z ->
  spends w lo (hi1 + hi2) (try_catch m h).
Proof.
  intros Hm Hh H1 H2 Hhi s; destruct (Hm s) as (new1 & A1 & L1 & G1).
  unfold adds, try_catch in *; destruct (m s) as [[a|e] s1]; simpl in *.
  - exists new1; specialize (G1 a eq_refl).
    repeat split; [exact A1|lia|intros; lia].
  - destruct (Hh e s1) as (new2 & A2 & L2 & G2); unfold adds in A2.
    exists (new2 ++ new1)%list; rewrite weight_app, A2, A1, app_assoc.
    generalize (weight_nonneg new1); intros N1.
    repeat split; [lia|].
    intros b Hb; specialize (G2 b Hb); lia.
Qed.

Lemma spends_try_finally {A} (m : Prog A) (f : Prog unit) lo1 hi1 lo2 hi2 :
  spends w lo1 hi1 m -> spends w lo2 hi2 f ->
  spends w (lo1 + lo2) (hi1 + hi2) (try_finally m f).
Proof.
  intros Hm Hf s; destruct (Hm s) as (new1 & A1 & L1 & G1).
  unfold adds, try_finally in *; destruct (m s) as [r s1]; simpl in *.
  destruct (Hf s1) as (new2 & A2 & L2 & G2); unfold adds in A2.
  exists (new2 ++ new1)%list; rewrite weight_app.
  destruct (f s1) as [[u|e] s2]; simpl in *; rewrite A2, A1, app_assoc.
  - repeat split; [lia|].
    intros a ->; specialize (G1 a eq_refl); specialize (G2 u eq_refl); lia.
  - repeat split; [lia|discriminate].
Qed.

Lemma spends_ignore_call env (ev : event) :
  spends w (w ev) (w ev) (ignore_errors (call env ev)).
Proof.
  intros s; exists [ev]; unfold adds, ignore_errors, try_catch, call, ret.
  destruct (throws env ev s); repeat split; simpl; intros; lia.
Qed.

Lemma spends_for_times (k : nat) (body : Prog unit) lo hi :
  spends w lo hi body -> (0 <= hi)%Z ->
  spends w (Z.of_nat k * lo) (Z.of_nat k * hi) (for_times k body).
Proof.
  intros H Hhi; induction k as [|k IH].
  - apply spends_ret.
  - cbn [for_times].
    eapply spends_weaken;
      [apply (spends_bind _ _ lo hi (Z.of_nat k * lo) (Z.of_nat k * hi));
         [exact H|intros _; exact IH|nia]
      |lia|lia].
Qed.

Lemma spends_evaluate {A} env (label : script)
  (f : Dom.document -> result A * Dom.document) :
  spends w (w (Evaluate label)) (w (Evaluate label)) (evaluate env label f).
Proof.
  intros s; exists [Evaluate label]; unfold adds, evaluate, bind, call.
  destruct (throws env (Evaluate label) s); simpl.
  - repeat split; simpl; intros; try lia; discriminate.
  - destruct (f _) as [r d]; repeat split; simpl; intros; lia.
Qed.

Lemma spends_content env : spends w (w Content) (w Content) (Run.content env).
Proof.
  intros s; exists [Content]; unfold adds, Run.content, bind, call, get.
  destruct (throws env Content s); repeat split; simpl; intros; lia.
Qed.

Lemma spends_title env : spends w (w Title) (w Title) (Run.title env).
Proof.
  intros s; exists [Title]; unfold adds, Run.title, bind, call, get.
  destruct (throws env Title s); repeat split; simpl; intros; lia.
Qed.

Lemma spends_query env frame alternatives :
  spends w (w (Query frame alternatives)) (w (Query frame alternatives))
    (query env frame alternatives).
Proof.
  intros s; exists [Query frame alternatives]; unfold adds, query, bind, call, get.
  destruct (throws env _ s); repeat split; simpl; intros; lia.
Qed.

(** What a run called, from its weight bounds. *)
Lemma spends_run {A} (m : Prog A) lo hi s r s1 :
  spends w lo hi m -> m s = (r, s1) ->
  exists new, trace s1 = (new ++ trace s)%list /\ (weight w new <= hi)%Z
              /\ (forall a, r = Ok a -> (lo <= weight w new)%Z).
Proof.
  intros H Hm; destruct (H s) as (new & Ha & Hle & Hge).
  unfold adds in Ha; rewrite Hm in Ha, Hge; eauto.
Qed.

End CostLogic.

Lemma one_nonneg p e : (0 <= Cost.one p e)%Z.
Proof. unfold Cost.one; destruct (p e); lia. Qed.

Lemma delay_nonneg e : (0 <= Cost.delay_ms e)%Z.
Proof. destruct e; simpl; lia. Qed.

Ltac closed_le := vm_compute; let H := fresh in intro H; discriminate H.

(** One rule of the weight logic, by the shape of the program. *)
Ltac spends_rule :=
  lazymatch goal with
  | |- Cost.spends _ _ _ (Run.bind _ _) => eapply spends_bind; [|intros|]
  | |- Cost.spends _ _ _ (Run.ret _) => apply spends_ret
  | |- Cost.spends _ _ _ (Run.throw _) => apply spends_throw
  | |- Cost.spends _ _ _ (Run.get _) => apply spends_get
  | |- Cost.spends _ _ _ (Run.console _) => apply spends_console
  | |- Cost.spends _ _ _ (Run.ignore_errors (Run.call _ _)) =>
      apply spends_ignore_call
  | |- Cost.spends _ _ _ (Run.call _ _) => apply spends_call
  | |- Cost.spends _ _ _ (Run.evaluate _ _ _) => apply spends_evaluate
  | |- Cost.spends _ _ _ (Run.content _) => apply spends_content
  | |- Cost.spends _ _ _ (Run.title _) => apply spends_title
  | |- Cost.spends _ _ _ (Run.query _ _ _) => apply spends_query
  | |- Cost.spends _ _ _ (Run.for_times _ _) => eapply spends_for_times
  | |- Cost.spends _ _ _ (if ?b then _ else _) => destruct b
  | |- (0 <= _)%Z => closed_le
  end.

Ltac spends_auto :=
  repeat first
    [ spends_rule
    | progress unfold Run.waitForTimeout, Run.waitForSelector, Run.click,
        Run.hasAuthSession ].

(** ** The fixed delays of the extractors *)
Section Delays.
Import Run Trace Cost Extractors.
Variable env : Env.

Lemma invoke_spends_fixed_delay (f : Extractor) :
  spends delay_ms (fixed_delay f) (fixed_delay f) (invoke env f).
Proof.
  destruct f; cbn [invoke];
    unfold extractGeminiChat, extractGoogleDoc, extractNotebookLM,
      extractChatGPT, extractGrok, extractDiscord, extractSlack,
      extractRaindrop, extractGeneric, readGeminiChat, readGoogleDoc,
      readNotebookLM, readChatGPT, readGrok, readDiscord, readSlack,
      readRaindrop, scrollWalk;
    (eapply spends_weaken; [spends_auto|closed_le|closed_le]).
Qed.

End Delays.

(** The extractors sleep a fixed time, whatever the page and the browser
    do: on every run at most the sum of their [waitForTimeout] arguments
    (ChatGPT 10000 ms, Grok 25000, Slack 12000, NotebookLM 8000, Google Docs
    3000, the others none), and exactly that sum when they return. *)
Theorem extractor_fixed_delay (env : Run.Env) (f : Extractors.Extractor) :
  Cost.spends Cost.delay_ms (Cost.fixed_delay f) (Cost.fixed_delay f)
    (Extractors.invoke env f).
Proof. apply invoke_spends_fixed_delay. Qed.

(** ** The weight of a barrier block and of a fetch *)
Section BarrierCost.
Import Run Trace Cost Browser.
Variable env : Env.
Variable w : event -> Z.
Hypothesis w_nonneg : forall e, (0 <= w e)%Z.
Hypothesis w_query : forall fr alt, w (Query fr alt) = 0%Z.
Hypothesis w_console : forall line, w (Console line) = 0%Z.
Hypothesis w_content : w Content = 0%Z.

(** The weight of one click and of the delay after it. *)
Let step : Z := (w Click + w (WaitForTimeout 5000))%Z.

Lemma step_nonneg : (0 <= step)%Z.
Proof.
  unfold step; generalize (w_nonneg Click) (w_nonneg (WaitForTimeout 5000)); lia.
Qed.

Lemma console_free line : spends w 0 0 (console line).
Proof. generalize (spends_console w line); now rewrite w_console. Qed.

Lemma query_free frame alternatives : spends w 0 0 (query env frame alternatives).
Proof. generalize (spends_query w env frame alternatives); now rewrite w_query. Qed.

Lemma click_then_wait_spends :
  spends w step step (bind (click env) (fun _ => waitForTimeout env 5000)).
Proof.
  apply spends_bind; [apply spends_call|intros; apply spends_call|apply w_nonneg].
Qed.

Lemma acceptInFrames_spends i n : spends w 0 step (acceptInFrames env i n).
Proof.
  generalize step_nonneg; intros Hs.
  revert i; induction n as [|n IH]; intros i; cbn [acceptInFrames].
  - eapply spends_weaken; [apply spends_ret|lia|lia].
  - eapply spends_weaken;
      [apply (spends_bind _ _ _ 0 0 0 step); [| |lia]|lia|lia].
    + apply query_free.
    + intros [|]; [|apply IH].
      eapply spends_weaken; [apply click_then_wait_spends|lia|lia].
Qed.

Lemma bypassAppRedirect_spends pageContent :
  spends w 0 step (bypassAppRedirect env pageContent).
Proof.
  generalize step_nonneg; intros Hs.
  unfold bypassAppRedirect; destruct (shows_app_redirect _).
  - eapply spends_weaken;
      [apply (spends_bind _ _ _ 0 0 0 (step + 0)); [| |lia]|lia|lia].
    + apply console_free.
    + intros _; apply (spends_try_catch _ w_nonneg _ _ 0 0 step 0 0); try lia.
      * eapply spends_weaken;
          [apply (spends_bind _ _ _ 0 0 0 step); [| |lia]|lia|lia].
        -- apply query_free.
        -- intros [|].
           ++ eapply spends_weaken; [apply click_then_wait_spends|lia|lia].
           ++ eapply spends_weaken; [apply spends_ret|lia|lia].
      * intros e; apply console_free.
  - eapply spends_weaken; [apply spends_ret|lia|lia].
Qed.

Lemma bypassConsentWall_spends pageContent :
  spends w 0 step (bypassConsentWall env pageContent).
Proof.
  generalize step_nonneg; intros Hs.
  unfold bypassConsentWall; destruct (shows_consent_wall _).
  - eapply spends_weaken;
      [apply (spends_bind _ _ _ 0 0 0 (step + 0)); [| |lia]|lia|lia].
    + apply console_free.
    + intros _; apply (spends_try_catch _ w_nonneg _ _ 0 0 step 0 0); try lia.
      * eapply spends_weaken;
          [apply (spends_bind _ _ _ 0 0 0 step); [| |lia]|lia|lia].
        -- apply spends_get.
        -- intros n; apply acceptInFrames_spends.
      * intros e; apply console_free.
  - eapply spends_weaken; [apply spends_ret|lia|lia].
Qed.

(** A barrier block weighs at most two clicks with their delays. *)
Lemma handleBarriers_spends : spends w 0 (2 * step) (handleBarriers env).
Proof.
  generalize step_nonneg; intros Hs.
  unfold handleBarriers.
  eapply spends_weaken;
    [apply (spends_bind _ _ _ 0 0 0 (step + step)); [| |lia]|lia|lia].
  - generalize (spends_content w env); now rewrite w_content.
  - intros pageContent.
    apply (spends_bind _ _ _ 0 step 0 step);
      [apply bypassAppRedirect_spends|intros; apply bypassConsentWall_spends|lia].
Qed.

End BarrierCost.

Section FetchCost.
Import Run Trace Cost Extractors Browser Server.
Variable env : Env.
Variable w : event -> Z.
Hypothesis w_nonneg : forall e, (0 <= w e)%Z.
Hypothesis w_query : forall fr alt, w (Query fr alt) = 0%Z.
Hypothesis w_console : forall line, w (Console line) = 0%Z.
Hypothesis w_content : w Content = 0%Z.
Hypothesis w_page : w NewPage = 0%Z.
Hypothesis w_script : w AddInitScript = 0%Z.
Hypothesis w_title : w Title = 0%Z.

Lemma ret_within {A} (a : A) hi : (0 <= hi)%Z -> spends w 0 hi (ret a).
Proof. intros H; eapply spends_weaken; [apply spends_ret|lia|exact H]. Qed.

Lemma throw_within {A} (e : string) lo hi :
  (0 <= hi)%Z -> spends w lo hi (@throw A e).
Proof.
  intros H s; exists []; repeat split; [simpl; exact H|discriminate].
Qed.

Lemma openPage_free : spends w 0 0 (openPage env).
Proof.
  unfold openPage.
  apply (spends_bind _ _ _ 0 0 0 0); [apply spends_get|intros first|lia].
  apply (spends_bind _ _ _ 0 0 0 0); [| |lia].
  - destruct first; [apply spends_ret|].
    generalize (spends_call w env NewPage); now rewrite w_page.
  - intros _; generalize (spends_call w env AddInitScript); now rewrite w_script.
Qed.

(** The calls of a fetch from the page to the title: navigation, the
    settle delay and the barrier block. *)
Lemma navigation_spends (url : string) (settle : Z) {A} (rest : string -> Prog A)
  lo hi :
  (forall pageTitle, spends w lo hi (rest pageTitle)) -> (0 <= hi)%Z ->
  spends w
    (w (Goto url 30000) + w (WaitForTimeout settle) + lo)
    (w (Goto url 30000) + w (WaitForTimeout settle)
     + 2 * (w Click + w (WaitForTimeout 5000)) + hi)
    (bind (openPage env) (fun _ =>
       bind (call env (Goto url 30000)) (fun _ =>
         bind (waitForTimeout env settle) (fun _ =>
           bind (handleBarriers env) (fun _ =>
             bind (Run.title env) rest))))).
Proof.
  intros Hrest Hhi.
  generalize (w_nonneg (Goto url 30000)) (w_nonneg (WaitForTimeout settle))
    (w_nonneg Click) (w_nonneg (WaitForTimeout 5000)); intros N1 N2 N3 N4.
  eapply spends_weaken.
  - eapply spends_bind; [apply openPage_free|intros _|].
    + eapply spends_bind; [apply spends_call|intros _|].
      * eapply spends_bind; [apply spends_call|intros _|].
        -- eapply spends_bind;
             [apply (handleBarriers_spends env w w_nonneg w_query w_console w_content)
             |intros _|].
           ++ eapply spends_bind; [apply spends_title|exact Hrest|exact Hhi].
           ++ rewrite w_title; lia.
        -- rewrite w_title; lia.
      * rewrite w_title; lia.
    + rewrite w_title; lia.
  - rewrite w_title; lia.
  - rewrite w_title; lia.
Qed.

(** A fetch: the session check, the launch, and the body in
    [try ... finally close]. *)
Lemma launch_spends {A} (headless : bool) (body : Prog A) lo hi :
  spends w lo hi body -> (0 <= hi)%Z ->
  spends w
    (w (Launch headless) + lo + w Close) (w (Launch headless) + hi + w Close)
    (bind (hasAuthSession env) (fun session =>
       if negb session then throw no_session_error
       else bind (call env (Launch headless))
              (fun _ => try_finally body (call env Close)))).
Proof.
  intros Hb Hhi.
  generalize (w_nonneg (Launch headless)) (w_nonneg Close); intros N1 N2.
  eapply spends_weaken;
    [apply (spends_bind _ _ _ 0 0 (w (Launch headless) + (lo + w Close))
              (w (Launch headless) + (hi + w Close)));
       [apply spends_get|intros session|lia]
    |lia|lia].
  destruct session; simpl.
  - apply spends_bind; [apply spends_call|intros _|lia].
    apply spends_try_finally; [exact Hb|apply spends_call].
  - apply throw_within; lia.
Qed.

Lemma fetchAuthenticated_spends (url : string) (headless : bool) :
  spends w
    (w (Launch headless) + w (Goto url 30000) + w (WaitForTimeout 2000)
     + w (Evaluate ReadBodyText) + w Close)
    (w (Launch headless) + w (Goto url 30000) + w (WaitForTimeout 2000)
     + 2 * (w Click + w (WaitForTimeout 5000))
     + w (Evaluate ReadBodyText) + w Close)
    (fetchAuthenticated env url headless).
Proof.
  generalize (w_nonneg (Evaluate ReadBodyText)); intros N.
  unfold fetchAuthenticated.
  eapply spends_weaken.
  - apply launch_spends.
    + apply (navigation_spends url 2000 _
               (w (Evaluate ReadBodyText)) (w (Evaluate ReadBodyText))); [|exact N].
      intros pageTitle.
      eapply spends_weaken;
        [eapply spends_bind; [apply spends_evaluate|intros; apply spends_ret|lia]
        |lia|lia].
    + generalize (w_nonneg (Goto url 30000)) (w_nonneg (WaitForTimeout 2000))
        (w_nonneg Click) (w_nonneg (WaitForTimeout 5000)); lia.
  - lia.
  - lia.
Qed.

Lemma fetchWithExtractor_spends (url : string) (extractor : Prog string)
  (headless : bool) lo hi :
  spends w lo hi extractor -> (0 <= hi)%Z ->
  spends w
    (w (Launch headless) + w (Goto url 30000) + w (WaitForTimeout 5000)
     + lo + w Close)
    (w (Launch headless) + w (Goto url 30000) + w (WaitForTimeout 5000)
     + 2 * (w Click + w (WaitForTimeout 5000)) + hi + w Close)
    (fetchWithExtractor env url extractor headless).
Proof.
  intros Hx Hhi; unfold fetchWithExtractor.
  eapply spends_weaken.
  - apply launch_spends.
    + apply (navigation_spends url 5000 _ lo hi); [|exact Hhi].
      intros pageTitle.
      eapply spends_weaken;
        [eapply spends_bind;
           [apply (console_free w w_console)|intros _|]|  |].
      * eapply spends_bind; [exact Hx|intros; apply spends_ret|lia].
      * lia.
      * lia.
      * lia.
    + generalize (w_nonneg (Goto url 30000)) (w_nonneg (WaitForTimeout 5000))
        (w_nonneg Click); lia.
  - lia.
  - lia.
Qed.

(** The handler adds nothing to what the fetch it starts calls. *)
Lemma traverse_resource_spends (u : option string) (raw : option bool) hi :
  (forall url, u = Some url ->
     spends w 0 hi (fetch env url raw (Detect.detectService url))) ->
  (0 <= hi)%Z ->
  spends w 0 hi (traverse_resource env u raw).
Proof.
  intros Hf Hhi; unfold traverse_resource.
  destruct (missing u) eqn:Hu; [now apply ret_within|].
  destruct u as [url|]; [|discriminate].
  specialize (Hf url eq_refl).
  eapply spends_weaken;
    [apply (spends_bind _ _ _ 0 0 0 hi); [apply spends_get|intros session|lia]
    |lia|lia].
  destruct (negb session); [now apply ret_within|].
  eapply spends_weaken;
    [apply (spends_bind _ _ _ 0 (hi + 0) 0 0); [|intros outcome|lia]|lia|lia].
  - apply (spends_try_catch _ w_nonneg _ _ 0 0 hi 0 0); try lia.
    + eapply spends_weaken;
        [apply (spends_bind _ _ _ 0 hi 0 0); [exact Hf|intros; apply spends_ret|lia]
        |lia|lia].
    + intros e; destruct (auth_wall e); [apply spends_ret|apply spends_throw].
  - destruct outcome; apply spends_ret.
Qed.

Lemma callTool_spends (request : Request) hi :
  (forall target, Server.url request = Some target ->
     spends w 0 hi (fetch env target (Server.raw request)
                      (Detect.detectService target))) ->
  (0 <= hi)%Z ->
  spends w 0 hi (callTool env request).
Proof.
  intros Hf Hhi; unfold callTool.
  eapply spends_weaken;
    [apply (spends_try_catch _ w_nonneg _ _ 0 0 hi 0 0); try lia|lia|lia].
  2: { intros e; apply spends_ret. }
  destruct (String.eqb _ _); [now apply traverse_resource_spends|].
  destruct (String.eqb _ _); [|now apply ret_within].
  unfold check_auth.
  eapply spends_weaken;
    [apply (spends_bind _ _ _ 0 0 0 0); [apply spends_get|intros hasAuth|lia]
    |lia|lia].
  destruct hasAuth; apply spends_ret.
Qed.

End FetchCost.

(** No extractor launches, navigates, clicks, closes, or runs the script of
    fetchAuthenticated. *)
Lemma invoke_free (env : Run.Env) (p : Run.event -> bool) (f : Extractors.Extractor) :
  (forall e, p e = true ->
     Trace.is_launch e = true \/ Trace.is_close e = true \/ Cost.is_goto e = true
     \/ Cost.is_click e = true \/ Cost.is_body_script e = true) ->
  Trace.counts p 0 (Extractors.invoke env f).
Proof.
  intros Hp.
  assert (Hz : forall e,
             Trace.is_launch e = false -> Trace.is_close e = false ->
             Cost.is_goto e = false -> Cost.is_click e = false ->
             Cost.is_body_script e = false -> p e = false).
  { intros e H1 H2 H3 H4 H5; destruct (p e) eqn:E; [|reflexivity].
    destruct (Hp e E) as [H|[H|[H|[H|H]]]]; congruence. }
  destruct f; cbn [Extractors.invoke];
    unfold Extractors.extractGeminiChat, Extractors.extractGoogleDoc,
      Extractors.extractNotebookLM, Extractors.extractChatGPT,
      Extractors.extractGrok, Extractors.extractDiscord, Extractors.extractSlack,
      Extractors.extractRaindrop, Extractors.extractGeneric,
      Extractors.readGeminiChat, Extractors.readGoogleDoc,
      Extractors.readNotebookLM, Extractors.readChatGPT, Extractors.readGrok,
      Extractors.readDiscord, Extractors.readSlack, Extractors.readRaindrop,
      Extractors.scrollWalk, Run.waitForTimeout, Run.waitForSelector;
    repeat lazymatch goal with
      | |- Trace.counts _ _ (Run.bind _ _) =>
          eapply (counts_n _ _ (0 + 0)); [reflexivity|];
          apply counts_bind; [|intros]
      | |- Trace.counts _ _ (Run.ret _) => apply counts_ret
      | |- Trace.counts _ _ (Run.console _) => apply counts_console, Hz; reflexivity
      | |- Trace.counts _ _ (Run.call _ _) => apply counts_call_0, Hz; reflexivity
      | |- Trace.counts _ _ (Run.evaluate _ _ _) =>
          apply counts_evaluate_0, Hz; reflexivity
      | |- Trace.counts _ _ (Run.ignore_errors _) => apply counts_ignore_errors
      | |- Trace.counts _ _ (Run.for_times _ _) =>
          eapply (counts_n _ _ (_ * 0)); [apply Nat.mul_0_r|];
          apply counts_for_times
      | |- Trace.counts _ _ (if ?b then _ else _) => destruct b
      end.
Qed.

Lemma weight_one_count p l : Cost.weight (Cost.one p) l = Z.of_nat (Trace.count p l).
Proof.
  unfold Trace.count; induction l as [|e l IH]; simpl; [reflexivity|].
  unfold Cost.one at 1; destruct (p e); simpl length; rewrite IH; lia.
Qed.

Lemma counts_zero_spends p {A} (m : Run.Prog A) :
  Trace.counts p 0 m -> Cost.spends (Cost.one p) 0 0 m.
Proof.
  intros H s; destruct (H s) as (new & Ha & Hle & _).
  exists new; rewrite weight_one_count; repeat split; [exact Ha|lia|intros; lia].
Qed.

Lemma spends_zero_counts p {A} (m : Run.Prog A) :
  Cost.spends (Cost.one p) 0 0 m -> Trace.counts p 0 m.
Proof.
  intros H s; destruct (H s) as (new & Ha & Hle & _).
  rewrite weight_one_count in Hle.
  exists new; repeat split; [exact Ha|lia|intros; lia].
Qed.

(** A fetch sleeps a bounded, fixed time.  The raw fetch: at most 12000 ms
    on any run (the 2000 ms settle delay and up to two 5000 ms delays after
    barrier clicks) and at least 2000 ms when it returns.  A fetch with an
    extractor: the 5000 ms settle delay and the extractor's own fixed delay
    when it returns, and at most 10000 ms more on any run. *)
Theorem fetch_fixed_delay (env : Run.Env) (url : string) (headless : bool)
  (f : Extractors.Extractor) :
  Cost.spends Cost.delay_ms 2000 12000 (Browser.fetchAuthenticated env url headless)
  /\ Cost.spends Cost.delay_ms
       (5000 + Cost.fixed_delay f) (15000 + Cost.fixed_delay f)
       (Browser.fetchWithExtractor env url (Extractors.invoke env f) headless).
Proof.
  split.
  - eapply spends_weaken;
      [apply (fetchAuthenticated_spends env Cost.delay_ms delay_nonneg);
         intros; reflexivity
      |closed_le|closed_le].
  - eapply spends_weaken;
      [apply (fetchWithExtractor_spends env Cost.delay_ms delay_nonneg);
         [intros; reflexivity ..|apply invoke_spends_fixed_delay|]
      | |]; destruct f; closed_le.
Qed.


(** Side conditions of the weight lemmas, for a weight that counts the
    calls satisfying [p]. *)
Ltac one_side p :=
  lazymatch goal with
  | |- forall e, (0 <= Cost.one _ e)%Z => apply (one_nonneg p)
  | |- (_ <= _)%Z => closed_le
  | |- Cost.spends _ _ _ (Extractors.invoke _ _) =>
      apply counts_zero_spends, invoke_free;
      let e := fresh "e" in let H := fresh "H" in
      intros e H; rewrite H; tauto
  | |- _ => intros; reflexivity
  end.

Ltac fetch_within env p :=
  unfold Server.fetch; destruct (_ || _);
  [ eapply spends_weaken;
    [apply (fetchAuthenticated_spends env (Cost.one p)); one_side p
    |closed_le|closed_le]
  | eapply spends_weaken;
    [apply (fetchWithExtractor_spends env (Cost.one p)); one_side p
    |closed_le|closed_le] ].

Ltac request_within env p :=
  apply (callTool_spends env (Cost.one p));
  lazymatch goal with
  | |- forall target, _ = Some target -> _ =>
      let target := fresh "target" in intros target _; fetch_within env p
  | |- _ => one_side p
  end.

(** Whatever the request and whatever the browser does, the handler makes
    a single attempt: at most one launch, one navigation and one close, and
    at most two clicks (one per barrier). *)
Theorem request_single_attempt (env : Run.Env) (request : Server.Request) :
  Cost.spends (Cost.one Trace.is_launch) 0 1 (Server.callTool env request)
  /\ Cost.spends (Cost.one Cost.is_goto) 0 1 (Server.callTool env request)
  /\ Cost.spends (Cost.one Trace.is_close) 0 1 (Server.callTool env request)
  /\ Cost.spends (Cost.one Cost.is_click) 0 2 (Server.callTool env request).
Proof.
  repeat split.
  - request_within env Trace.is_launch.
  - request_within env Cost.is_goto.
  - request_within env Trace.is_close.
  - request_within env Cost.is_click.
Qed.

(** The two paths of the handler stay apart.  A raw traversal, or one of a
    URL that no pattern matches, never runs a script of lib/extractors.ts
    (no scroll script of a history walk, no fragment reader, no inline
    fallback, not the generic extractor either); a traversal with an
    extractor never runs the body-text script of fetchAuthenticated. *)
Theorem raw_and_extractor_paths_apart (env : Run.Env) (url : string)
  (raw : option bool) :
  (Server.raw_requested raw
   || negb (Extractors.is_some (Detect.detectService url)) = true ->
   Trace.counts Cost.is_extractor_script 0
     (Server.callTool env (Server.MkRequest "traverse_resource" (Some url) raw)))
  /\ (Server.raw_requested raw
      || negb (Extractors.is_some (Detect.detectService url)) = false ->
      Trace.counts Cost.is_body_script 0
        (Server.callTool env (Server.MkRequest "traverse_resource" (Some url) raw))).
Proof.
  split; intros E; apply spends_zero_counts.
  - apply (callTool_spends env (Cost.one Cost.is_extractor_script));
      lazymatch goal with
      | |- forall target, _ = Some target -> _ =>
          intros target [= <-]; cbn [Server.raw]; unfold Server.fetch; rewrite E;
          eapply spends_weaken;
            [apply (fetchAuthenticated_spends env (Cost.one Cost.is_extractor_script));
               one_side Cost.is_extractor_script
            |closed_le|closed_le]
      | |- _ => one_side Cost.is_extractor_script
      end.
  - apply (callTool_spends env (Cost.one Cost.is_body_script));
      lazymatch goal with
      | |- forall target, _ = Some target -> _ =>
          intros target [= <-]; cbn [Server.raw]; unfold Server.fetch; rewrite E;
          eapply spends_weaken;
            [apply (fetchWithExtractor_spends env (Cost.one Cost.is_body_script));
               one_side Cost.is_body_script
            |closed_le|closed_le]
      | |- _ => one_side Cost.is_body_script
      end.
Qed.

Lemma raw_and_extractor_paths_apart_witness :
  Trace.counts Cost.is_extractor_script 0
    (Server.callTool Examples.quiet
       (Server.MkRequest "traverse_resource" (Some "https://chatgpt.com/c/42")
          (Some true)))
  /\ Trace.counts Cost.is_body_script 0
       (Server.callTool Examples.quiet
          (Server.MkRequest "traverse_resource" (Some "https://chatgpt.com/c/42")
             None)).
Proof.
  split.
  - apply (proj1 (raw_and_extractor_paths_apart Examples.quiet
                    "https://chatgpt.com/c/42" (Some true))); reflexivity.
  - apply (proj2 (raw_and_extractor_paths_apart Examples.quiet
                    "https://chatgpt.com/c/42" None)); reflexivity.
Defined.

(** ** Failures at the edges of a fetch *)

(** When the launch of the browser context itself fails, nothing was opened
    and nothing is closed: the launch is the only call of the request, and
    its error decides the answer (the re-authentication text if the message
    reads like a login wall, the generic error text otherwise). *)
Theorem launch_failure_answer (env : Run.Env) (url : string)
  (raw : option bool) (s : Run.State) (message : string) :
  Server.missing (Some url) = false ->
  Run.profile_exists env s = true ->
  Run.throws env (Run.Launch true) s = Some message ->
  Server.callTool env (Server.MkRequest "traverse_resource" (Some url) raw) s
  = (Run.Ok (Server.MkToolResult
               (if Server.auth_wall message
                then Server.reauth_text url
                else Server.generic_error_text message) true),
     Run.MkState (Run.doc s) (Run.Launch true :: Run.trace s)).
Proof.
  intros Hu Hp Hl.
  assert (Hf : Server.fetch env url raw (Detect.detectService url) s
               = (Run.Throw message,
                  Run.MkState (Run.doc s) (Run.Launch true :: Run.trace s))).
  { unfold Server.fetch, Browser.fetchAuthenticated, Browser.fetchWithExtractor.
    destruct (_ || _);
      unfold Run.bind at 1, Run.hasAuthSession, Run.get; rewrite Hp; simpl;
      unfold Run.bind at 1, Run.call at 1; now rewrite Hl. }
  rewrite callTool_traverse, (traverse_resource_run env url raw s Hu Hp), Hf.
  now destruct (Server.auth_wall message).
Qed.

Lemma launch_failure_answer_witness :
  Server.callTool Scenarios.no_chrome
    (Server.MkRequest "traverse_resource" (Some "https://chatgpt.com/c/42") None)
    (Examples.fresh Examples.article_page)
  = (Run.Ok (Server.MkToolResult
               "❌ Error: browserType.launchPersistentContext: Chromium distribution 'chrome' is not found"
               true),
     Run.MkState Examples.article_page [Run.Launch true]).
Proof.
  apply (launch_failure_answer Scenarios.no_chrome "https://chatgpt.com/c/42" None
           (Examples.fresh Examples.article_page)
           "browserType.launchPersistentContext: Chromium distribution 'chrome' is not found");
    reflexivity.
Defined.

Section BestEffort.
Import Run Trace Browser.
Variable env : Env.

Lemma try_catch_console_returns (m : Prog unit) (line : string) s :
  exists s', try_catch m (fun _ => console line) s = (Ok tt, s').
Proof.
  unfold try_catch, console; destruct (m s) as [[[]|e] s1]; eauto.
Qed.

Lemma bypassAppRedirect_returns pageContent s :
  exists s', bypassAppRedirect env pageContent s = (Ok tt, s').
Proof.
  unfold bypassAppRedirect; destruct (shows_app_redirect _); [|unfold ret; eauto].
  unfold bind at 1, console; apply try_catch_console_returns.
Qed.

Lemma bypassConsentWall_returns pageContent s :
  exists s', bypassConsentWall env pageContent s = (Ok tt, s').
Proof.
  unfold bypassConsentWall; destruct (shows_consent_wall _); [|unfold ret; eauto].
  unfold bind at 1, console; apply try_catch_console_returns.
Qed.

End BestEffort.

(** Barrier handling is best effort: once the page content was read, the
    block returns whatever the lookups, the clicks and the delays do (their
    failures are logged and dropped).  Only a failure of the content read,
    which is made outside the two [try] blocks, leaves the block, as that
    error and before any barrier step. *)
Theorem barriers_are_best_effort (env : Run.Env) (s : Run.State) :
  (Run.throws env Run.Content s = None ->
   exists s', Browser.handleBarriers env s = (Run.Ok tt, s'))
  /\ (forall message,
        Run.throws env Run.Content s = Some message ->
        Browser.handleBarriers env s
        = (Run.Throw message,
           Run.MkState (Run.doc s) (Run.Content :: Run.trace s))).
Proof.
  unfold Browser.handleBarriers, Run.content; split.
  - intros Hc; unfold Run.bind at 1 2, Run.call; rewrite Hc; simpl.
    set (s1 := Run.MkState _ _); set (pc := Run.page_content env s1).
    destruct (bypassAppRedirect_returns env pc s1) as (s2 & H2).
    unfold Run.bind; rewrite H2.
    apply bypassConsentWall_returns.
  - intros message Hc; unfold Run.bind at 1 2, Run.call; now rewrite Hc.
Qed.

Lemma barriers_are_best_effort_witness :
  exists s',
    Browser.handleBarriers Scenarios.detached_frames
      (Examples.fresh Examples.article_page)
    = (Run.Ok tt, s').
Proof.
  apply (proj1 (barriers_are_best_effort Scenarios.detached_frames
                  (Examples.fresh Examples.article_page))).
  reflexivity.
Defined.

(** ** What the fragment readers return *)
Section Fragments.
Import Run Trace Extractors.
Variable env : Env.

(** *** The code units of a text in front of an ASCII character *)
Lemma continuations_length (n : nat) (s : string) :
  length (Str.continuations n s) <= String.length s.
Proof.
  revert s; induction n as [|n IH]; intros [|c s]; simpl; try lia.
  destruct (Str.continuation c); simpl; [specialize (IH s)|]; lia.
Qed.

(** A character takes no more bytes than there are. *)
Lemma decode_taken (c0 : ascii) (s : string) :
  snd (Str.decode c0 s) <= String.length s /\ snd (Str.decode c0 s) <= 3.
Proof.
  unfold Str.decode.
  repeat match goal with
         | |- context [if ?b then _ else _] => destruct b
         end; cbn [snd Str.replacement]; try lia.
  - pose proof (continuations_length 1 s) as L.
    destruct (Str.continuations 1 s) as [|x1 [|x2 l]]; simpl in *; lia.
  - pose proof (continuations_length 2 s) as L.
    destruct (Str.continuations 2 s) as [|x1 [|x2 [|x3 l]]]; simpl in *; lia.
  - pose proof (continuations_length 3 s) as L.
    destruct (Str.continuations 3 s) as [|x1 [|x2 [|x3 [|x4 l]]]]; simpl in *; lia.
Qed.

Lemma units_step (c0 : ascii) (r0 : string) :
  Str.units (String c0 r0)
  = (fst (Str.decode c0 r0)
     ++ Str.units (Str.skip (snd (Str.decode c0 r0)) r0))%list.
Proof.
  cbn [Str.units]; pose proof (decode_taken c0 r0) as T.
  destruct (Str.decode c0 r0) as [first taken]; cbn [fst snd] in *.
  destruct taken as [|[|[|[|k]]]], r0 as [|c1 [|c2 [|c3 r3]]];
    simpl in T; try lia; reflexivity.
Qed.

Lemma skip_app (k : nat) (p q : string) :
  k <= String.length p -> Str.skip k (p ++ q) = Str.skip k p ++ q.
Proof.
  revert p; induction k as [|k IH]; intros p Hk.
  - now destruct p.
  - destruct p as [|c p]; simpl in *; [lia|apply IH; lia].
Qed.

Lemma skip_length (k : nat) (p : string) :
  String.length (Str.skip k p) <= String.length p.
Proof.
  revert p; induction k as [|k IH]; intros [|c p]; simpl; try lia.
  specialize (IH p); lia.
Qed.

Lemma continuation_ascii (c : ascii) :
  (Str.code c <? 128)%N = true -> Str.continuation c = None.
Proof.
  intros Hc; unfold Str.continuation.
  destruct (128 <=? Str.code c)%N eqn:E; [|reflexivity].
  apply N.leb_le in E; apply N.ltb_lt in Hc; lia.
Qed.

Lemma continuations_app (c : ascii) (t : string) (n : nat) (p : string) :
  (Str.code c <? 128)%N = true ->
  Str.continuations n (p ++ String c t) = Str.continuations n p.
Proof.
  intros Hc; revert p; induction n as [|n IH]; intros [|c0 p]; simpl;
    try reflexivity.
  - now rewrite continuation_ascii.
  - destruct (Str.continuation c0); [now rewrite IH|reflexivity].
Qed.

Lemma units_ascii (c : ascii) (t : string) :
  (Str.code c <? 128)%N = true ->
  Str.units (String c t) = Str.code c :: Str.units t.
Proof. intros Hc; rewrite units_step; unfold Str.decode; now rewrite Hc. Qed.

(** An ASCII character is never taken for the end of the character in
    front of it, so the code units of a text in front of one are those of
    the text alone. *)
Lemma units_app_ascii (c : ascii) (t p : string) :
  (Str.code c <? 128)%N = true ->
  Str.units (p ++ String c t) = (Str.units p ++ Str.code c :: Str.units t)%list.
Proof.
  intros Hc.
  assert (H : forall n q, String.length q <= n ->
                Str.units (q ++ String c t)
                = (Str.units q ++ Str.code c :: Str.units t)%list).
  { induction n as [|n IH]; intros q Hn.
    - destruct q; [now apply units_ascii|simpl in Hn; lia].
    - destruct q as [|c0 q]; [now apply units_ascii|].
      simpl in Hn; cbn [append].
      rewrite !units_step.
      unfold Str.decode at 1 2; rewrite !continuations_app by exact Hc.
      fold (Str.decode c0 q).
      rewrite skip_app by apply decode_taken.
      rewrite IH, app_assoc; [reflexivity|].
      pose proof (skip_length (snd (Str.decode c0 q)) q); lia. }
  now apply (H (String.length p)).
Qed.

Lemma starts_firstn (n : nat) (l : list N) : Str.starts (firstn n l) l = true.
Proof.
  revert l; induction n as [|n IH]; intros [|x l]; simpl; try reflexivity.
  now rewrite N.eqb_refl, IH.
Qed.

Lemma occurs_app_r (sub a l : list N) :
  Str.occurs sub l = true -> Str.occurs sub (a ++ l)%list = true.
Proof.
  intros H; induction a as [|x a IH]; [exact H|].
  cbn [app Str.occurs]; rewrite IH; apply orb_true_r.
Qed.

(** A fragment that ends with its text, after an ASCII character,
    contains the start of that text. *)
Lemma includes_own_start (before : string) (c : ascii) (text : string) (n : nat) :
  (Str.code c <? 128)%N = true ->
  Str.includes_start (before ++ String c text) n text = true.
Proof.
  intros Hc; unfold Str.includes_start.
  rewrite (units_app_ascii c text before Hc).
  apply occurs_app_r; cbn [Str.occurs].
  assert (H : Str.occurs (firstn n (Str.units text)) (Str.units text) = true).
  { destruct (Str.units text); cbn [Str.occurs]; now rewrite starts_firstn. }
  rewrite H; apply orb_true_r.
Qed.

Lemma NoDup_snoc {A} (l : list A) (x : A) :
  NoDup l -> ~ In x l -> NoDup (l ++ [x]).
Proof.
  intros Hl Hx; induction Hl as [|y l Hy Hl IH]; simpl.
  - constructor; [intros []|constructor].
  - constructor.
    + rewrite in_app_iff; intros [H|[H|[]]]; [now apply Hy|].
      apply Hx; now left.
    + apply IH; intros H; apply Hx; now right.
Qed.

(** A fragment is pushed only if no fragment already kept contains the
    first 50 code units of its text; a fragment contains the start of its
    own text. *)
Lemma dedupe_keeps_NoDup (results : list string) (before : string) (c : ascii)
  (text : string) :
  (Str.code c <? 128)%N = true ->
  NoDup results ->
  existsb (fun r => Str.includes_start r 50 text) results = false ->
  NoDup (results ++ [before ++ String c text]).
Proof.
  intros Hc Hn He; apply NoDup_snoc; [exact Hn|].
  intros Hin.
  assert (Ht : existsb (fun r => Str.includes_start r 50 text) results = true).
  { apply existsb_exists; exists (before ++ String c text); split; [exact Hin|].
    now apply includes_own_start. }
  rewrite Ht in He; discriminate.
Qed.

Lemma grokStep_NoDup results el : NoDup results -> NoDup (grokStep env results el).
Proof.
  intros Hn; unfold grokStep.
  destruct (_ && _); [|exact Hn].
  destruct (existsb _ results) eqn:E; cbn [negb]; [exact Hn|].
  match goal with
  | |- NoDup (results ++ [(?a ++ Str.nl ++ ?t)%string])%list =>
      change (Str.nl ++ t) with (String (ascii_of_nat 10) t)
  end.
  now apply dedupe_keeps_NoDup.
Qed.

Lemma slackStep_NoDup results el : NoDup results -> NoDup (slackStep env results el).
Proof.
  intros Hn; unfold slackStep.
  destruct (Dom.querySelectorIn _ el) as [a|]; [|exact Hn].
  destruct (Dom.querySelectorIn _ el) as [b|]; [|exact Hn].
  destruct (Str.truthy _ && negb _) eqn:E; [|exact Hn].
  apply andb_true_iff in E; destruct E as [_ E]; apply negb_true_iff in E.
  match goal with
  | |- NoDup (results ++ [(?p1 ++ ?au ++ ?p2 ++ ?ti ++ "]: " ++ ?t)%string])%list =>
      replace (p1 ++ au ++ p2 ++ ti ++ "]: " ++ t)
        with ((p1 ++ au ++ p2 ++ ti ++ "]:") ++ String " " t)
        by (now rewrite !append_assoc)
  end.
  now apply dedupe_keeps_NoDup.
Qed.

Lemma fold_left_NoDup {A} (step : list string -> A -> list string) (l : list A)
  (results : list string) :
  (forall r x, NoDup r -> NoDup (step r x)) ->
  NoDup results -> NoDup (fold_left step l results).
Proof.
  intros Hs; revert results; induction l as [|x l IH]; simpl; auto.
Qed.

(** What a script that returned was computed from. *)
Lemma evaluate_value {A} label (f : Dom.document -> result A * Dom.document)
  s a s' :
  evaluate env label f s = (Ok a, s') -> exists d, fst (f d) = Ok a.
Proof.
  intros H; apply bind_Ok in H; destruct H as (u & s1 & _ & H).
  exists (doc s1); destruct (f (doc s1)) as [r d]; now injection H as ->.
Qed.

End Fragments.

(** The fragments that the Grok and the Slack extractor read never contain
    the same fragment twice, whatever the page holds and whatever the
    browser does: the check against the first 50 characters drops every
    repetition. *)
Theorem deduplicated_fragments (env : Run.Env) (s s' : Run.State)
  (messages : list string) :
  (Extractors.readGrok env s = (Run.Ok messages, s') -> NoDup messages)
  /\ (Extractors.readSlack env s = (Run.Ok messages, s') -> NoDup messages).
Proof.
  split; intros H.
  - unfold Extractors.readGrok in H.
    apply bind_Ok in H; destruct H as (u1 & s1 & _ & H).
    apply bind_Ok in H; destruct H as (u2 & s2 & _ & H).
    apply bind_Ok in H; destruct H as (u3 & s3 & _ & H).
    apply evaluate_value in H; destruct H as (d & H).
    unfold Extractors.grokScript in H; simpl in H; injection H as <-.
    apply fold_left_NoDup; [apply grokStep_NoDup|constructor].
  - unfold Extractors.readSlack in H.
    apply bind_Ok in H; destruct H as (u1 & s1 & _ & H).
    apply bind_Ok in H; destruct H as (u2 & s2 & _ & H).
    apply bind_Ok in H; destruct H as (u3 & s3 & _ & H).
    apply evaluate_value in H; destruct H as (d & H).
    unfold Extractors.slackScript in H; simpl in H; injection H as <-.
    apply fold_left_NoDup; [apply slackStep_NoDup|constructor].
Qed.

(** ** Removing elements from the live page *)
Section Pruning.
Import Dom.

(** Induction on a DOM tree, with the property for every child. *)
Lemma node_induction (P : node -> Prop) :
  (forall data, P (Text data)) ->
  (forall tag attrs children, Forall P children -> P (Elem tag attrs children)) ->
  forall n, P n.
Proof.
  intros Ht He; fix IH 1; intros [data|tag attrs children].
  - apply Ht.
  - apply He; induction children as [|c children IHc]; constructor.
    + apply IH.
    + exact IHc.
Qed.

Variable sel : selector.

(** Whether an element matches does not depend on its children. *)
Lemma matches_children tag attrs children children' :
  matches sel (Elem tag attrs children) = matches sel (Elem tag attrs children').
Proof. reflexivity. Qed.

Lemma flat_map_fixed {A} (f : A -> list A) (l : list A) :
  Forall (fun x => flat_map f (f x) = f x) l ->
  flat_map f (flat_map f l) = flat_map f l.
Proof.
  induction 1 as [|x l Hx Hl IH]; simpl; [reflexivity|].
  now rewrite flat_map_app, Hx, IH.
Qed.

Lemma prune_idempotent (n : node) : flat_map (prune sel) (prune sel n) = prune sel n.
Proof.
  induction n as [data|tag attrs children IH] using node_induction.
  - reflexivity.
  - cbn [prune]; destruct (matches sel (Elem tag attrs children)) eqn:E.
    + reflexivity.
    + cbn [flat_map prune].
      rewrite (matches_children tag attrs _ children), E, app_nil_r.
      now rewrite (flat_map_fixed _ _ IH).
Qed.

Lemma removeAll_idempotent (d : document) :
  removeAll sel (removeAll sel d) = removeAll sel d.
Proof.
  unfold removeAll; apply flat_map_fixed.
  induction d as [|n d IH]; constructor; [apply prune_idempotent|exact IH].
Qed.

Lemma prune_clean (n : node) :
  forall anc,
    Forall (fun e => matches sel (self e) = false)
      (flat_map (subtree anc) (prune sel n)).
Proof.
  induction n as [data|tag attrs children IH] using node_induction; intros anc.
  - constructor.
  - cbn [prune]; destruct (matches sel (Elem tag attrs children)) eqn:E.
    + constructor.
    + cbn [flat_map subtree]; rewrite app_nil_r; constructor.
      * cbn [self]; now rewrite (matches_children tag attrs _ children).
      * generalize (Elem tag attrs (flat_map (prune sel) children) :: anc).
        intros anc'; clear E.
        induction IH as [|c children Hc Hcs IHcs]; [constructor|].
        cbn [flat_map]; rewrite flat_map_app.
        apply Forall_app; split; [apply Hc|exact IHcs].
Qed.

Lemma removeAll_clean (d : document) : querySelectorAll sel (removeAll sel d) = [].
Proof.
  unfold querySelectorAll, all_elements, removeAll.
  assert (H : Forall (fun e => matches sel (self e) = false)
                (flat_map (subtree []) (flat_map (prune sel) d))).
  { induction d as [|n d IH]; [constructor|].
    cbn [flat_map]; rewrite flat_map_app.
    apply Forall_app; split; [apply prune_clean|exact IH]. }
  induction H as [|e l He Hl IH]; simpl; [reflexivity|now rewrite He].
Qed.

End Pruning.

(** The generic extractor and the raw fetch change the page they read: once
    extractGeneric returned, the live document holds no script, style,
    noscript, nav, header or footer element any more (after the body-text
    script of fetchAuthenticated: no script, style or noscript).  Run again
    on the document it left, either script finds nothing more to remove and
    gives the same text. *)
Theorem generic_extraction_prunes_the_page (env : Run.Env) :
  (forall s text s',
     Extractors.extractGeneric env s = (Run.Ok text, s') ->
     Dom.querySelectorAll Cost.generic_noise (Run.doc s') = [])
  /\ (forall d,
        Extractors.genericScript env (snd (Extractors.genericScript env d))
        = Extractors.genericScript env d)
  /\ (forall d,
        Dom.querySelectorAll Cost.body_noise (snd (Browser.bodyTextScript env d)) = []
        /\ Browser.bodyTextScript env (snd (Browser.bodyTextScript env d))
           = Browser.bodyTextScript env d).
Proof.
  assert (G : forall d, snd (Extractors.genericScript env d)
                        = Dom.removeAll Cost.generic_noise d).
  { intros d; unfold Extractors.genericScript.
    now destruct (Extractors.or_else _ _). }
  assert (B : forall d, snd (Browser.bodyTextScript env d)
                        = Dom.removeAll Cost.body_noise d).
  { intros d; unfold Browser.bodyTextScript.
    now destruct (Dom.body _). }
  repeat split.
  - intros s text s' H; unfold Extractors.extractGeneric in H.
    apply bind_Ok in H; destruct H as (u & s1 & _ & H).
    generalize (G (Run.doc s1)); intros Hd.
    destruct (Extractors.genericScript env (Run.doc s1)) as [r d1].
    injection H as _ <-; simpl in *; subst d1.
    apply removeAll_clean.
  - intros d; rewrite G; unfold Extractors.genericScript.
    fold Cost.generic_noise; now rewrite removeAll_idempotent.
  - rewrite B; apply removeAll_clean.
  - rewrite B; unfold Browser.bodyTextScript.
    fold Cost.body_noise; now rewrite removeAll_idempotent.
Qed.

(** ** A browser whose calls do not fail *)
Section StillFetch.
Import Run Trace Browser.
Variable env : Env.
Hypothesis Hstill : still env.

Lemma still_click_wait s :
  exists t, bind (click env) (fun _ => waitForTimeout env 5000) s
            = (Ok tt, MkState (doc s) t).
Proof.
  unfold bind, click, waitForTimeout; rewrite (still_call env Hstill); simpl.
  rewrite (still_call env Hstill); simpl; eauto.
Qed.

Lemma still_query frame alternatives s :
  exists t b, query env frame alternatives s = (Ok b, MkState (doc s) t).
Proof.
  unfold query, bind, get; rewrite (still_call env Hstill); simpl; eauto.
Qed.

Lemma still_acceptInFrames n : forall i s,
  exists t, acceptInFrames env i n s = (Ok tt, MkState (doc s) t).
Proof.
  induction n as [|n IH]; intros i s; cbn [acceptInFrames].
  - exists (trace s); now destruct s.
  - destruct (still_query (Some i) accept_button s) as (t & b & Hq).
    unfold bind at 1; rewrite Hq.
    destruct b; [apply (still_click_wait (MkState (doc s) t))|].
    apply (IH (S i) (MkState (doc s) t)).
Qed.

Lemma still_bypassAppRedirect pageContent s :
  exists t, bypassAppRedirect env pageContent s = (Ok tt, MkState (doc s) t).
Proof.
  unfold bypassAppRedirect; destruct (shows_app_redirect _).
  - unfold bind at 1, console, try_catch.
    set (s1 := MkState (doc s) _).
    destruct (still_query None browser_link s1) as (t & b & Hq).
    unfold bind at 1; rewrite Hq.
    destruct b.
    + destruct (still_click_wait (MkState (doc s1) t)) as (t' & H); rewrite H; eauto.
    + unfold ret; eauto.
  - exists (trace s); now destruct s.
Qed.

Lemma still_bypassConsentWall pageContent s :
  exists t, bypassConsentWall env pageContent s = (Ok tt, MkState (doc s) t).
Proof.
  unfold bypassConsentWall; destruct (shows_consent_wall _).
  - unfold bind at 1, console, try_catch.
    set (s1 := MkState (doc s) _).
    unfold bind, get.
    destruct (still_acceptInFrames (frames env s1) 0 s1) as (t & H); rewrite H; eauto.
  - exists (trace s); now destruct s.
Qed.

Lemma still_handleBarriers s :
  exists t, handleBarriers env s = (Ok tt, MkState (doc s) t).
Proof.
  unfold handleBarriers, Run.content.
  unfold bind at 1 2, get; rewrite (still_call env Hstill); simpl.
  set (s1 := MkState (doc s) _); set (pc := page_content env s1).
  destruct (still_bypassAppRedirect pc s1) as (t1 & H1).
  unfold bind; rewrite H1.
  apply (still_bypassConsentWall pc (MkState (doc s) t1)).
Qed.

Lemma still_openPage s :
  exists t, openPage env s = (Ok tt, MkState (doc s) t).
Proof.
  unfold openPage, bind, get; destruct (first_page env s).
  - unfold ret; rewrite (still_call env Hstill); eauto.
  - rewrite (still_call env Hstill); simpl.
    rewrite (still_call env Hstill); eauto.
Qed.

Lemma bodyTextScript_returns d :
  exists text, fst (bodyTextScript env d) = Ok text.
Proof. unfold bodyTextScript; destruct (Dom.body _); simpl; eauto. Qed.

Lemma still_fetchAuthenticated (url : string) (headless : bool) s text :
  profile_exists env s = true ->
  fst (bodyTextScript env (doc s)) = Ok text ->
  exists pageTitle t,
    fetchAuthenticated env url headless s
    = (Ok (MkFetched pageTitle text),
       MkState (snd (bodyTextScript env (doc s))) t).
Proof.
  intros Hp Ht; unfold fetchAuthenticated.
  unfold bind at 1, hasAuthSession, get; rewrite Hp; simpl.
  unfold bind at 1; rewrite (still_call env Hstill); simpl.
  unfold try_finally.
  set (s0 := MkState (doc s) _).
  destruct (still_openPage s0) as (t1 & H1).
  unfold bind at 1; rewrite H1.
  unfold bind at 1; rewrite (still_call env Hstill); simpl.
  unfold bind at 1, waitForTimeout; rewrite (still_call env Hstill); simpl.
  match goal with
  | |- context [bind (handleBarriers env) _ ?s3] =>
      destruct (still_handleBarriers s3) as (t4 & H4)
  end.
  unfold bind at 1; rewrite H4; simpl.
  unfold bind at 1, Run.title, bind at 1, get.
  rewrite (still_call env Hstill); simpl.
  unfold bind at 1; rewrite (still_evaluate env Hstill); simpl.
  rewrite Ht; simpl.
  rewrite (still_call env Hstill); simpl; eauto.
Qed.

End StillFetch.

(** With a session and a browser whose calls do not fail, a raw traversal,
    or one of a URL that no pattern matches, always succeeds: the answer is
    no error and its content is the text of the page body, read after every
    script, style and noscript element was removed from the page (the empty
    text if the page has no body). *)
Theorem raw_traversal_succeeds (env : Run.Env) (url : string)
  (raw : option bool) (s : Run.State) :
  Trace.still env ->
  Run.profile_exists env s = true ->
  Server.missing (Some url) = false ->
  Server.raw_requested raw
  || negb (Extractors.is_some (Detect.detectService url)) = true ->
  exists pageTitle text t,
    fst (Browser.bodyTextScript env (Run.doc s)) = Run.Ok text
    /\ Server.callTool env (Server.MkRequest "traverse_resource" (Some url) raw) s
       = (Run.Ok (Server.MkToolResult
                    (Server.format_output (Detect.detectService url) url
                       (Browser.MkFetched pageTitle text)) false),
          Run.MkState (Dom.removeAll Cost.body_noise (Run.doc s)) t).
Proof.
  intros Hs Hp Hu Hr.
  destruct (bodyTextScript_returns env (Run.doc s)) as (text & Ht).
  destruct (still_fetchAuthenticated env Hs url true s text Hp Ht)
    as (pageTitle & t & Hf).
  exists pageTitle, text, t; split; [exact Ht|].
  rewrite callTool_traverse, (traverse_resource_run env url raw s Hu Hp).
  unfold Server.fetch; rewrite Hr, Hf.
  do 2 f_equal.
  unfold Browser.bodyTextScript; now destruct (Dom.body _).
Qed.

(** ** The search for the accept button *)

Section FrameSearch.
Import Run Trace Browser.
Variable env : Env.



End FrameSearch.


(** ** The two tools agree about the session *)
Section Agreement.
Import Run Server.
Variable env : Env.




End Agreement.


(** ** The URLs that the table recognises *)
Section Recognised.
Import Detect.

Lemma prefix_trans (a b u : string) :
  String.prefix a b = true -> String.prefix b u = true -> String.prefix a u = true.
Proof.
  revert b u; induction a as [|x a IH]; intros b u Hab Hbu.
  - now destruct u.
  - destruct b as [|y b]; [discriminate|].
    destruct u as [|z u]; [discriminate|].
    simpl in *.
    destruct (Ascii.ascii_dec x y) as [->|]; [|discriminate].
    destruct (Ascii.ascii_dec y z) as [->|]; [|discriminate].
    eauto.
Qed.

End Recognised.

(** Every service of the table can be reached: any URL that continues the
    literal of its pattern, whatever follows, is detected as that service.
    And only [https://] URLs are ever recognised: for any other URL
    detectService returns [null], so the handler takes the raw fetch. *)
Theorem recognised_urls :
  (forall service, exists literal,
     In (service, Detect.Anchored literal) Detect.SERVICE_PATTERNS
     /\ forall rest, Detect.detectService (literal ++ rest) = Some service)
  /\ (forall url service,
        Detect.detectService url = Some service ->
        String.prefix "https://" url = true)
  /\ (forall url,
        String.prefix "https://" url = false ->
        Detect.detectService url = None
        /\ Extractors.getExtractor url = Extractors.Generic
        /\ forall env raw,
             Server.fetch env url raw (Detect.detectService url)
             = Browser.fetchAuthenticated env url true).
Proof.
  assert (H2 : forall url service,
             Detect.detectService url = Some service ->
             String.prefix "https://" url = true).
  { intros url service H.
    destruct (detect_in_some _ _ _ H) as (pat & Hin & Ht).
    simpl in Hin;
      repeat (destruct Hin as [Hin|Hin];
              [injection Hin as <- <-; simpl in Ht;
               refine (prefix_trans _ _ _ _ Ht); reflexivity|]).
    contradiction. }
  split; [|split; [exact H2|]].
  - intros service; destruct service; eexists; (split; [simpl; tauto|]);
      intros rest;
      (eapply detectService_of_entry; [simpl; tauto|apply prefix_app]).
  - intros url Hn.
    assert (Hd : Detect.detectService url = None).
    { destruct (Detect.detectService url) as [service|] eqn:E; [|reflexivity].
      rewrite (H2 url service E) in Hn; discriminate. }
    split; [exact Hd|]; split.
    + unfold Extractors.getExtractor; now rewrite Hd.
    + intros env raw; unfold Server.fetch; rewrite Hd; simpl.
      now rewrite orb_true_r.
Qed.

Lemma recognised_urls_witness :
  String.prefix "https://" "https://docs.google.com/document/d/1/edit" = true
  /\ Detect.detectService "http://chatgpt.com/c/42" = None.
Proof.
  split.
  - apply (proj1 (proj2 recognised_urls)
             "https://docs.google.com/document/d/1/edit" Detect.googleDocs).
    reflexivity.
  - apply (proj2 (proj2 recognised_urls) "http://chatgpt.com/c/42").
    reflexivity.
Defined.

Lemma deduplicated_fragments_witness :
  NoDup [ "**Grok:**" ++ Str.nl ++ "Hello there" ].
Proof.
  apply (proj1 (deduplicated_fragments Examples.quiet
                  (Examples.fresh Scenarios.repeated_page)
                  (snd (Extractors.readGrok Examples.quiet
                          (Examples.fresh Scenarios.repeated_page)))
                  [ "**Grok:**" ++ Str.nl ++ "Hello there" ])).
  vm_compute; reflexivity.
Defined.

Lemma generic_extraction_prunes_the_page_witness :
  Dom.querySelectorAll Cost.generic_noise
    (Run.doc (snd (Extractors.extractGeneric Examples.quiet
                     (Examples.fresh Examples.nav_page)))) = [].
Proof.
  apply (proj1 (generic_extraction_prunes_the_page Examples.quiet)
           (Examples.fresh Examples.nav_page) "Hello").
  vm_compute; reflexivity.
Defined.

Lemma raw_traversal_succeeds_witness :
  exists pageTitle text t,
    fst (Browser.bodyTextScript Examples.quiet
           (Run.doc (Examples.fresh Examples.nav_page))) = Run.Ok text
    /\ Server.callTool Examples.quiet
         (Server.MkRequest "traverse_resource" (Some "https://example.com/page") None)
         (Examples.fresh Examples.nav_page)
       = (Run.Ok (Server.MkToolResult
                    (Server.format_output
                       (Detect.detectService "https://example.com/page")
                       "https://example.com/page"
                       (Browser.MkFetched pageTitle text)) false),
          Run.MkState
            (Dom.removeAll Cost.body_noise
               (Run.doc (Examples.fresh Examples.nav_page))) t).
Proof.
  apply (raw_traversal_succeeds Examples.quiet "https://example.com/page" None
           (Examples.fresh Examples.nav_page)).
  - split; intros; reflexivity.
  - reflexivity.
  - reflexivity.
  - reflexivity.
Defined.


(** ** Extractors on a page that stays as it is *)
Section Tolerant.
Import Run Trace Extractors Scenarios.
Variable env : Env.
Hypothesis Htol : tolerant env.

Lemma tolerant_call ev s :
  is_selector_wait ev = false ->
  call env ev s = (Ok tt, MkState (doc s) (ev :: trace s)).
Proof.
  intros He; destruct Htol as [Ht Hr]; unfold call; now rewrite (Ht ev s He), Hr.
Qed.

Lemma keeps_call ev : is_selector_wait ev = false -> keeps (call env ev).
Proof. intros He s; rewrite (tolerant_call ev s He); eauto. Qed.

(** A wait for a selector is tolerated: it returns whether it timed out or
    not. *)
Lemma keeps_selector_wait sel timeout :
  keeps (ignore_errors (waitForSelector env sel timeout)).
Proof.
  intros s; destruct Htol as [_ Hr].
  unfold ignore_errors, try_catch, waitForSelector, call, ret.
  destruct (throws env _ s); [eauto|rewrite Hr; eauto].
Qed.

Lemma keeps_console line : keeps (console line).
Proof. intros s; unfold console; eauto. Qed.

Lemma keeps_bind (m k : Prog unit) :
  keeps m -> keeps k -> keeps (bind m (fun _ => k)).
Proof.
  intros Hm Hk s; destruct (Hm s) as (t & H); unfold bind; rewrite H.
  apply (Hk (MkState (doc s) t)).
Qed.

Lemma keeps_for_times n (body : Prog unit) : keeps body -> keeps (for_times n body).
Proof.
  intros Hb; induction n as [|n IH]; cbn [for_times].
  - intros s; exists (trace s); now destruct s.
  - now apply keeps_bind.
Qed.

Lemma tolerant_evaluate {A} label (f : Dom.document -> result A * Dom.document) s :
  evaluate env label f s
  = (fst (f (doc s)), MkState (snd (f (doc s))) (Evaluate label :: trace s)).
Proof.
  unfold evaluate, bind; rewrite tolerant_call by reflexivity; simpl.
  now destruct (f (doc s)).
Qed.

Lemma keeps_scrollWalk n candidates pause : keeps (scrollWalk env n candidates pause).
Proof.
  unfold scrollWalk; apply keeps_for_times, keeps_bind.
  - intros s; rewrite tolerant_evaluate; simpl; eauto.
  - now apply keeps_call.
Qed.

(** A preparation that keeps the page, then a script, then the choice
    between the result and a fallback script. *)
Lemma prepared_extraction {A} (pre : Prog unit) label
  (f : Dom.document -> result A * Dom.document) (k : A -> Prog string) d t :
  keeps pre ->
  exists t',
    bind (bind pre (fun _ => evaluate env label f)) k (MkState d t)
    = match fst (f d) with
      | Ok a => k a (MkState (snd (f d)) t')
      | Throw e => (Throw e, MkState (snd (f d)) t')
      end.
Proof.
  intros Hp; destruct (Hp (MkState d t)) as (t1 & H1).
  unfold bind at 1 2; rewrite H1, tolerant_evaluate; simpl.
  destruct (fst (f d)); eauto.
Qed.

Lemma generic_output d t :
  fst (extractGeneric env (MkState d t)) = fst (genericScript env d).
Proof. unfold extractGeneric; now rewrite tolerant_evaluate. Qed.

End Tolerant.

Lemma keeps_bind_run (env : Run.Env) {A} (m : Run.Prog unit) (k : Run.Prog A) s :
  Scenarios.keeps m ->
  exists t, Run.bind m (fun _ => k) s = k (Run.MkState (Run.doc s) t).
Proof.
  intros Hm; destruct (Hm s) as (t & H); exists t; unfold Run.bind; now rewrite H.
Qed.

(** Runs the next preparation step of an extractor on a tolerant browser. *)
Ltac prepare env Htol :=
  match goal with
  | |- context [Run.bind ?m (fun _ => ?k) (Run.MkState ?d ?t)] =>
      let H := fresh "H" in
      let t' := fresh "t" in
      destruct (keeps_bind_run env m k (Run.MkState d t)) as (t' & H);
      [ repeat first
          [ apply (keeps_scrollWalk env Htol)
          | apply (keeps_selector_wait env Htol)
          | apply keeps_console
          | apply (keeps_call env Htol); reflexivity
          | apply keeps_bind ]
      | rewrite H; clear H; cbn [Run.doc] ]
  end.

(** On a page that stays as it is, the output of an extractor is a function
    of the document alone, and a timeout of its wait for the signature
    element changes nothing: the fragments that its script reads, joined; or,
    when there are none, what the fallback script returns (extractGeneric for
    ChatGPT, Slack, Discord, Raindrop and Google Docs, the inline scripts for
    Gemini, Grok and NotebookLM).  Google Docs returns the editor text when
    it is not empty and what [trim] leaves of it has at least 50 UTF-16
    code units, and falls back otherwise. *)
Theorem extractor_output_on_a_still_page (env : Run.Env) (d : Dom.document)
  (t : list Run.event) (messages : list string) (content : string) :
  Scenarios.tolerant env ->
  (fst (Extractors.chatgptScript env d) = Run.Ok messages ->
   fst (Extractors.extractChatGPT env (Run.MkState d t))
   = if (length messages =? 0)%nat then fst (Extractors.genericScript env d)
     else Run.Ok (Str.join Extractors.separator messages))
  /\ (fst (Extractors.slackScript env d) = Run.Ok messages ->
      fst (Extractors.extractSlack env (Run.MkState d t))
      = if (length messages =? 0)%nat then fst (Extractors.genericScript env d)
        else Run.Ok (Str.join (Str.nl ++ Str.nl) messages))
  /\ (fst (Extractors.discordScript env d) = Run.Ok messages ->
      fst (Extractors.extractDiscord env (Run.MkState d t))
      = if (length messages =? 0)%nat then fst (Extractors.genericScript env d)
        else Run.Ok (Str.join (Str.nl ++ Str.nl) messages))
  /\ (fst (Extractors.raindropScript env d) = Run.Ok messages ->
      fst (Extractors.extractRaindrop env (Run.MkState d t))
      = if (length messages =? 0)%nat then fst (Extractors.genericScript env d)
        else Run.Ok (Str.join Str.nl messages))
  /\ (fst (Extractors.geminiScript env d) = Run.Ok messages ->
      fst (Extractors.extractGeminiChat env (Run.MkState d t))
      = if (length messages =? 0)%nat then fst (Extractors.mainTextScript env d)
        else Run.Ok (Str.join Extractors.separator messages))
  /\ (fst (Extractors.grokScript env d) = Run.Ok messages ->
      fst (Extractors.extractGrok env (Run.MkState d t))
      = if (length messages =? 0)%nat then fst (Extractors.mainTextScript env d)
        else Run.Ok (Str.join Extractors.separator messages))
  /\ (fst (Extractors.notebookScript env d) = Run.Ok messages ->
      fst (Extractors.extractNotebookLM env (Run.MkState d t))
      = if (length messages =? 0)%nat then fst (Extractors.notebookMainScript env d)
        else Run.Ok (Str.join Extractors.separator messages))
  /\ (fst (Extractors.googleDocScript env d) = Run.Ok content ->
      fst (Extractors.extractGoogleDoc env (Run.MkState d t))
      = if negb (Str.truthy content)
           || (Str.length (Str.trim content) <? 50)%nat
        then fst (Extractors.genericScript env d)
        else Run.Ok content).
Proof.
  intros Htol.
  repeat split; intros H.
  - unfold Extractors.extractChatGPT, Extractors.readChatGPT, Run.bind at 1.
    do 3 prepare env Htol.
    rewrite (tolerant_evaluate env Htol); cbn [Run.doc]; rewrite H.
    destruct (_ =? _)%nat; [apply (generic_output env Htol)|reflexivity].
  - unfold Extractors.extractSlack, Extractors.readSlack, Run.bind at 1.
    do 3 prepare env Htol.
    rewrite (tolerant_evaluate env Htol); cbn [Run.doc]; rewrite H.
    destruct (_ =? _)%nat; [apply (generic_output env Htol)|reflexivity].
  - unfold Extractors.extractDiscord, Extractors.readDiscord, Run.bind at 1.
    prepare env Htol.
    rewrite (tolerant_evaluate env Htol); cbn [Run.doc]; rewrite H.
    destruct (_ =? _)%nat; [apply (generic_output env Htol)|reflexivity].
  - unfold Extractors.extractRaindrop, Extractors.readRaindrop, Run.bind at 1.
    prepare env Htol.
    rewrite (tolerant_evaluate env Htol); cbn [Run.doc]; rewrite H.
    destruct (_ =? _)%nat; [apply (generic_output env Htol)|reflexivity].
  - unfold Extractors.extractGeminiChat, Extractors.readGeminiChat, Run.bind at 1.
    prepare env Htol.
    rewrite (tolerant_evaluate env Htol); cbn [Run.doc]; rewrite H.
    destruct (_ =? _)%nat; [now rewrite (tolerant_evaluate env Htol)|reflexivity].
  - unfold Extractors.extractGrok, Extractors.readGrok, Run.bind at 1.
    do 3 prepare env Htol.
    rewrite (tolerant_evaluate env Htol); cbn [Run.doc]; rewrite H.
    destruct (_ =? _)%nat; [now rewrite (tolerant_evaluate env Htol)|reflexivity].
  - unfold Extractors.extractNotebookLM, Extractors.readNotebookLM, Run.bind at 1.
    do 3 prepare env Htol.
    rewrite (tolerant_evaluate env Htol); cbn [Run.doc]; rewrite H.
    destruct (_ =? _)%nat; [now rewrite (tolerant_evaluate env Htol)|reflexivity].
  - unfold Extractors.extractGoogleDoc, Extractors.readGoogleDoc, Run.bind at 1.
    do 2 prepare env Htol.
    rewrite (tolerant_evaluate env Htol); cbn [Run.doc]; rewrite H.
    rewrite googleDocScript_keeps.
    destruct (_ || _); [apply (generic_output env Htol)|reflexivity].
Qed.

Lemma extractor_output_on_a_still_page_witness :
  fst (Extractors.extractDiscord Scenarios.selector_timeouts
         (Run.MkState Examples.discord_page []))
  = (if (length ["**ann**: hi"] =? 0)%nat
     then fst (Extractors.genericScript Scenarios.selector_timeouts
                 Examples.discord_page)
     else Run.Ok (Str.join (Str.nl ++ Str.nl) ["**ann**: hi"])).
Proof.
  destruct (extractor_output_on_a_still_page Scenarios.selector_timeouts
              Examples.discord_page [] ["**ann**: hi"] EmptyString)
    as (_ & _ & H & _).
  - split; [|reflexivity].
    intros ev s He; destruct ev; try reflexivity; discriminate He.
  - apply H; vm_compute; reflexivity.
Defined.

(** *** Texts outside ASCII

    [trim] removes the white space of Unicode, [length] counts code units
    (two for a character outside the basic plane), and the test of the
    Grok script on the length of a text is made on code units. *)
Example texts_outside_ascii :
  Str.trim (Scenarios.nbsp ++ " a b " ++ Scenarios.nbsp ++ Str.nl) = "a b"
  /\ Str.trim (Scenarios.nbsp ++ Scenarios.nbsp) = EmptyString
  /\ String.length Scenarios.globe = 4
  /\ Str.length Scenarios.globe = 2
  /\ Str.length (Scenarios.globe ++ Scenarios.globe ++ Scenarios.globe) = 6
  /\ Str.includes_start ("x" ++ Scenarios.globe ++ "y") 1 Scenarios.globe = true
  /\ Str.includes_start "xy" 1 Scenarios.globe = false.
Proof. repeat split; vm_compute; reflexivity. Qed.

(** An editor text of a no-break space and 49 letters is non-empty and 51
    bytes long, but [trim] leaves 49 code units of it: extractGoogleDoc
    falls back to extractGeneric. *)
Example padded_document_falls_back :
  fst (Extractors.googleDocScript Examples.quiet Scenarios.padded_doc_page)
  = Run.Ok (Scenarios.nbsp ++ "aaaaaaaaaaaaaaaaaaaaaaaaaaaaaaaaaaaaaaaaaaaaaaaaa")
  /\ Str.length
       (Str.trim (Scenarios.nbsp ++ "aaaaaaaaaaaaaaaaaaaaaaaaaaaaaaaaaaaaaaaaaaaaaaaaa"))
     = 49
  /\ Extractors.extractGoogleDoc Examples.quiet
       (Examples.fresh Scenarios.padded_doc_page)
     = Run.bind (Extractors.readGoogleDoc Examples.quiet)
         (fun _ => Extractors.extractGeneric Examples.quiet)
         (Examples.fresh Scenarios.padded_doc_page).
Proof. repeat split; vm_compute; reflexivity. Qed.

(** ** The login-wall test on error messages *)
Section LoginWall.

Lemma prefix_split (u s : string) :
  String.prefix u s = true -> exists after, s = u ++ after.
Proof.
  revert s; induction u as [|c u IH]; intros s H.
  - now exists s.
  - destruct s as [|x s]; [discriminate|]; simpl in H.
    destruct (Ascii.ascii_dec c x) as [->|]; [|discriminate].
    destruct (IH s H) as (after & ->); now exists after.
Qed.

Lemma includes_split (s u : string) :
  Str.includes s u = true <-> exists before after, s = before ++ u ++ after.
Proof.
  assert (U : forall x, Str.includes x u
                        = String.prefix u x
                          || match x with
                             | EmptyString => false
                             | String _ rest => Str.includes rest u
                             end) by (intros x; now destruct x).
  split.
  - induction s as [|c s IH]; rewrite U; intros H.
    + rewrite orb_false_r in H; destruct (prefix_split _ _ H) as (after & ->).
      now exists EmptyString, after.
    + apply orb_true_iff in H; destruct H as [H|H].
      * destruct (prefix_split _ _ H) as (after & ->).
        now exists EmptyString, after.
      * destruct (IH H) as (before & after & ->).
        now exists (String c before), after.
  - intros (before & after & ->); apply includes_app_r, includes_here.
Qed.

Lemma includes_inside (s u before after : string) :
  Str.includes s u = true -> Str.includes (before ++ s ++ after) u = true.
Proof.
  intros H; apply includes_split in H; destruct H as (b & a & ->).
  apply includes_split; exists (before ++ b), (a ++ after).
  now rewrite !append_assoc.
Qed.

End LoginWall.

(** The login-wall test is a substring test, not a check of what failed: a
    message is taken for a login wall exactly when "Session expired",
    "Sign in" or "login" occurs somewhere in it, so it stays one when text is
    put around it.  In particular, when the failing fetch of a URL that
    contains "login" reports an error that quotes the URL, the answer is the
    re-authentication text, whatever failed. *)
Theorem login_wall_is_a_substring_test (env : Run.Env) (message : string) :
  (Server.auth_wall message = true <->
   exists marker before after,
     In marker ["Session expired"; "Sign in"; "login"]
     /\ message = before ++ marker ++ after)
  /\ (forall before after,
        Server.auth_wall message = true ->
        Server.auth_wall (before ++ message ++ after) = true)
  /\ (forall url raw s s1 before after,
        Str.includes url "login" = true ->
        Server.missing (Some url) = false ->
        Run.profile_exists env s = true ->
        Server.fetch env url raw (Detect.detectService url) s
        = (Run.Throw (before ++ url ++ after), s1) ->
        Server.callTool env (Server.MkRequest "traverse_resource" (Some url) raw) s
        = (Run.Ok (Server.MkToolResult (Server.reauth_text url) true), s1)).
Proof.
  assert (M : forall m before after,
             Server.auth_wall m = true ->
             Server.auth_wall (before ++ m ++ after) = true).
  { intros m before after; unfold Server.auth_wall.
    rewrite !orb_true_iff; intros [[H|H]|H];
      [left; left|left; right|right]; now apply includes_inside. }
  split; [|split].
  - unfold Server.auth_wall; rewrite !orb_true_iff, !includes_split; split.
    + intros [[(b & a & H)|(b & a & H)]|(b & a & H)];
        [exists "Session expired"|exists "Sign in"|exists "login"];
        exists b, a; simpl; auto.
    + intros (marker & b & a & Hin & H); simpl in Hin.
      destruct Hin as [<-|[<-|[<-|[]]]]; eauto.
  - apply M.
  - intros url raw s s1 before after Hl Hu Hp Hf.
    rewrite callTool_traverse, (traverse_resource_run env url raw s Hu Hp), Hf.
    rewrite (M url before after); [reflexivity|].
    unfold Server.auth_wall; rewrite Hl; now rewrite orb_true_r.
Qed.

Lemma login_wall_is_a_substring_test_witness :
  Server.auth_wall ("page.goto: " ++ "net::ERR_ABORTED; maybe Sign in first" ++ " (attempt 1)")
  = true.
Proof.
  apply (proj1 (proj2 (login_wall_is_a_substring_test Examples.quiet
                         "net::ERR_ABORTED; maybe Sign in first"))).
  reflexivity.
Defined.

(** ** The error flag of an answer *)
Section ErrorFlag.
Import Run Browser Server.
Variable env : Env.

(** A fetch returns only if it found the profile directory. *)
Lemma fetch_Ok_session url raw service s result s' :
  fetch env url raw service s = (Ok result, s') -> profile_exists env s = true.
Proof.
  unfold fetch, fetchAuthenticated, fetchWithExtractor.
  destruct (_ || _); intros H;
    apply bind_Ok in H; destruct H as (session & s0 & H0 & H);
    injection H0 as <- <-;
    destruct (profile_exists env s); [reflexivity|discriminate
                                     |reflexivity|discriminate].
Qed.

End ErrorFlag.

(** The error flag of a traverse_resource answer is faithful: the answer
    comes without [isError] exactly when the request carried a URL and the
    fetch of that URL returned; a missing URL, a missing session and every
    failure of the fetch are flagged. *)
Theorem error_flag_is_faithful (env : Run.Env) (u : option string)
  (raw : option bool) (s s' : Run.State) (answer : Server.ToolResult) :
  Server.callTool env (Server.MkRequest "traverse_resource" u raw) s
  = (Run.Ok answer, s') ->
  (Server.isError answer = false <->
   exists url result,
     u = Some url /\ Server.missing u = false
     /\ Server.fetch env url raw (Detect.detectService url) s = (Run.Ok result, s')).
Proof.
  rewrite callTool_traverse; intros H; split.
  - intros He.
    destruct (Server.traverse_resource env u raw s) as [[a|e] s1] eqn:T;
      injection H as <- <-; [|discriminate].
    destruct (traverse_resource_success env u raw s a s1 T He)
      as (url & result & -> & Hf & _).
    exists url, result; repeat split; [|exact Hf].
    destruct (Server.missing (Some url)) eqn:Hm; [|reflexivity].
    unfold Server.traverse_resource in T; rewrite Hm in T.
    injection T as <- _; discriminate He.
  - intros (url & result & -> & Hu & Hf).
    rewrite (traverse_resource_run env url raw s Hu
               (fetch_Ok_session env _ _ _ _ _ _ Hf)), Hf in H.
    inversion H; reflexivity.
Qed.

Lemma error_flag_is_faithful_witness :
  Server.isError
    (Server.MkToolResult
       (Server.lines [ "# Example (gemini)"; EmptyString;
                       "**Source:** https://gemini.google.com/app/abc123";
                       EmptyString; "---"; EmptyString; "AB" ]) false) = false
  <-> exists url result,
        Some "https://gemini.google.com/app/abc123" = Some url
        /\ Server.missing (Some "https://gemini.google.com/app/abc123") = false
        /\ Server.fetch Examples.quiet url None (Detect.detectService url)
             (Examples.fresh Examples.article_page)
           = (Run.Ok result,
              snd (Server.callTool Examples.quiet
                     (Server.MkRequest "traverse_resource"
                        (Some "https://gemini.google.com/app/abc123") None)
                     (Examples.fresh Examples.article_page))).
Proof.
  apply (error_flag_is_faithful Examples.quiet
           (Some "https://gemini.google.com/app/abc123") None
           (Examples.fresh Examples.article_page)).
  vm_compute; reflexivity.
Defined.
